(** * Tow-job workflow tracker: access guard, lifecycle, evidence store

    A shallow embedding of the request handlers of [app/routers/tow_jobs.py],
    [app/routers/admin.py] and of the upload service [app/services/storage.py],
    together with the properties the specification states about them.

    Conventions of the embedding:
    - a Python [str] is a [string] of ASCII characters: white space and case
      are those of Python on code points below 128, other characters are
      left as they are;
    - a Python [float] is [float] below: a rational, an infinity or NaN, with
      the comparison of IEEE 754;
    - a table with a string primary key is a [gmap string _]; the audit log and
      the photo table keep insertion order and are lists;
    - a handler is a computation in the monad [M]: it threads the request
      world (database session, disk, source of fresh UUIDs) and may raise. *)

From Stdlib Require Import ZArith QArith String Ascii List Bool Lia.
From stdpp Require Import base option gmap strings list pretty.
From Equations Require Import Equations.

Set Equations Transparent.

Local Open Scope string_scope.
Local Open Scope Z_scope.

(** ** Python strings *)

Module Py.

(** [str.isspace] on one character: tab to carriage return, the four
    separators 28 to 31, and the space. *)
Definition isspace (a : ascii) : bool :=
  let n := N_of_ascii a in
  ((9 <=? n) && (n <=? 13) || (28 <=? n) && (n <=? 32))%N.

Fixpoint lstrip (s : string) : string :=
  match s with
  | EmptyString => EmptyString
  | String a s' => if isspace a then lstrip s' else s
  end.

(** [rstrip] keeps a character when it is not a space or when something
    that is kept follows it. *)
Fixpoint rstrip (s : string) : string :=
  match s with
  | EmptyString => EmptyString
  | String a s' =>
      match rstrip s' with
      | EmptyString => if isspace a then EmptyString else String a EmptyString
      | r => String a r
      end
  end.

Definition strip (s : string) : string := rstrip (lstrip s).

Definition upper_char (a : ascii) : ascii :=
  let n := N_of_ascii a in
  if ((97 <=? n) && (n <=? 122))%N then ascii_of_N (n - 32) else a.

Definition lower_char (a : ascii) : ascii :=
  let n := N_of_ascii a in
  if ((65 <=? n) && (n <=? 90))%N then ascii_of_N (n + 32) else a.

Fixpoint map_chars (f : ascii -> ascii) (s : string) : string :=
  match s with
  | EmptyString => EmptyString
  | String a s' => String (f a) (map_chars f s')
  end.

Definition upper : string -> string := map_chars upper_char.
Definition lower : string -> string := map_chars lower_char.

(** [c in s] for a one-character [c]. *)
Fixpoint contains (c : ascii) (s : string) : bool :=
  match s with
  | EmptyString => false
  | String a s' => Ascii.eqb a c || contains c s'
  end.

(** [s.rpartition(c)]: the text before and after the last [c], if any. *)
Fixpoint rpartition (c : ascii) (s : string) : option (string * string) :=
  match s with
  | EmptyString => None
  | String a s' =>
      match rpartition c s' with
      | Some (h, t) => Some (String a h, t)
      | None => if Ascii.eqb a c then Some (EmptyString, s') else None
      end
  end.

(** [s.rsplit(c, 1)[-1]] *)
Definition rsplit1_last (c : ascii) (s : string) : string :=
  match rpartition c s with
  | Some (_, t) => t
  | None => s
  end.

Definition startswith (s p : string) : bool := String.prefix p s.

Fixpoint endswith_char (s : string) (c : ascii) : bool :=
  match s with
  | EmptyString => false
  | String a EmptyString => Ascii.eqb a c
  | String _ s' => endswith_char s' c
  end.

(** [s[:-1]] *)
Fixpoint drop_last (s : string) : string :=
  match s with
  | EmptyString => EmptyString
  | String _ EmptyString => EmptyString
  | String a s' => String a (drop_last s')
  end.

(** Truthiness of an [Optional[str]]: [None] and the empty string are false. *)
Definition truthy (o : option string) : bool :=
  match o with
  | Some (String _ _) => true
  | _ => false
  end.

Fixpoint split (c : ascii) (s : string) : list string :=
  match s with
  | EmptyString => [EmptyString]
  | String a s' =>
      if Ascii.eqb a c then EmptyString :: split c s'
      else match split c s' with
           | w :: ws => String a w :: ws
           | [] => [String a EmptyString]
           end
  end.

Fixpoint join (sep : string) (l : list string) : string :=
  match l with
  | [] => EmptyString
  | [x] => x
  | x :: l' => x ++ sep ++ join sep l'
  end.

Fixpoint all_chars (p : ascii -> bool) (s : string) : bool :=
  match s with
  | EmptyString => true
  | String a s' => p a && all_chars p s'
  end.

(** [repr(s)], as [str(e)] of an [OSError] shows the file name: between
    single quotes, or between double quotes when the text holds a single
    quote and no double quote; the backslash, the quote and the control
    characters are escaped. Characters from 127 on, which the ASCII
    convention leaves out, are written in hexadecimal. *)
Definition squote : ascii := "'"%char.
Definition dquote : ascii := ascii_of_nat 34.
Definition backslash : ascii := "\"%char.

Definition hex_digit (n : N) : ascii :=
  if (n <? 10)%N then ascii_of_N (48 + n) else ascii_of_N (87 + n).

Definition repr_char (quote a : ascii) : string :=
  let n := N_of_ascii a in
  if Ascii.eqb a quote || Ascii.eqb a backslash
  then String backslash (String a EmptyString)
  else if (n =? 9)%N then "\t"
  else if (n =? 10)%N then "\n"
  else if (n =? 13)%N then "\r"
  else if (n <? 32)%N || (127 <=? n)%N
  then String backslash
         (String "x" (String (hex_digit (n / 16))
                        (String (hex_digit (n mod 16)) EmptyString)))
  else String a EmptyString.

Fixpoint repr_body (quote : ascii) (s : string) : string :=
  match s with
  | EmptyString => EmptyString
  | String a s' => String.append (repr_char quote a) (repr_body quote s')
  end.

Definition repr (s : string) : string :=
  let quote := if contains squote s && negb (contains dquote s)
               then dquote else squote in
  String quote (String.append (repr_body quote s) (String quote EmptyString)).

End Py.

(** ** Python floats *)

Inductive float : Type :=
| FNaN
| FInf (negative : bool)
| FFin (q : Q).

(** [a <= b] on floats: false as soon as one side is NaN. *)
Definition fle (a b : float) : bool :=
  match a, b with
  | FNaN, _ | _, FNaN => false
  | FInf true, _ => true
  | _, FInf false => true
  | FInf false, _ => false
  | _, FInf true => false
  | FFin x, FFin y => Qle_bool x y
  end.

Definition of_Z (z : Z) : float := FFin (inject_Z z).

(** [lo <= x <= hi] *)
Definition between (lo x hi : float) : bool := fle lo x && fle x hi.

(** ** Data model ([app/models]) *)

Inductive UserRole : Type := OFFICER | DRIVER | DISPATCHER | ADMIN.

Inductive TowStatus : Type :=
| NEW | ASSIGNED | EN_ROUTE | ARRIVED | TOWED | CLOSED | CANCELLED.

Global Instance UserRole_eq_dec : EqDecision UserRole.
Proof. solve_decision. Defined.

Global Instance TowStatus_eq_dec : EqDecision TowStatus.
Proof. solve_decision. Defined.

(** The [.value] of the two string enums. *)
Definition role_value (r : UserRole) : string :=
  match r with
  | OFFICER => "OFFICER" | DRIVER => "DRIVER"
  | DISPATCHER => "DISPATCHER" | ADMIN => "ADMIN"
  end.

Definition status_value (s : TowStatus) : string :=
  match s with
  | NEW => "NEW" | ASSIGNED => "ASSIGNED" | EN_ROUTE => "EN_ROUTE"
  | ARRIVED => "ARRIVED" | TOWED => "TOWED" | CLOSED => "CLOSED"
  | CANCELLED => "CANCELLED"
  end.

(** Terminal states of the lifecycle, as the specification names them. *)
Definition terminal (s : TowStatus) : bool :=
  match s with CLOSED | CANCELLED => true | _ => false end.

(** Rows. [created_at] and [updated_at] are filled in by the database server
    and no handler modelled here reads them back for a decision; they are
    left out of the rows. *)
Module User.
Record t : Type := mk {
  id : string;
  name : string;
  phone : string;
  role : UserRole;
  password_hash : string;
  is_active : bool }.
End User.

Module TowJob.
Record t : Type := mk {
  id : string;
  plate_number : string;
  officer_id : string;
  status : TowStatus;
  assigned_driver_id : option string;
  violation_type : option string;
  notes : option string;
  location_lat : float;
  location_lng : float;
  location_accuracy_m : option float }.

Definition set_status (s : TowStatus) (j : t) : t :=
  mk (id j) (plate_number j) (officer_id j) s (assigned_driver_id j)
     (violation_type j) (notes j) (location_lat j) (location_lng j)
     (location_accuracy_m j).

Definition set_assigned_driver_id (d : option string) (j : t) : t :=
  mk (id j) (plate_number j) (officer_id j) (status j) d
     (violation_type j) (notes j) (location_lat j) (location_lng j)
     (location_accuracy_m j).

Definition set_notes (n : option string) (j : t) : t :=
  mk (id j) (plate_number j) (officer_id j) (status j) (assigned_driver_id j)
     (violation_type j) n (location_lat j) (location_lng j)
     (location_accuracy_m j).
End TowJob.

(** A parsed [datetime]; its structure plays no role here. *)
Record datetime : Type := { dt_iso : string }.

Module TowJobPhoto.
Record t : Type := mk {
  id : string;
  tow_job_id : string;
  uploaded_by_user_id : string;
  photo_type : string;
  file_path : string;
  content_type : string;
  size_bytes : Z;
  lat : option float;
  lng : option float;
  accuracy_m : option float;
  captured_at : option datetime }.
End TowJobPhoto.

Module TowJobEvent.
Record t : Type := mk {
  id : string;
  tow_job_id : string;
  actor_user_id : string;
  event_type : string;
  message : option string }.
End TowJobEvent.

(** ** Request schemas ([app/schemas], [app/routers/admin.py]) *)

Module TowJobCreate.
(** The JSON body before validation: every key may be missing. *)
Record raw : Type := mk_raw {
  raw_plate_number : option string;
  raw_location_lat : option float;
  raw_location_lng : option float;
  raw_location_accuracy_m : option float;
  raw_violation_type : option string;
  raw_notes : option string }.

Record t : Type := mk {
  plate_number : string;
  location_lat : float;
  location_lng : float;
  location_accuracy_m : option float;
  violation_type : option string;
  notes : option string }.

(** What the declared field types demand: [plate_number] of 2 to 32
    characters, [location_lat] and [location_lng] present. *)
Definition validate (r : raw) : option t :=
  match raw_plate_number r, raw_location_lat r, raw_location_lng r with
  | Some p, Some la, Some lo =>
      if ((2 <=? Z.of_nat (String.length p))
          && (Z.of_nat (String.length p) <=? 32))%Z
      then Some (mk p la lo (raw_location_accuracy_m r)
                    (raw_violation_type r) (raw_notes r))
      else None
  | _, _, _ => None
  end.
End TowJobCreate.

Module TowJobAssign.
Record t : Type := mk { driver_id : string }.
End TowJobAssign.

Module TowJobStatusUpdate.
Record t : Type := mk { status : TowStatus; notes : option string }.
End TowJobStatusUpdate.

Module AdminUserUpdate.
Record t : Type := mk {
  name : option string;
  phone : option string;
  role : option UserRole;
  is_active : option bool }.
End AdminUserUpdate.

(** ** Uploads, disk, database session *)

(** The stream behind an [UploadFile]: the bytes still to be read and, when
    the transport fails, the number of reads that succeed before it does. *)
Record reader : Type := {
  data : list Byte.byte;
  fault_in : option nat }.

Record UploadFile : Type := {
  filename : option string;
  content_type : option string;
  file : reader }.

Record FS : Type := {
  files : gmap string (list Byte.byte);
  dirs : gset string;
  cwd : string }.

Record DB : Type := {
  users : gmap string User.t;
  tow_jobs : gmap string TowJob.t;
  tow_job_photos : list TowJobPhoto.t;
  tow_job_events : list TowJobEvent.t }.

(** Modelled from the spec: [app/core/db.py] ([get_db], [SessionLocal]) is not
    among the sources. The specification describes a persistence interface
    with create, query, update and commit on typed records, whose in-memory
    views are transient per request. A session therefore holds the committed
    rows and the request's working copy; [commit] publishes the working copy,
    and a request that ends without it leaves the committed rows as they
    were. [stale] records a pending insert whose primary key is taken: the
    flush of such a session fails. *)
Record Session : Type := {
  committed : DB;
  working : DB;
  stale : bool }.

(** The world of one request. [rng] is the sequence of values [uuid.uuid4()]
    returns and [drawn] the number of values taken so far. *)
Record World : Type := {
  db : Session;
  disk : FS;
  rng : nat -> string;
  drawn : nat }.

(** Of [Settings], the upload limit is the one field the handlers below
    read. *)
Record Settings : Type := { MAX_UPLOAD_MB : Z }.

(** ** Exceptions and the handler monad *)

Inductive exn : Type :=
| HTTPException (status_code : Z) (detail : string)
| IntegrityError
| InvalidRequestError
| OSError (msg : string).

Inductive outcome (A : Type) : Type :=
| Returned (a : A)
| Raised (e : exn).
Arguments Returned {A} a.
Arguments Raised {A} e.

Definition M (A : Type) : Type := World -> outcome A * World.

Global Instance M_ret : MRet M := fun A a w => (Returned a, w).

Global Instance M_bind : MBind M := fun A B f m w =>
  match m w with
  | (Returned a, w') => f a w'
  | (Raised e, w') => (Raised e, w')
  end.

Definition raise {A} (e : exn) : M A := fun w => (Raised e, w).

(** [try: m except: h] *)
Definition try_except {A} (m : M A) (h : exn -> M A) : M A := fun w =>
  match m w with
  | (Returned a, w') => (Returned a, w')
  | (Raised e, w') => h e w'
  end.

Definition get_world : M World := fun w => (Returned w, w).

Definition with_db (s : Session) (w : World) : World :=
  {| db := s; disk := disk w; rng := rng w; drawn := drawn w |}.

Definition with_disk (d : FS) (w : World) : World :=
  {| db := db w; disk := d; rng := rng w; drawn := drawn w |}.

Definition with_working (d : DB) (s : Session) : Session :=
  {| committed := committed s; working := d; stale := stale s |}.

Definition mark_stale (s : Session) : Session :=
  {| committed := committed s; working := working s; stale := true |}.

(** [str(uuid.uuid4())] *)
Definition uuid4 : M string := fun w =>
  (Returned (rng w (drawn w)),
   {| db := db w; disk := disk w; rng := rng w; drawn := S (drawn w) |}).

(** A canonical UUID string: 36 characters, lower-case hexadecimal digits
    and hyphens. *)
Definition uuid_char (a : ascii) : bool :=
  let n := N_of_ascii a in
  ((48 <=? n) && (n <=? 57) || (97 <=? n) && (n <=? 102) || (n =? 45))%N.

Definition is_uuid (s : string) : bool :=
  (String.length s =? 36)%nat && Py.all_chars uuid_char s.

(** ** Paths ([posixpath]) *)

Module Path.

Definition sep : ascii := "/"%char.

(** [os.path.join(a, b)] *)
Definition join (a b : string) : string :=
  if Py.startswith b "/" then b
  else if (String.eqb a "") || Py.endswith_char a sep then a ++ b
  else a ++ "/" ++ b.

(** [os.path.dirname(p)]: the text up to the last separator, without
    trailing separators unless it consists of separators only. *)
Fixpoint rstrip_sep (s : string) : string :=
  match s with
  | EmptyString => EmptyString
  | String a s' =>
      match rstrip_sep s' with
      | EmptyString =>
          if Ascii.eqb a sep then EmptyString else String a EmptyString
      | r => String a r
      end
  end.

Definition dirname (p : string) : string :=
  match Py.rpartition sep p with
  | None => ""
  | Some (h, _) =>
      let head := h ++ "/" in
      if Py.all_chars (fun a => Ascii.eqb a sep) head then head
      else rstrip_sep head
  end.

Definition basename (p : string) : string := Py.rsplit1_last sep p.

(** The loop of [normpath] over the components; [acc] is [new_comps],
    last component first. *)
Fixpoint norm_comps (rooted : bool) (comps acc : list string) : list string :=
  match comps with
  | [] => rev acc
  | comp :: rest =>
      if String.eqb comp "" || String.eqb comp "." then
        norm_comps rooted rest acc
      else if negb (String.eqb comp "..")
              || (negb rooted && bool_decide (acc = []))
              || match acc with top :: _ => String.eqb top ".." | [] => false end
      then norm_comps rooted rest (comp :: acc)
      else norm_comps rooted rest (tail acc)
  end.

Definition normpath (path : string) : string :=
  if String.eqb path "" then "."
  else
    let initial_slashes :=
      if Py.startswith path "//" && negb (Py.startswith path "///") then "//"
      else if Py.startswith path "/" then "/" else "" in
    let comps := norm_comps (negb (String.eqb initial_slashes ""))
                            (Py.split sep path) [] in
    let path' := initial_slashes ++ Py.join "/" comps in
    if String.eqb path' "" then "." else path'.

(** [os.path.abspath(p)] in working directory [cwd] *)
Definition abspath (cwd p : string) : string :=
  normpath (if Py.startswith p "/" then p else join cwd p).

End Path.

(** ** Disk operations *)

Definition set_files (f : gmap string (list Byte.byte)) (d : FS) : FS :=
  {| files := f; dirs := dirs d; cwd := cwd d |}.

Definition set_dirs (s : gset string) (d : FS) : FS :=
  {| files := files d; dirs := s; cwd := cwd d |}.

Definition resolve (d : FS) (p : string) : string := Path.abspath (cwd d) p.

(** The text of an [OSError] raised for the path [p]: [str(e)]. *)
Definition os_error (errno what p : string) : exn :=
  OSError ("[Errno " ++ errno ++ "] " ++ what ++ ": " ++ Py.repr p).

(** [os.makedirs(p, exist_ok=True)] *)
Definition makedirs_exist_ok (p : string) : M unit := fun w =>
  let ap := resolve (disk w) p in
  if bool_decide (is_Some (files (disk w) !! ap))
  then (Raised (os_error "17" "File exists" p), w)
  else (Returned tt, with_disk (set_dirs ({[ap]} ∪ dirs (disk w)) (disk w)) w).

(** [open(p, "wb")]: needs the parent directory; creates or truncates. *)
Definition open_wb (p : string) : M unit := fun w =>
  let ap := resolve (disk w) p in
  if bool_decide (ap ∈ dirs (disk w))
  then (Raised (os_error "21" "Is a directory" p), w)
  else if bool_decide (Path.dirname ap ∈ dirs (disk w))
  then (Returned tt, with_disk (set_files (<[ap := []]> (files (disk w))) (disk w)) w)
  else (Raised (os_error "2" "No such file or directory" p), w).

(** Leaving the [with] block closes the handle: what was written to it is
    the content of the file from then on. *)
Definition close_with (p : string) (written : list Byte.byte) : M unit := fun w =>
  (Returned tt,
   with_disk (set_files (<[resolve (disk w) p := written]> (files (disk w))) (disk w)) w).

(** [os.path.exists(p)] *)
Definition os_path_exists (p : string) : M bool := fun w =>
  let ap := resolve (disk w) p in
  (Returned (bool_decide (is_Some (files (disk w) !! ap))
             || bool_decide (ap ∈ dirs (disk w))), w).

(** [os.remove(p)] *)
Definition os_remove (p : string) : M unit := fun w =>
  let ap := resolve (disk w) p in
  if bool_decide (is_Some (files (disk w) !! ap))
  then (Returned tt, with_disk (set_files (delete ap (files (disk w))) (disk w)) w)
  else (Raised (os_error "2" "No such file or directory" p), w).

(** ** Session operations *)

Definition set_users (u : gmap string User.t) (d : DB) : DB :=
  {| users := u; tow_jobs := tow_jobs d;
     tow_job_photos := tow_job_photos d; tow_job_events := tow_job_events d |}.

Definition set_tow_jobs (j : gmap string TowJob.t) (d : DB) : DB :=
  {| users := users d; tow_jobs := j;
     tow_job_photos := tow_job_photos d; tow_job_events := tow_job_events d |}.

Definition set_tow_job_photos (p : list TowJobPhoto.t) (d : DB) : DB :=
  {| users := users d; tow_jobs := tow_jobs d;
     tow_job_photos := p; tow_job_events := tow_job_events d |}.

Definition set_tow_job_events (e : list TowJobEvent.t) (d : DB) : DB :=
  {| users := users d; tow_jobs := tow_jobs d;
     tow_job_photos := tow_job_photos d; tow_job_events := e |}.

(** [db.query(...)]: reads the working copy; the flush that precedes a
    query fails on a stale session. *)
Definition db_query {A} (f : DB -> A) : M A := fun w =>
  if stale (db w) then (Raised IntegrityError, w)
  else (Returned (f (working (db w))), w).

(** Edit of the working copy: attribute assignment on a loaded row. *)
Definition db_modify (f : DB -> DB) : M unit := fun w =>
  (Returned tt, with_db (with_working (f (working (db w))) (db w)) w).

(** [db.add(row)]: a pending insert, stale when the key is taken. *)
Definition pending_insert (taken : DB -> bool) (ins : DB -> DB) (s : Session)
  : Session :=
  if taken (working s) then mark_stale s
  else with_working (ins (working s)) s.

Definition db_add (taken : DB -> bool) (ins : DB -> DB) : M unit := fun w =>
  (Returned tt, with_db (pending_insert taken ins (db w)) w).

Definition db_add_job (j : TowJob.t) : M unit :=
  db_add (fun d => bool_decide (is_Some (tow_jobs d !! TowJob.id j)))
         (fun d => set_tow_jobs (<[TowJob.id j := j]> (tow_jobs d)) d).

Definition db_add_photo (p : TowJobPhoto.t) : M unit :=
  db_add (fun d => existsb (fun q => String.eqb (TowJobPhoto.id q) (TowJobPhoto.id p))
                          (tow_job_photos d))
         (fun d => set_tow_job_photos (tow_job_photos d ++ [p]) d).

Definition db_add_event (e : TowJobEvent.t) : M unit :=
  db_add (fun d => existsb (fun q => String.eqb (TowJobEvent.id q) (TowJobEvent.id e))
                          (tow_job_events d))
         (fun d => set_tow_job_events (tow_job_events d ++ [e]) d).

(** [db.commit()] *)
Definition db_commit : M unit := fun w =>
  if stale (db w)
  then (Raised IntegrityError,
        with_db {| committed := committed (db w); working := committed (db w);
                   stale := false |} w)
  else (Returned tt,
        with_db {| committed := working (db w); working := working (db w);
                   stale := false |} w).

(** [db.refresh(row)]: the row as committed. *)
Definition db_refresh {A} (f : DB -> option A) : M A := fun w =>
  match f (committed (db w)) with
  | Some a => (Returned a, w)
  | None => (Raised InvalidRequestError, w)
  end.

(** A request: the handler runs on a fresh session over the committed rows;
    when it ends, normally or not, the session is closed and only what was
    committed remains. *)
Definition request {A} (h : M A) (d : DB) (fs : FS) (ids : nat -> string)
  : outcome A * DB * FS :=
  let '(r, w) := h {| db := {| committed := d; working := d; stale := false |};
                      disk := fs; rng := ids; drawn := 0 |} in
  (r, committed (db w), disk w).

(** ** Evidence store ([app/services/storage.py]) *)

Definition UPLOAD_DIR : string := "uploads".

(** The size of one read: [1024 * 1024]. *)
Definition CHUNK : Z := 1024 * 1024.

Definition len {A} (l : list A) : Z := Z.of_nat (length l).

(** The first [n] elements, and the rest. *)
Fixpoint take_upto {A} (n : Z) (l : list A) : list A :=
  match l with
  | [] => []
  | x :: l' => if 0 <? n then x :: take_upto (n - 1) l' else []
  end.

Fixpoint drop_upto {A} (n : Z) (l : list A) : list A :=
  match l with
  | [] => []
  | x :: l' => if 0 <? n then drop_upto (n - 1) l' else l
  end.

(** [file.file.read(n)] *)
Definition read (n : Z) (rd : reader) : outcome (list Byte.byte) * reader :=
  match fault_in rd with
  | Some O => (Raised (OSError "read failed"), rd)
  | fi => (Returned (take_upto n (data rd)),
           {| data := drop_upto n (data rd); fault_in := Nat.pred <$> fi |})
  end.

Definition ensure_upload_dir : M unit := makedirs_exist_ok UPLOAD_DIR.

Definition _guess_ext (filename : option string) : string :=
  match filename with
  | None => ""
  | Some f =>
      if negb (Py.truthy (Some f)) || negb (Py.contains "." f) then ""
      else "." ++ Py.lower (Py.rsplit1_last "." f)
  end.

Definition exn_str (e : exn) : string :=
  match e with
  | HTTPException _ d => d
  | IntegrityError => "IntegrityError"
  | InvalidRequestError => "InvalidRequestError"
  | OSError m => m
  end.

Definition inspect {A} (a : A) : {b : A | a = b} := exist _ a eq_refl.

Section Service.

Variable settings : Settings.

(** [str(float)], [datetime.fromisoformat]: library functions *)
Variable float_str : float -> string.
Variable fromisoformat : string -> option datetime.

Definition too_large : exn :=
  HTTPException 413
    ("File too large. Max is " ++ pretty (MAX_UPLOAD_MB settings) ++ "MB.").

(** The [while True] loop of [save_upload_streaming]: its outcome (the byte
    count at [break], or the exception) and the bytes handed to
    [out.write] so far. *)
Equations? copy_chunks (max_bytes : Z) (rd : reader) (bytes_written : Z)
  (out : list Byte.byte) : outcome Z * list Byte.byte
  by wf (length (data rd)) lt :=
copy_chunks max_bytes rd bytes_written out with inspect (read CHUNK rd) => {
  | exist _ (Raised e, _) _ => (Raised e, out)
  | exist _ (Returned [], _) _ => (Returned bytes_written, out)
  | exist _ (Returned (b :: chunk), rd') _ =>
      if max_bytes <? bytes_written + len (b :: chunk)
      then (Raised too_large, out)
      else copy_chunks max_bytes rd' (bytes_written + len (b :: chunk))
                       (out ++ b :: chunk) }.
Proof.
  assert (Hshort : forall (l : list Byte.byte) n x c,
            take_upto n l = x :: c -> (length (drop_upto n l) < length l)%nat).
  { clear. intros l n x c. destruct l as [|y l]; simpl; [discriminate|].
    destruct (0 <? n); [intros _|discriminate].
    generalize (n - 1). induction l as [|z l IH]; intros m; simpl; [lia|].
    destruct (0 <? m); simpl; [specialize (IH (m - 1)); lia | lia]. }
  unfold read in *. destruct (fault_in rd) as [[|k]|]; try discriminate;
    inversion e; subst; simpl; eapply Hshort; eauto.
Qed.

(** The cleanup of both [except] branches. *)
Definition remove_partial (path : string) : M unit :=
  present ← os_path_exists path;
  if (present : bool) then try_except (os_remove path) (fun _ => mret tt)
  else mret tt.

Definition save_upload_streaming (upload : UploadFile) : M (string * Z) :=
  ensure_upload_dir;;
  let ext := _guess_ext (filename upload) in
  u ← uuid4;
  let safe_name := u ++ ext in
  let path := Path.join UPLOAD_DIR safe_name in
  let max_bytes := MAX_UPLOAD_MB settings * 1024 * 1024 in
  bytes_written ←
    try_except
      (open_wb path;;
       let '(r, written) := copy_chunks max_bytes (file upload) 0 [] in
       close_with path written;;
       match r with
       | Returned n => mret n
       | Raised e => raise e
       end)
      (fun e =>
         match e with
         | HTTPException c d =>
             remove_partial path;; raise (HTTPException c d)
         | _ =>
             remove_partial path;;
             raise (HTTPException 500 ("Upload failed: " ++ exn_str e))
         end);
  mret (path, bytes_written).


(** ** Authentication guards ([app/core/auth.py])

    [user] is the row [get_current_user] has loaded for the bearer token. *)

Definition require_roles (roles : list UserRole) (user : User.t) : M User.t :=
  if bool_decide (User.role user ∈ roles) then mret user
  else raise (HTTPException 403 "Forbidden").

(** ** Tow jobs ([app/routers/tow_jobs.py]) *)

Definition _log_event (tow_job_id actor_user_id event_type : string)
  (message : option string) : M unit :=
  i ← uuid4;
  db_add_event (TowJobEvent.mk i tow_job_id actor_user_id event_type message).

Definition _assert_job_access (user : User.t) (job : TowJob.t) : M unit :=
  if bool_decide (User.role user ∈ [DISPATCHER; ADMIN]) then mret tt
  else if bool_decide (User.role user = OFFICER)
          && bool_decide (TowJob.officer_id job = User.id user) then mret tt
  else if bool_decide (User.role user = DRIVER)
          && bool_decide (TowJob.assigned_driver_id job = Some (User.id user))
  then mret tt
  else raise (HTTPException 403 "Not your job").

Definition _parse_iso_datetime (dt : option string) : M (option datetime) :=
  match dt with
  | Some (String a r) =>
      let s := Py.strip (String a r) in
      let s := if Py.endswith_char s "Z" then Py.drop_last s ++ "+00:00" else s in
      match fromisoformat s with
      | Some d => mret (Some d)
      | None =>
          raise (HTTPException 400
            "captured_at must be ISO8601 datetime (e.g. 2026-01-19T12:34:56Z)")
      end
  | _ => mret None
  end.

Definition job_not_found : exn := HTTPException 404 "Tow job not found".

Definition create_tow_job (payload : TowJobCreate.t) (user : User.t)
  : M TowJob.t :=
  user ← require_roles [OFFICER; ADMIN] user;
  i ← uuid4;
  let job :=
    TowJob.mk i (Py.upper (Py.strip (TowJobCreate.plate_number payload)))
      (User.id user) NEW None
      (TowJobCreate.violation_type payload) (TowJobCreate.notes payload)
      (TowJobCreate.location_lat payload) (TowJobCreate.location_lng payload)
      (TowJobCreate.location_accuracy_m payload) in
  db_add_job job;;
  _log_event (TowJob.id job) (User.id user) "CREATED"
    (Some ("Job created for plate " ++ TowJob.plate_number job));;
  db_commit;;
  db_refresh (fun d => tow_jobs d !! TowJob.id job).

(** The query of [assign_driver]: the user with this id, if an active DRIVER. *)
Definition active_driver (driver_id : string) (d : DB) : option User.t :=
  u ← users d !! driver_id;
  if bool_decide (User.role u = DRIVER) && User.is_active u
  then Some u else None.

Definition assign_driver (job_id : string) (payload : TowJobAssign.t)
  (user : User.t) : M TowJob.t :=
  user ← require_roles [DISPATCHER; ADMIN] user;
  job ← db_query (fun d => tow_jobs d !! job_id);
  match job with
  | None => raise job_not_found
  | Some job =>
      driver ← db_query (active_driver (TowJobAssign.driver_id payload));
      match driver with
      | None => raise (HTTPException 400 "Driver not found")
      | Some driver =>
          let job := TowJob.set_assigned_driver_id (Some (User.id driver)) job in
          let job := TowJob.set_status ASSIGNED job in
          db_modify (fun d => set_tow_jobs (<[job_id := job]> (tow_jobs d)) d);;
          _log_event (TowJob.id job) (User.id user) "ASSIGNED"
            (Some ("Assigned to driver " ++ User.id driver));;
          db_commit;;
          db_refresh (fun d => tow_jobs d !! job_id)
      end
  end.

Definition newline : string := String (ascii_of_N 10) EmptyString.

(** The message of the STATUS_CHANGED event. *)
Definition status_message (old new : TowStatus) (notes : option string) : string :=
  "Status " ++ status_value old ++ " -> " ++ status_value new
  ++ match notes with
     | Some (String a r) => " | " ++ Py.strip (String a r)
     | _ => ""
     end.

(** The notes of a job after a status update that carries [notes]: a new
    line, prefixed with the role of the caller, after what was there. *)
Definition append_note (user : User.t) (notes : option string) (job : TowJob.t)
  : TowJob.t :=
  match notes with
  | Some (String a r) =>
      let existing := Py.strip (default "" (TowJob.notes job)) in
      let line := "[" ++ role_value (User.role user) ++ "] "
                  ++ Py.strip (String a r) in
      TowJob.set_notes
        (Some (if String.eqb existing "" then line
               else Py.strip (existing ++ newline ++ line))) job
  | _ => job
  end.

Definition update_status (job_id : string) (payload : TowJobStatusUpdate.t)
  (user : User.t) : M TowJob.t :=
  job ← db_query (fun d => tow_jobs d !! job_id);
  match job with
  | None => raise job_not_found
  | Some job =>
      _assert_job_access user job;;
      let old := TowJob.status job in
      let job := TowJob.set_status (TowJobStatusUpdate.status payload) job in
      let job := append_note user (TowJobStatusUpdate.notes payload) job in
      db_modify (fun d => set_tow_jobs (<[job_id := job]> (tow_jobs d)) d);;
      _log_event (TowJob.id job) (User.id user) "STATUS_CHANGED"
        (Some (status_message old (TowJob.status job)
                              (TowJobStatusUpdate.notes payload)));;
      db_commit;;
      db_refresh (fun d => tow_jobs d !! job_id)
  end.

Definition allowed_types : list string :=
  ["BEFORE"; "AFTER"; "PLATE_CLOSEUP"; "OTHER"].

Definition allowed_ct : list string :=
  ["image/jpeg"; "image/png"; "image/webp"].

Definition bad_request (detail : string) : exn := HTTPException 400 detail.

(** The three geo checks on an optional pair; [what] prefixes the field
    names in the messages. *)
Definition check_photo_geo (what : string) (lat lng : option float) : M unit :=
  (if negb (bool_decide (is_Some lat ↔ is_Some lng))
   then raise (bad_request ("Provide both " ++ what ++ "lat and " ++ what
                            ++ "lng, or neither"))
   else mret tt);;
  (match lat with
   | Some x =>
       if negb (between (of_Z (-90)) x (of_Z 90))
       then raise (bad_request (what ++ "lat must be between -90 and 90"))
       else mret tt
   | None => mret tt
   end);;
  match lng with
  | Some x =>
      if negb (between (of_Z (-180)) x (of_Z 180))
      then raise (bad_request (what ++ "lng must be between -180 and 180"))
      else mret tt
  | None => mret tt
  end.

Definition opt_float_str (o : option float) : string :=
  match o with Some x => float_str x | None => "None" end.

Definition photo_message (photo_type via : string) (size_bytes : Z)
  (lat lng accuracy_m : option float) : string :=
  photo_type ++ " uploaded " ++ via ++ "(" ++ pretty size_bytes ++ " bytes)"
  ++ match lat with
     | Some _ => " | photo_geo=" ++ opt_float_str lat ++ "," ++ opt_float_str lng
                 ++ " acc=" ++ opt_float_str accuracy_m
     | None => ""
     end.

Definition download_url (job_id photo_id : string) : string :=
  "/tow-jobs/" ++ job_id ++ "/photos/" ++ photo_id ++ "/download".

Definition find_photo (photo_id : string) (d : DB) : option TowJobPhoto.t :=
  find (fun q => String.eqb (TowJobPhoto.id q) photo_id) (tow_job_photos d).

Definition upload_job_photo (job_id : string) (photo : UploadFile)
  (photo_type : string) (lat lng accuracy_m : option float)
  (captured_at : option string) (user : User.t) : M (TowJobPhoto.t * string) :=
  job ← db_query (fun d => tow_jobs d !! job_id);
  match job with
  | None => raise job_not_found
  | Some job =>
      _assert_job_access user job;;
      (if negb (bool_decide (photo_type ∈ allowed_types))
       then raise (bad_request
         "photo_type must be one of ['AFTER', 'BEFORE', 'OTHER', 'PLATE_CLOSEUP']")
       else mret tt);;
      ct ← match content_type photo with
           | Some ct =>
               if bool_decide (ct ∈ allowed_ct) then mret ct
               else raise (bad_request "Only jpeg/png/webp images are allowed")
           | None => raise (bad_request "Only jpeg/png/webp images are allowed")
           end;
      check_photo_geo "" lat lng;;
      captured_dt ← _parse_iso_datetime captured_at;
      '(stored_path, size_bytes) ← save_upload_streaming photo;
      i ← uuid4;
      let rec := TowJobPhoto.mk i (TowJob.id job) (User.id user) photo_type
                   stored_path ct size_bytes lat lng accuracy_m captured_dt in
      db_add_photo rec;;
      _log_event (TowJob.id job) (User.id user) "PHOTO_UPLOADED"
        (Some (photo_message photo_type "" size_bytes lat lng accuracy_m));;
      db_commit;;
      rec ← db_refresh (find_photo i);
      mret (rec, download_url (TowJob.id job) (TowJobPhoto.id rec))
  end.

Definition submit_evidence (plate_number : string) (job_lat job_lng : float)
  (job_accuracy_m : option float) (violation_type notes : option string)
  (photo : UploadFile) (photo_type : string)
  (photo_lat photo_lng photo_accuracy_m : option float)
  (captured_at : option string) (user : User.t)
  : M (TowJob.t * TowJobPhoto.t * string) :=
  user ← require_roles [OFFICER; ADMIN] user;
  let plate := Py.upper (Py.strip plate_number) in
  (if String.eqb plate "" then raise (bad_request "plate_number is required")
   else mret tt);;
  (if negb (between (of_Z (-90)) job_lat (of_Z 90))
   then raise (bad_request "job_lat must be between -90 and 90")
   else mret tt);;
  (if negb (between (of_Z (-180)) job_lng (of_Z 180))
   then raise (bad_request "job_lng must be between -180 and 180")
   else mret tt);;
  check_photo_geo "photo_" photo_lat photo_lng;;
  ct ← match content_type photo with
       | Some ct =>
           if bool_decide (ct ∈ allowed_ct) then mret ct
           else raise (bad_request "Only jpeg/png/webp images are allowed")
       | None => raise (bad_request "Only jpeg/png/webp images are allowed")
       end;
  (if negb (bool_decide (photo_type ∈ allowed_types))
   then raise (bad_request
     "photo_type must be one of ['AFTER', 'BEFORE', 'OTHER', 'PLATE_CLOSEUP']")
   else mret tt);;
  captured_dt ← _parse_iso_datetime captured_at;
  i ← uuid4;
  let job := TowJob.mk i plate (User.id user) NEW None violation_type notes
               job_lat job_lng job_accuracy_m in
  db_add_job job;;
  _log_event (TowJob.id job) (User.id user) "CREATED"
    (Some ("Job created via submit-evidence for plate " ++ plate));;
  '(stored_path, size_bytes) ← save_upload_streaming photo;
  k ← uuid4;
  let rec := TowJobPhoto.mk k (TowJob.id job) (User.id user) photo_type
               stored_path ct size_bytes photo_lat photo_lng photo_accuracy_m
               captured_dt in
  db_add_photo rec;;
  _log_event (TowJob.id job) (User.id user) "PHOTO_UPLOADED"
    (Some (photo_message photo_type "via submit-evidence " size_bytes
             photo_lat photo_lng photo_accuracy_m));;
  db_commit;;
  job ← db_refresh (fun d => tow_jobs d !! i);
  rec ← db_refresh (find_photo k);
  mret (job, rec, download_url (TowJob.id job) (TowJobPhoto.id rec)).

(** What [FileResponse] is given: path, media type, file name. *)
Definition download_job_photo (job_id photo_id : string) (user : User.t)
  : M (string * string * string) :=
  job ← db_query (fun d => tow_jobs d !! job_id);
  match job with
  | None => raise job_not_found
  | Some job =>
      _assert_job_access user job;;
      rec ← db_query (fun d =>
        find (fun q => String.eqb (TowJobPhoto.id q) photo_id
                       && String.eqb (TowJobPhoto.tow_job_id q) (TowJob.id job))
             (tow_job_photos d));
      match rec with
      | None => raise (HTTPException 404 "Photo not found")
      | Some rec =>
          w ← get_world;
          let abs_path := resolve (disk w) (TowJobPhoto.file_path rec) in
          let uploads_abs := resolve (disk w) "uploads" in
          if negb (Py.startswith abs_path (uploads_abs ++ "/"))
          then raise (bad_request "Invalid file path")
          else
            present ← os_path_exists abs_path;
            if negb present
            then raise (HTTPException 404 "File missing on server")
            else mret (abs_path, TowJobPhoto.content_type rec,
                       Path.basename abs_path)
      end
  end.

Definition get_job_evidence (job_id : string) (user : User.t)
  : M (TowJob.t * list (TowJobPhoto.t * string)) :=
  job ← db_query (fun d => tow_jobs d !! job_id);
  match job with
  | None => raise job_not_found
  | Some job =>
      _assert_job_access user job;;
      photos ← db_query (fun d =>
        filter (fun q => TowJobPhoto.tow_job_id q = TowJob.id job)
               (tow_job_photos d));
      mret (job, map (fun p => (p, download_url (TowJob.id job) (TowJobPhoto.id p)))
                     photos)
  end.

Definition get_job_events (job_id : string) (user : User.t)
  : M (list TowJobEvent.t) :=
  job ← db_query (fun d => tow_jobs d !! job_id);
  match job with
  | None => raise job_not_found
  | Some job =>
      _assert_job_access user job;;
      db_query (fun d =>
        filter (fun e => TowJobEvent.tow_job_id e = TowJob.id job)
               (tow_job_events d))
  end.

(** ** User administration ([app/routers/admin.py]) *)

Definition set_user_phone (p : string) (u : User.t) : User.t :=
  User.mk (User.id u) (User.name u) p (User.role u) (User.password_hash u)
          (User.is_active u).

Definition set_user_name (n : string) (u : User.t) : User.t :=
  User.mk (User.id u) n (User.phone u) (User.role u) (User.password_hash u)
          (User.is_active u).

Definition set_user_role (r : UserRole) (u : User.t) : User.t :=
  User.mk (User.id u) (User.name u) (User.phone u) r (User.password_hash u)
          (User.is_active u).

Definition set_user_is_active (b : bool) (u : User.t) : User.t :=
  User.mk (User.id u) (User.name u) (User.phone u) (User.role u)
          (User.password_hash u) b.

Definition phone_taken_by_other (p : string) (u : User.t) (d : DB) : bool :=
  bool_decide (map_Exists (fun _ o => User.phone o = p ∧ User.id o ≠ User.id u)
                          (users d)).

Definition admin_update_user (user_id : string) (payload : AdminUserUpdate.t)
  (admin : User.t) : M User.t :=
  admin ← require_roles [ADMIN] admin;
  user ← db_query (fun d => users d !! user_id);
  match user with
  | None => raise (HTTPException 404 "User not found")
  | Some user =>
      (if bool_decide (User.id user = User.id admin) then
         (match AdminUserUpdate.role payload with
          | Some r =>
              if negb (bool_decide (r = ADMIN))
              then raise (bad_request "You cannot change your own role")
              else mret tt
          | None => mret tt
          end);;
         match AdminUserUpdate.is_active payload with
         | Some false =>
             raise (bad_request "You cannot deactivate your own account")
         | _ => mret tt
         end
       else mret tt);;
      user ← match AdminUserUpdate.phone payload with
             | Some p =>
                 let new_phone := Py.strip p in
                 if String.eqb new_phone ""
                 then raise (bad_request "phone cannot be blank")
                 else
                   taken ← db_query (phone_taken_by_other new_phone user);
                   if (taken : bool)
                   then raise (HTTPException 409
                                 "Another user already has this phone")
                   else mret (set_user_phone new_phone user)
             | None => mret user
             end;
      let user := match AdminUserUpdate.name payload with
                  | Some n => set_user_name (Py.strip n) user
                  | None => user
                  end in
      let user := match AdminUserUpdate.role payload with
                  | Some r => set_user_role r user
                  | None => user
                  end in
      let user := match AdminUserUpdate.is_active payload with
                  | Some b => set_user_is_active b user
                  | None => user
                  end in
      db_modify (fun d => set_users (<[user_id := user]> (users d)) d);;
      db_commit;;
      db_refresh (fun d => users d !! user_id)
  end.

End Service.

(** ** The rule table of the specification, and sample data *)

(** The access rule table as the specification words it, first match wins:
    1. DISPATCHER or ADMIN: allow; 2. OFFICER whose id is the job's officer
    id: allow; 3. DRIVER whose id is the job's assigned driver id: allow;
    4. otherwise deny. *)
Definition access_table (role : UserRole) (caller officer : string)
  (driver : option string) : bool :=
  if bool_decide (role = DISPATCHER ∨ role = ADMIN) then true
  else if bool_decide (role = OFFICER ∧ caller = officer) then true
  else if bool_decide (role = DRIVER ∧ Some caller = driver) then true
  else false.

Definition has_access (user : User.t) (job : TowJob.t) : bool :=
  access_table (User.role user) (User.id user) (TowJob.officer_id job)
               (TowJob.assigned_driver_id job).

Definition forbidden : exn := HTTPException 403 "Not your job".

(** [i] is the id of a row of the audit log. *)
Definition event_id_taken (i : string) (d : DB) : bool :=
  existsb (fun q => String.eqb (TowJobEvent.id q) i) (tow_job_events d).

(** A small deployment: the four seeded users, one closed job. *)
Module Sample.
Definition officer : User.t :=
  User.mk "u-officer" "Officer One" "+252634000001" OFFICER "hash" true.
Definition driver : User.t :=
  User.mk "u-driver" "Driver One" "+252634000002" DRIVER "hash" true.
Definition dispatcher : User.t :=
  User.mk "u-dispatcher" "Dispatcher One" "+252634000003" DISPATCHER "hash" true.
Definition admin : User.t :=
  User.mk "u-admin" "Admin" "+252634000004" ADMIN "hash" true.

Definition closed_job : TowJob.t :=
  TowJob.mk "job-1" "ABC123" "u-officer" CLOSED (Some "u-driver") None None
            (FFin (41 # 20)) (FFin (4533 # 100)) None.

Definition seeded : DB :=
  {| users := <["u-officer" := officer]> (<["u-driver" := driver]>
                (<["u-dispatcher" := dispatcher]> (<["u-admin" := admin]> ∅)));
     tow_jobs := ∅; tow_job_photos := []; tow_job_events := [] |}.

Definition with_closed_job : DB :=
  set_tow_jobs (<["job-1" := closed_job]> ∅) seeded.

Definition fs : FS :=
  {| files := ∅; dirs := {["/srv/app"]}; cwd := "/srv/app" |}.

Definition ids (n : nat) : string := "id-" ++ pretty n.

Definition settings : Settings := {| MAX_UPLOAD_MB := 8 |}.

(** Canonical UUID strings, one per draw (ten of them). *)
Definition uuids (n : nat) : string :=
  "3f2b8c1e-7a4d-4e6f-9b0a-5c1d2e3f4a5" ++ pretty (n mod 10)%nat.

Definition float_str (x : float) : string :=
  match x with
  | FNaN => "nan"
  | FInf true => "-inf"
  | FInf false => "inf"
  | FFin q => pretty (Qnum q) ++ "/" ++ pretty (Zpos (Qden q))
  end.

Definition fromisoformat (s : string) : option datetime :=
  if String.eqb s "" then None else Some {| dt_iso := s |}.

Definition jpeg (name : string) (bytes : list Byte.byte) : UploadFile :=
  {| filename := Some name; content_type := Some "image/jpeg";
     file := {| data := bytes; fault_in := None |} |}.

Definition world : World :=
  {| db := {| committed := seeded; working := seeded; stale := false |};
     disk := fs; rng := ids; drawn := 0 |}.

Definition world_with_uuids : World :=
  {| db := {| committed := seeded; working := seeded; stale := false |};
     disk := fs; rng := uuids; drawn := 0 |}.

(** A ceiling of one megabyte, and a file of exactly that size. *)
Definition one_megabyte : Settings := {| MAX_UPLOAD_MB := 1 |}.

Definition megabyte : list Byte.byte := repeat Byte.x2a (Z.to_nat CHUNK).
End Sample.

(** The row a status update writes, and the event it logs. *)
Definition updated_job (user : User.t) (payload : TowJobStatusUpdate.t)
  (job : TowJob.t) : TowJob.t :=
  append_note user (TowJobStatusUpdate.notes payload)
              (TowJob.set_status (TowJobStatusUpdate.status payload) job).

Definition status_changed (i : string) (user : User.t)
  (payload : TowJobStatusUpdate.t) (job : TowJob.t) : TowJobEvent.t :=
  TowJobEvent.mk i (TowJob.id job) (User.id user) "STATUS_CHANGED"
    (Some (status_message (TowJob.status job)
                          (TowJobStatusUpdate.status payload)
                          (TowJobStatusUpdate.notes payload))).

(** The row an assignment writes, and the event it logs. *)
Definition assigned_job (driver : User.t) (job : TowJob.t) : TowJob.t :=
  TowJob.set_status ASSIGNED
    (TowJob.set_assigned_driver_id (Some (User.id driver)) job).

Definition assigned_event (i : string) (user driver : User.t) (job : TowJob.t)
  : TowJobEvent.t :=
  TowJobEvent.mk i (TowJob.id job) (User.id user) "ASSIGNED"
    (Some ("Assigned to driver " ++ User.id driver)).

(** The HTTP status a request ends with when it raises an [HTTPException]. *)
Definition status_code_of {A} (x : outcome A * DB * FS) : option Z :=
  match x with
  | (Raised (HTTPException c _), _, _) => Some c
  | _ => None
  end.

(** [keeps J m]: running [m] preserves the property [J] of the session,
    whether [m] returns or raises. *)
Definition keeps {A} (J : Session -> Prop) (m : M A) : Prop :=
  forall w, J (db w) -> J (db (snd (m w))).

(** [m] does not touch the session. *)
Definition session_free {A} (m : M A) : Prop :=
  forall w, db (snd (m w)) = db w.

(** Both copies of the job table are [t]. *)
Definition job_table_is (t : gmap string TowJob.t) (s : Session) : Prop :=
  tow_jobs (committed s) = t ∧ tow_jobs (working s) = t.

(** The geo rule of the specification for an optional pair: both or
    neither, latitude within [-90, 90], longitude within [-180, 180]. *)
Definition geo_ok (lat lng : option float) : bool :=
  match lat, lng with
  | Some x, Some y =>
      between (of_Z (-90)) x (of_Z 90) && between (of_Z (-180)) y (of_Z 180)
  | None, None => true
  | _, _ => false
  end.

(** The path [save_upload_streaming] builds from the drawn UUID [u]. *)
Definition stored_path (u : string) (upload : UploadFile) : string :=
  Path.join UPLOAD_DIR (u ++ _guess_ext (filename upload)).

(** The disk takes a new file at [path]: the upload root is not a regular
    file, nothing but a regular file is at [path], and the directory of
    [path] is the upload root or exists. *)
Definition accepts_upload (fs : FS) (path : string) : bool :=
  let root := resolve fs UPLOAD_DIR in
  let ap := resolve fs path in
  negb (bool_decide (is_Some (files fs !! root)))
  && negb (bool_decide (ap ∈ {[root]} ∪ dirs fs))
  && bool_decide (Path.dirname ap ∈ {[root]} ∪ dirs fs).

(** The world after [save_upload_streaming] has drawn its UUID and left the
    files [f] behind. *)
Definition after_upload (f : gmap string (list Byte.byte)) (w : World) : World :=
  {| db := db w;
     disk := {| files := f;
                dirs := {[resolve (disk w) UPLOAD_DIR]} ∪ dirs (disk w);
                cwd := cwd (disk w) |};
     rng := rng w; drawn := S (drawn w) |}.

(** A plain name: no separator, and not one of "", "." and "..". *)
Definition plain_name (name : string) : Prop :=
  Py.contains Path.sep name = false
  ∧ String.eqb name "" = false ∧ String.eqb name "." = false
  ∧ String.eqb name ".." = false.

(** ** User administration: the row an update writes, the answer a refused
    update gets, and the invariants of the user table *)

Definition edited_user (payload : AdminUserUpdate.t) (user : User.t) : User.t :=
  let user := match AdminUserUpdate.phone payload with
              | Some p => set_user_phone (Py.strip p) user
              | None => user
              end in
  let user := match AdminUserUpdate.name payload with
              | Some n => set_user_name (Py.strip n) user
              | None => user
              end in
  let user := match AdminUserUpdate.role payload with
              | Some r => set_user_role r user
              | None => user
              end in
  match AdminUserUpdate.is_active payload with
  | Some b => set_user_is_active b user
  | None => user
  end.

(** The checks of [admin_update_user] on a found user, in the order of the
    code: own role, own activation, blank phone, phone of another user. *)
Definition update_refusal (payload : AdminUserUpdate.t) (user admin : User.t)
  (d : DB) : option exn :=
  let self := bool_decide (User.id user = User.id admin) in
  if self && match AdminUserUpdate.role payload with
             | Some r => negb (bool_decide (r = ADMIN))
             | None => false
             end
  then Some (bad_request "You cannot change your own role")
  else if self && match AdminUserUpdate.is_active payload with
                  | Some false => true
                  | _ => false
                  end
  then Some (bad_request "You cannot deactivate your own account")
  else match AdminUserUpdate.phone payload with
       | Some p =>
           if String.eqb (Py.strip p) ""
           then Some (bad_request "phone cannot be blank")
           else if phone_taken_by_other (Py.strip p) user d
           then Some (HTTPException 409 "Another user already has this phone")
           else None
       | None => None
       end.

(** Every user is stored under their own id. *)
Definition keys_are_ids (d : DB) : Prop :=
  map_Forall (fun i u => User.id u = i) (users d).

(** No two users share a phone number. *)
Definition phones_unique (d : DB) : Prop :=
  map_Forall (fun i u =>
    map_Forall (fun j v => User.phone u = User.phone v -> i = j) (users d))
    (users d).

(** ** Accounts: authentication, user administration, listings, seeding *)

(** [UserRole(value)] and [TowStatus(value)]: the member with that value,
    if any. *)
Definition UserRole_of_value (s : string) : option UserRole :=
  if String.eqb s "OFFICER" then Some OFFICER
  else if String.eqb s "DRIVER" then Some DRIVER
  else if String.eqb s "DISPATCHER" then Some DISPATCHER
  else if String.eqb s "ADMIN" then Some ADMIN
  else None.

Definition TowStatus_of_value (s : string) : option TowStatus :=
  if String.eqb s "NEW" then Some NEW
  else if String.eqb s "ASSIGNED" then Some ASSIGNED
  else if String.eqb s "EN_ROUTE" then Some EN_ROUTE
  else if String.eqb s "ARRIVED" then Some ARRIVED
  else if String.eqb s "TOWED" then Some TOWED
  else if String.eqb s "CLOSED" then Some CLOSED
  else if String.eqb s "CANCELLED" then Some CANCELLED
  else None.

Module AdminUserCreate.
Record t : Type := mk {
  name : string;
  phone : string;
  role : UserRole;
  password : string;
  is_active : bool }.
End AdminUserCreate.

Definition set_user_password_hash (h : string) (u : User.t) : User.t :=
  User.mk (User.id u) (User.name u) (User.phone u) (User.role u) h
          (User.is_active u).

(** Some user has the phone number [p]. *)
Definition phone_in_use (p : string) (d : DB) : bool :=
  bool_decide (map_Exists (fun _ o => User.phone o = p) (users d)).

(** [db.add(user)]: the id is the primary key and the phone column is
    unique. *)
Definition db_add_user (u : User.t) : M unit :=
  db_add (fun d => bool_decide (is_Some (users d !! User.id u))
                   || phone_in_use (User.phone u) d)
         (fun d => set_users (<[User.id u := u]> (users d)) d).

(** The rows of a table. *)
Definition all_jobs (d : DB) : list TowJob.t := (map_to_list (tow_jobs d)).*2.
Definition all_users (d : DB) : list User.t := (map_to_list (users d)).*2.

(** [sub in s] for strings. *)
Fixpoint str_in (sub s : string) : bool :=
  match s with
  | EmptyString => String.prefix sub s
  | String _ s' => String.prefix sub s || str_in sub s'
  end.

(** [Settings.validate_secret] ([app/core/config.py]): the value kept, or
    the message of the [ValueError]. *)
Inductive validated : Type :=
| Accepted (v : string)
| ValueError (msg : string).

Definition validate_secret (v : string) : validated :=
  if String.eqb v "" || (String.length (Py.strip v) <? 32)%nat
  then ValueError "JWT_SECRET must be set and at least 32 characters."
  else if str_in "CHANGE_ME" (Py.upper v)
  then ValueError "JWT_SECRET looks like a placeholder. Set a real secret."
  else Accepted (Py.strip v).

Section Accounts.

(** [decode_token(token).get("sub")] ([app/core/security.py], python-jose):
    [None] when decoding raises, [Some None] when the payload names no
    subject. [hash_password] is Argon2 with a salt of its own: one call per
    password in each function below, so a function of the password.
    [newest_first] is [order_by(created_at.desc())]: the rows carry no
    [created_at] here. *)
Variable decode_sub : string -> option (option string).
Variable hash_password : string -> string.
Variable newest_first : list TowJob.t -> list TowJob.t.

Definition unauthorized (detail : string) : exn := HTTPException 401 detail.

(** The tail shared by both authentication guards. *)
Definition user_of_token (token : string) : M User.t :=
  match decode_sub token with
  | None => raise (unauthorized "Invalid token")
  | Some user_id =>
      user ← db_query (fun d => user_id ≫= fun i => users d !! i);
      match user with
      | Some u =>
          if negb (User.is_active u)
          then raise (unauthorized "User inactive or not found")
          else mret u
      | None => raise (unauthorized "User inactive or not found")
      end
  end.

(** [app/core/auth.py]; [creds] is what [HTTPBearer(auto_error=False)]
    hands over. *)
Definition get_current_user (creds : option string) : M User.t :=
  match creds with
  | None => raise (unauthorized "Not authenticated")
  | Some token => user_of_token token
  end.

(** [app/web/auth_web.py]; [cookie] is [request.cookies.get(COOKIE_NAME)]. *)
Definition get_current_user_from_cookie (cookie : option string) : M User.t :=
  if negb (Py.truthy cookie) then raise (unauthorized "Not authenticated")
  else match cookie with
       | Some token => user_of_token token
       | None => raise (unauthorized "Not authenticated")
       end.

Definition require_roles_cookie (roles : list UserRole) (user : User.t)
  : M User.t :=
  if bool_decide (User.role user ∈ roles) then mret user
  else raise (HTTPException 403 "Forbidden").

(** [app/routers/admin.py] *)
Definition admin_create_user (payload : AdminUserCreate.t) (admin : User.t)
  : M User.t :=
  _admin ← require_roles [ADMIN] admin;
  let phone := Py.strip (AdminUserCreate.phone payload) in
  (if String.eqb phone "" then raise (bad_request "phone is required")
   else mret tt);;
  existing ← db_query (phone_in_use phone);
  (if (existing : bool)
   then raise (HTTPException 409 "A user with this phone already exists")
   else mret tt);;
  i ← uuid4;
  let user := User.mk i (Py.strip (AdminUserCreate.name payload)) phone
                (AdminUserCreate.role payload)
                (hash_password (AdminUserCreate.password payload))
                (AdminUserCreate.is_active payload) in
  db_add_user user;;
  db_commit;;
  db_refresh (fun d => users d !! i).

Definition admin_reset_password (user_id new_password : string)
  (admin : User.t) : M unit :=
  admin ← require_roles [ADMIN] admin;
  user ← db_query (fun d => users d !! user_id);
  match user with
  | None => raise (HTTPException 404 "User not found")
  | Some user =>
      if bool_decide (User.id user = User.id admin)
      then raise (bad_request "You cannot reset your own password here")
      else
        let user := set_user_password_hash (hash_password new_password) user in
        db_modify (fun d => set_users (<[user_id := user]> (users d)) d);;
        db_commit
  end.

(** [app/routers/users.py]; [if role:] holds for a non-empty string. *)
Definition list_users (role : option string) (user : User.t)
  : M (list User.t) :=
  _user ← require_roles [DISPATCHER; ADMIN] user;
  keep ← match role with
         | Some (String a s) =>
             match UserRole_of_value (String a s) with
             | Some r => mret (fun u : User.t => bool_decide (User.role u = r))
             | None => raise (bad_request "Invalid role")
             end
         | _ => mret (fun _ : User.t => true)
         end;
  rows ← db_query all_users;
  mret (List.filter keep rows).

(** [app/routers/tow_jobs.py] *)
Definition list_tow_jobs (status_filter : option string) (user : User.t)
  : M (list TowJob.t) :=
  let own (j : TowJob.t) : bool :=
    match User.role user with
    | OFFICER => String.eqb (TowJob.officer_id j) (User.id user)
    | DRIVER => bool_decide (TowJob.assigned_driver_id j = Some (User.id user))
    | _ => true
    end in
  keep ← match status_filter with
         | Some (String a s) =>
             match TowStatus_of_value (String a s) with
             | Some st =>
                 mret (fun j : TowJob.t => bool_decide (TowJob.status j = st))
             | None => raise (bad_request "Invalid status_filter")
             end
         | _ => mret (fun _ : TowJob.t => true)
         end;
  rows ← db_query all_jobs;
  mret (newest_first (List.filter (fun j => own j && keep j) rows)).

(** [app/services/seed.py] *)
Definition seed_users : M unit :=
  n ← db_query (fun d => size (users d));
  if bool_decide (0 < n)%nat then mret tt
  else
    i1 ← uuid4;
    let u1 := User.mk i1 "Officer One" "+252634000001" OFFICER
                (hash_password "officer123") true in
    i2 ← uuid4;
    let u2 := User.mk i2 "Driver One" "+252634000002" DRIVER
                (hash_password "driver123") true in
    i3 ← uuid4;
    let u3 := User.mk i3 "Dispatcher One" "+252634000003" DISPATCHER
                (hash_password "dispatch123") true in
    i4 ← uuid4;
    let u4 := User.mk i4 "Admin" "+252634000004" ADMIN
                (hash_password "admin123") true in
    db_add_user u1;; db_add_user u2;; db_add_user u3;; db_add_user u4;;
    db_commit.

End Accounts.

(** The jobs [list_tow_jobs] finds for a status filter. *)
Definition status_matches (status_filter : option string) (j : TowJob.t) : Prop :=
  match status_filter with
  | Some (String a s) => TowStatus_of_value (String a s) = Some (TowJob.status j)
  | _ => True
  end.

(** The audit log [l] is an initial part of the log of both copies of the
    session. *)
Definition log_extends (l : list TowJobEvent.t) (s : Session) : Prop :=
  l `prefix_of` tow_job_events (committed s)
  ∧ l `prefix_of` tow_job_events (working s).

(** * Properties *)

(** ** Running computations *)

Lemma bind_run {A B} (m : M A) (f : A -> M B) (w : World) :
  (m ≫= f) w = match m w with
               | (Returned a, w') => f a w'
               | (Raised e, w') => (Raised e, w')
               end.
Proof. reflexivity. Qed.

Ltac mrun :=
  repeat (rewrite bind_run
          || (progress unfold db_query, db_modify, db_add_event, db_add_job,
                db_add_photo, db_add, db_commit, db_refresh, uuid4, _log_event,
                raise, get_world)
          || (progress cbn [db disk rng drawn committed working stale with_db
                            with_disk with_working mark_stale mret M_ret
                            users tow_jobs tow_job_photos tow_job_events
                            set_users set_tow_jobs set_tow_job_photos
                            set_tow_job_events TowJobEvent.id TowJobPhoto.id
                            orb andb negb])).

Lemma pending_insert_stale taken ins (s : Session) :
  stale (pending_insert taken ins s) = stale s || taken (working s).
Proof.
  unfold pending_insert. destruct (taken (working s)); simpl;
    [now rewrite orb_true_r | now rewrite orb_false_r].
Qed.

Lemma pending_insert_committed taken ins (s : Session) :
  committed (pending_insert taken ins s) = committed s.
Proof. unfold pending_insert. now destruct (taken (working s)). Qed.

Lemma pending_insert_working taken ins (s : Session) :
  taken (working s) = false ->
  working (pending_insert taken ins s) = ins (working s).
Proof. unfold pending_insert. now intros ->. Qed.

(** ** The access guard *)

Lemma access_table_cases (r : UserRole) (c o : string) (dr : option string) :
  access_table r c o dr =
  match r with
  | DISPATCHER | ADMIN => true
  | OFFICER => bool_decide (c = o)
  | DRIVER => bool_decide (dr = Some c)
  end.
Proof.
  unfold access_table.
  destruct r; repeat case_bool_decide; try reflexivity; exfalso;
    intuition congruence.
Qed.

Lemma _assert_job_access_run (user : User.t) (job : TowJob.t) (w : World) :
  _assert_job_access user job w =
  (if has_access user job then Returned tt else Raised forbidden, w).
Proof.
  unfold has_access. rewrite access_table_cases.
  unfold _assert_job_access, forbidden.
  destruct (User.role user); repeat case_bool_decide; try reflexivity; exfalso;
    repeat match goal with
           | H : _ ∈ _ |- _ => apply elem_of_cons in H; destruct H
           | H : _ ∈ [] |- _ => apply elem_of_nil in H
           | H : ¬ _ ∈ _ |- _ => apply H; repeat constructor; fail
           end; try congruence; try contradiction.
Qed.

(** C1. The job-access decision follows the rule table, first match first:
    a DISPATCHER or ADMIN is allowed; an OFFICER is allowed exactly when
    their id is the job's officer id; a DRIVER is allowed exactly when their
    id is the job's assigned driver id; everyone else is refused with 403
    Forbidden. The guard leaves the world as it is. *)
Theorem job_access_follows_rule_table (user : User.t) (job : TowJob.t) (w : World) :
  _assert_job_access user job w
  = (if access_table (User.role user) (User.id user) (TowJob.officer_id job)
                     (TowJob.assigned_driver_id job)
     then Returned tt else Raised (HTTPException 403 "Not your job"), w)
  ∧ (let allowed := _assert_job_access user job w = (Returned tt, w) in
     let denied := _assert_job_access user job w
                   = (Raised (HTTPException 403 "Not your job"), w) in
     (allowed ∨ denied)
     ∧ match User.role user with
       | DISPATCHER | ADMIN => allowed
       | OFFICER => allowed ↔ User.id user = TowJob.officer_id job
       | DRIVER => allowed ↔ TowJob.assigned_driver_id job = Some (User.id user)
       end).
Proof.
  rewrite _assert_job_access_run. unfold has_access, forbidden.
  split; [reflexivity|]. cbv zeta. rewrite access_table_cases.
  destruct (User.role user); repeat case_bool_decide;
    (split; [auto|]); try reflexivity;
    (split; [intros E; try discriminate E; congruence | intros E; try reflexivity; congruence]).
Qed.
(** ** Status updates and driver assignment *)

Lemma append_note_id user notes job :
  TowJob.id (append_note user notes job) = TowJob.id job.
Proof. unfold append_note. now destruct notes as [[|? ?]|]. Qed.

Lemma append_note_status user notes job :
  TowJob.status (append_note user notes job) = TowJob.status job.
Proof. unfold append_note. now destruct notes as [[|? ?]|]. Qed.

Lemma append_note_officer_id user notes job :
  TowJob.officer_id (append_note user notes job) = TowJob.officer_id job.
Proof. unfold append_note. now destruct notes as [[|? ?]|]. Qed.

Lemma update_status_run job_id payload user d fs ids :
  request (update_status job_id payload user) d fs ids =
  match tow_jobs d !! job_id with
  | None => (Raised job_not_found, d, fs)
  | Some job =>
      if has_access user job then
        if event_id_taken (ids 0%nat) d then (Raised IntegrityError, d, fs)
        else
          (Returned (updated_job user payload job),
           set_tow_job_events
             (tow_job_events d ++ [status_changed (ids 0%nat) user payload job])
             (set_tow_jobs (<[job_id := updated_job user payload job]> (tow_jobs d)) d),
           fs)
      else (Raised forbidden, d, fs)
  end.
Proof.
  unfold request, update_status. mrun.
  destruct (tow_jobs d !! job_id) as [job|] eqn:Hjob; [|reflexivity].
  mrun. rewrite _assert_job_access_run.
  destruct (has_access user job); [|reflexivity].
  mrun. rewrite pending_insert_stale, pending_insert_committed. mrun.
  fold (event_id_taken (ids 0%nat) d).
  destruct (event_id_taken (ids 0%nat) d) eqn:Hfree; [reflexivity|].
  rewrite pending_insert_working by exact Hfree. mrun.
  rewrite lookup_insert_eq.
  unfold updated_job, status_changed.
  now rewrite append_note_id, append_note_status.
Qed.

Lemma require_roles_run roles user (w : World) :
  require_roles roles user w =
  (if bool_decide (User.role user ∈ roles) then Returned user
   else Raised (HTTPException 403 "Forbidden"), w).
Proof. unfold require_roles. now case_bool_decide. Qed.

Lemma assign_driver_run job_id payload user d fs ids :
  request (assign_driver job_id payload user) d fs ids =
  if bool_decide (User.role user ∈ [DISPATCHER; ADMIN]) then
    match tow_jobs d !! job_id with
    | None => (Raised job_not_found, d, fs)
    | Some job =>
        match active_driver (TowJobAssign.driver_id payload) d with
        | None => (Raised (HTTPException 400 "Driver not found"), d, fs)
        | Some driver =>
            if event_id_taken (ids 0%nat) d then (Raised IntegrityError, d, fs)
            else
              (Returned (assigned_job driver job),
               set_tow_job_events
                 (tow_job_events d ++ [assigned_event (ids 0%nat) user driver job])
                 (set_tow_jobs (<[job_id := assigned_job driver job]> (tow_jobs d)) d),
               fs)
        end
    end
  else (Raised (HTTPException 403 "Forbidden"), d, fs).
Proof.
  unfold request, assign_driver. mrun. rewrite require_roles_run.
  case_bool_decide; [|reflexivity]. mrun.
  destruct (tow_jobs d !! job_id) as [job|] eqn:Hjob; [|reflexivity].
  mrun.
  destruct (active_driver (TowJobAssign.driver_id payload) d) as [driver|];
    [|reflexivity].
  mrun. rewrite pending_insert_stale, pending_insert_committed. mrun.
  fold (event_id_taken (ids 0%nat) d).
  destruct (event_id_taken (ids 0%nat) d) eqn:Hfree; [reflexivity|].
  rewrite pending_insert_working by exact Hfree. mrun.
  now rewrite lookup_insert_eq.
Qed.

(** C2, as the specification states it, fails: a CLOSED job is put back to
    NEW by a status update of an administrator. *)
Lemma closed_job_leaves_terminal_state :
  tow_jobs Sample.with_closed_job !! "job-1" = Some Sample.closed_job
  ∧ terminal (TowJob.status Sample.closed_job) = true
  ∧ (let '(_, d', _) :=
       request (update_status "job-1" (TowJobStatusUpdate.mk NEW None) Sample.admin)
               Sample.with_closed_job Sample.fs Sample.ids in
     TowJob.status <$> tow_jobs d' !! "job-1" = Some NEW
     ∧ TowJob.status <$> tow_jobs d' !! "job-1"
       ≠ Some (TowJob.status Sample.closed_job))
  ∧ (let '(_, d', _) :=
       request (assign_driver "job-1" (TowJobAssign.mk "u-driver") Sample.dispatcher)
               Sample.with_closed_job Sample.fs Sample.ids in
     TowJob.status <$> tow_jobs d' !! "job-1" = Some ASSIGNED
     ∧ TowJob.status <$> tow_jobs d' !! "job-1"
       ≠ Some (TowJob.status Sample.closed_job)).
Proof. vm_compute. repeat split; reflexivity || discriminate. Qed.

(** C2, amended. For a job in CLOSED or CANCELLED, a status update or a
    driver assignment that is refused leaves the row as it is; one that is
    accepted sets the status to the requested value, respectively to
    ASSIGNED: terminal states are not enforced. *)
Theorem terminal_status_only_kept_by_refused_requests
  (d : DB) (fs : FS) (ids : nat -> string) (job_id : string) (job : TowJob.t)
  (user : User.t) (new_status : TowJobStatusUpdate.t) (assignment : TowJobAssign.t) :
  tow_jobs d !! job_id = Some job ->
  terminal (TowJob.status job) = true ->
  (let '(r, d', _) := request (update_status job_id new_status user) d fs ids in
   match r with
   | Returned _ =>
       TowJob.status <$> tow_jobs d' !! job_id
       = Some (TowJobStatusUpdate.status new_status)
   | Raised _ => tow_jobs d' !! job_id = Some job
   end)
  ∧ (let '(r, d', _) := request (assign_driver job_id assignment user) d fs ids in
     match r with
     | Returned _ => TowJob.status <$> tow_jobs d' !! job_id = Some ASSIGNED
     | Raised _ => tow_jobs d' !! job_id = Some job
     end).
Proof.
  intros Hjob _. rewrite update_status_run, assign_driver_run, Hjob. split.
  - destruct (has_access user job); [|exact Hjob].
    destruct (event_id_taken (ids 0%nat) d); [exact Hjob|].
    cbn [tow_jobs set_tow_job_events set_tow_jobs].
    rewrite lookup_insert_eq. cbn. unfold updated_job.
    now rewrite append_note_status.
  - case_bool_decide; [|exact Hjob].
    destruct (active_driver _ d); [|exact Hjob].
    destruct (event_id_taken (ids 0%nat) d); [exact Hjob|].
    cbn [tow_jobs set_tow_job_events set_tow_jobs].
    now rewrite lookup_insert_eq.
Qed.

Lemma terminal_status_only_kept_by_refused_requests_witness :
  tow_jobs Sample.with_closed_job !! "job-1" = Some Sample.closed_job
  ∧ terminal (TowJob.status Sample.closed_job) = true
  ∧ (let '(r, d', _) :=
       request (update_status "job-1" (TowJobStatusUpdate.mk EN_ROUTE None) Sample.driver)
               Sample.with_closed_job Sample.fs Sample.ids in
     match r with
     | Returned _ => TowJob.status <$> tow_jobs d' !! "job-1" = Some EN_ROUTE
     | Raised _ => tow_jobs d' !! "job-1" = Some Sample.closed_job
     end).
Proof.
  split; [reflexivity|]. split; [reflexivity|].
  apply (terminal_status_only_kept_by_refused_requests
           Sample.with_closed_job Sample.fs Sample.ids "job-1" Sample.closed_job
           Sample.driver (TowJobStatusUpdate.mk EN_ROUTE None)
           (TowJobAssign.mk "u-driver")); reflexivity.
Defined.

(** C5. A status update by a caller with access to the job appends exactly
    one event to the audit log: a STATUS_CHANGED event of that job and
    caller whose message is "Status OLD -> NEW", followed by " | " and the
    stripped note when a non-empty note was supplied. The id drawn for the
    event is assumed not to be in the log already. *)
Theorem update_status_appends_one_status_changed_event
  (d : DB) (fs : FS) (ids : nat -> string) (job_id : string) (job : TowJob.t)
  (user : User.t) (payload : TowJobStatusUpdate.t) :
  tow_jobs d !! job_id = Some job ->
  has_access user job = true ->
  event_id_taken (ids 0%nat) d = false ->
  ∃ (job' : TowJob.t) (d' : DB),
    request (update_status job_id payload user) d fs ids = (Returned job', d', fs)
    ∧ tow_job_events d'
      = (tow_job_events d
         ++ [TowJobEvent.mk (ids 0%nat) (TowJob.id job) (User.id user)
               "STATUS_CHANGED"
               (Some ("Status " ++ status_value (TowJob.status job) ++ " -> "
                      ++ status_value (TowJobStatusUpdate.status payload)
                      ++ match TowJobStatusUpdate.notes payload with
                         | Some (String a r) => " | " ++ Py.strip (String a r)
                         | _ => ""
                         end)%string)])%list.
Proof.
  intros Hjob Hacc Hfree. rewrite update_status_run, Hjob, Hacc, Hfree.
  eexists _, _. split; reflexivity.
Qed.

Lemma update_status_appends_one_status_changed_event_witness :
  tow_jobs Sample.with_closed_job !! "job-1" = Some Sample.closed_job
  ∧ has_access Sample.driver Sample.closed_job = true
  ∧ event_id_taken (Sample.ids 0%nat) Sample.with_closed_job = false
  ∧ ∃ (job' : TowJob.t) (d' : DB),
    request (update_status "job-1"
               (TowJobStatusUpdate.mk EN_ROUTE (Some " heading to lot "))
               Sample.driver)
            Sample.with_closed_job Sample.fs Sample.ids
    = (Returned job', d', Sample.fs)
    ∧ tow_job_events d'
      = [TowJobEvent.mk "id-0" "job-1" "u-driver" "STATUS_CHANGED"
           (Some "Status CLOSED -> EN_ROUTE | heading to lot")].
Proof.
  do 3 (split; [reflexivity|]).
  apply (update_status_appends_one_status_changed_event
           Sample.with_closed_job Sample.fs Sample.ids "job-1" Sample.closed_job
           Sample.driver (TowJobStatusUpdate.mk EN_ROUTE (Some " heading to lot ")));
    reflexivity.
Defined.

(** ** Job-scoped requests on a missing job *)

Section MissingJob.

Variable settings : Settings.
Variable float_str : float -> string.
Variable fromisoformat : string -> option datetime.
Variables (d : DB) (fs : FS) (ids : nat -> string) (job_id : string).
Hypothesis missing : tow_jobs d !! job_id = None.

Lemma update_status_missing payload user :
  request (update_status job_id payload user) d fs ids
  = (Raised job_not_found, d, fs).
Proof. now rewrite update_status_run, missing. Qed.

Lemma upload_job_photo_missing photo photo_type lat lng accuracy_m captured_at user :
  request (upload_job_photo settings float_str fromisoformat job_id photo
             photo_type lat lng accuracy_m captured_at user) d fs ids
  = (Raised job_not_found, d, fs).
Proof. unfold request, upload_job_photo. mrun. now rewrite missing. Qed.

Lemma download_job_photo_missing photo_id user :
  request (download_job_photo job_id photo_id user) d fs ids
  = (Raised job_not_found, d, fs).
Proof. unfold request, download_job_photo. mrun. now rewrite missing. Qed.

Lemma get_job_evidence_missing user :
  request (get_job_evidence job_id user) d fs ids
  = (Raised job_not_found, d, fs).
Proof. unfold request, get_job_evidence. mrun. now rewrite missing. Qed.

Lemma get_job_events_missing user :
  request (get_job_events job_id user) d fs ids
  = (Raised job_not_found, d, fs).
Proof. unfold request, get_job_events. mrun. now rewrite missing. Qed.

End MissingJob.

(** C10. In the five job-scoped requests the job is looked up before the
    caller's access is checked: on a job id that is not in the table each of
    them ends with 404 "Tow job not found" and changes nothing, whoever the
    caller is; hence a 403 answer of any of them means that the job exists. *)
Theorem missing_job_is_reported_before_access_is_checked
  (settings : Settings) (float_str : float -> string)
  (fromisoformat : string -> option datetime)
  (d : DB) (fs : FS) (ids : nat -> string) (job_id : string) (user : User.t)
  (payload : TowJobStatusUpdate.t) (photo : UploadFile) (photo_type : string)
  (lat lng accuracy_m : option float) (captured_at : option string)
  (photo_id : string) :
  let updating := request (update_status job_id payload user) d fs ids in
  let uploading :=
    request (upload_job_photo settings float_str fromisoformat job_id photo
               photo_type lat lng accuracy_m captured_at user) d fs ids in
  let downloading := request (download_job_photo job_id photo_id user) d fs ids in
  let evidence := request (get_job_evidence job_id user) d fs ids in
  let events := request (get_job_events job_id user) d fs ids in
  (tow_jobs d !! job_id = None ->
   updating = (Raised (HTTPException 404 "Tow job not found"), d, fs)
   ∧ uploading = (Raised (HTTPException 404 "Tow job not found"), d, fs)
   ∧ downloading = (Raised (HTTPException 404 "Tow job not found"), d, fs)
   ∧ evidence = (Raised (HTTPException 404 "Tow job not found"), d, fs)
   ∧ events = (Raised (HTTPException 404 "Tow job not found"), d, fs))
  ∧ (status_code_of updating = Some 403
     ∨ status_code_of uploading = Some 403
     ∨ status_code_of downloading = Some 403
     ∨ status_code_of evidence = Some 403
     ∨ status_code_of events = Some 403 ->
     is_Some (tow_jobs d !! job_id)).
Proof.
  cbv zeta. split.
  - intros missing.
    rewrite update_status_missing, upload_job_photo_missing,
      download_job_photo_missing, get_job_evidence_missing,
      get_job_events_missing by exact missing.
    repeat split.
  - destruct (tow_jobs d !! job_id) as [job|] eqn:missing; [eauto|].
    rewrite update_status_missing, upload_job_photo_missing,
      download_job_photo_missing, get_job_evidence_missing,
      get_job_events_missing by exact missing.
    cbn. intuition discriminate.
Qed.

Lemma missing_job_is_reported_before_access_is_checked_witness :
  tow_jobs Sample.seeded !! "job-1" = None
  ∧ request (update_status "job-1" (TowJobStatusUpdate.mk TOWED None) Sample.admin)
            Sample.seeded Sample.fs Sample.ids
    = (Raised (HTTPException 404 "Tow job not found"), Sample.seeded, Sample.fs).
Proof.
  split; [reflexivity|].
  apply (proj1 (missing_job_is_reported_before_access_is_checked
                  Sample.settings Sample.float_str Sample.fromisoformat
                  Sample.seeded Sample.fs Sample.ids "job-1" Sample.admin
                  (TowJobStatusUpdate.mk TOWED None) (Sample.jpeg "a.jpg" [])
                  "AFTER" None None None None "photo-1")).
  reflexivity.
Defined.

(** ** User administration *)

(** C8. An administrator who updates their own record with [is_active] false,
    or with a role other than ADMIN, is answered 400 and nothing is
    written. *)
Theorem admin_cannot_lock_themselves_out
  (d : DB) (fs : FS) (ids : nat -> string) (admin target : User.t)
  (user_id : string) (payload : AdminUserUpdate.t) :
  User.role admin = ADMIN ->
  users d !! user_id = Some target ->
  User.id target = User.id admin ->
  AdminUserUpdate.is_active payload = Some false
  ∨ (∃ r, AdminUserUpdate.role payload = Some r ∧ r ≠ ADMIN) ->
  ∃ detail,
    request (admin_update_user user_id payload admin) d fs ids
    = (Raised (HTTPException 400 detail), d, fs).
Proof.
  intros Hrole Htarget Hself Hbad.
  unfold request, admin_update_user. mrun. rewrite require_roles_run, Hrole.
  rewrite bool_decide_eq_true_2 by (constructor).
  mrun. rewrite Htarget. mrun.
  rewrite bool_decide_eq_true_2 by exact Hself. mrun.
  destruct (AdminUserUpdate.role payload) as [r|] eqn:Er.
  - destruct (decide (r = ADMIN)) as [->|Hne].
    + mrun. destruct Hbad as [->|(r' & Er' & Hne)]; [eauto|congruence].
    + rewrite (bool_decide_eq_false_2 _ Hne). mrun. eauto.
  - mrun. destruct Hbad as [->|(r' & Er' & Hne)]; [eauto|discriminate].
Qed.

Lemma admin_cannot_lock_themselves_out_witness :
  User.role Sample.admin = ADMIN
  ∧ users Sample.seeded !! "u-admin" = Some Sample.admin
  ∧ ∃ detail,
      request (admin_update_user "u-admin"
                 (AdminUserUpdate.mk None None (Some DRIVER) None) Sample.admin)
              Sample.seeded Sample.fs Sample.ids
      = (Raised (HTTPException 400 detail), Sample.seeded, Sample.fs).
Proof.
  split; [reflexivity|]. split; [reflexivity|].
  apply (admin_cannot_lock_themselves_out Sample.seeded Sample.fs Sample.ids
           Sample.admin Sample.admin "u-admin"
           (AdminUserUpdate.mk None None (Some DRIVER) None));
    [reflexivity | reflexivity | reflexivity |].
  right. exists DRIVER. split; [reflexivity | discriminate].
Defined.

(** ** Invariants of the session *)

Section Keeps.

Context (J : Session -> Prop).

Lemma keeps_ret {A} (a : A) : keeps J (mret a).
Proof. intros w H. exact H. Qed.

Lemma keeps_raise {A} (e : exn) : keeps J (@raise A e).
Proof. intros w H. exact H. Qed.

Lemma keeps_bind {A B} (m : M A) (f : A -> M B) :
  keeps J m -> (forall a, keeps J (f a)) -> keeps J (m ≫= f).
Proof.
  intros Hm Hf w H. rewrite bind_run. specialize (Hm w H).
  destruct (m w) as [[a|e] w']; cbn in *; [now apply Hf | exact Hm].
Qed.

Lemma keeps_try_except {A} (m : M A) (h : exn -> M A) :
  keeps J m -> (forall e, keeps J (h e)) -> keeps J (try_except m h).
Proof.
  intros Hm Hh w H. unfold try_except. specialize (Hm w H).
  destruct (m w) as [[a|e] w']; cbn in *; [exact Hm | now apply Hh].
Qed.

Lemma keeps_session_free {A} (m : M A) : session_free m -> keeps J m.
Proof. intros Hm w H. now rewrite Hm. Qed.

Lemma keeps_db_query {A} (f : DB -> A) : keeps J (db_query f).
Proof. intros w H. unfold db_query. now destruct (stale (db w)). Qed.

Lemma keeps_db_refresh {A} (f : DB -> option A) : keeps J (db_refresh f).
Proof. intros w H. unfold db_refresh. now destruct (f (committed (db w))). Qed.

Lemma keeps_uuid4 : keeps J uuid4.
Proof. intros w H. exact H. Qed.

Lemma keeps_require_roles roles user : keeps J (require_roles roles user).
Proof. intros w H. rewrite require_roles_run. exact H. Qed.

Lemma keeps__assert_job_access user job : keeps J (_assert_job_access user job).
Proof. intros w H. rewrite _assert_job_access_run. exact H. Qed.

End Keeps.

Lemma session_free_ret {A} (a : A) : session_free (mret a).
Proof. intros w. reflexivity. Qed.

Lemma session_free_raise {A} (e : exn) : session_free (@raise A e).
Proof. intros w. reflexivity. Qed.

Lemma session_free_bind {A B} (m : M A) (f : A -> M B) :
  session_free m -> (forall a, session_free (f a)) -> session_free (m ≫= f).
Proof.
  intros Hm Hf w. rewrite bind_run. specialize (Hm w).
  destruct (m w) as [[a|e] w']; cbn in *; [now rewrite Hf | exact Hm].
Qed.

Lemma session_free_try_except {A} (m : M A) (h : exn -> M A) :
  session_free m -> (forall e, session_free (h e)) -> session_free (try_except m h).
Proof.
  intros Hm Hh w. unfold try_except. specialize (Hm w).
  destruct (m w) as [[a|e] w']; cbn in *; [exact Hm | now rewrite Hh].
Qed.

Lemma session_free_uuid4 : session_free uuid4.
Proof. intros w. reflexivity. Qed.

Lemma session_free_makedirs p : session_free (makedirs_exist_ok p).
Proof. intros w. unfold makedirs_exist_ok. now case_bool_decide. Qed.

Lemma session_free_open_wb p : session_free (open_wb p).
Proof. intros w. unfold open_wb. now repeat case_bool_decide. Qed.

Lemma session_free_close_with p b : session_free (close_with p b).
Proof. intros w. reflexivity. Qed.

Lemma session_free_os_path_exists p : session_free (os_path_exists p).
Proof. intros w. reflexivity. Qed.

Lemma session_free_os_remove p : session_free (os_remove p).
Proof. intros w. unfold os_remove. now case_bool_decide. Qed.

Create HintDb frame.

#[export] Hint Resolve session_free_ret session_free_raise session_free_uuid4
  session_free_makedirs session_free_open_wb session_free_close_with
  session_free_os_path_exists session_free_os_remove : frame.

#[export] Hint Resolve keeps_ret keeps_raise keeps_db_query keeps_db_refresh
  keeps_uuid4 keeps_require_roles keeps__assert_job_access : frame.

(** One step through the structure of a computation. *)
Ltac frame_step :=
  lazymatch goal with
  | |- session_free (_ ≫= _) => apply session_free_bind; [|intros ?]
  | |- session_free (try_except _ _) => apply session_free_try_except; [|intros ?]
  | |- keeps _ (_ ≫= _) => apply keeps_bind; [|intros ?]
  | |- keeps _ (try_except _ _) => apply keeps_try_except; [|intros ?]
  | |- session_free (match ?x with _ => _ end) => destruct x
  | |- keeps _ (match ?x with _ => _ end) => destruct x
  | |- _ => solve [eauto with frame]
  end.

Lemma session_free_remove_partial path : session_free (remove_partial path).
Proof. unfold remove_partial. repeat frame_step. Qed.

Lemma session_free_save_upload_streaming settings upload :
  session_free (save_upload_streaming settings upload).
Proof.
  unfold save_upload_streaming, ensure_upload_dir.
  pose proof session_free_remove_partial.
  repeat frame_step.
Qed.

(** ** The owner of a job *)

Lemma keeps_job_table_pending_insert t taken ins (s : Session) :
  (forall d, tow_jobs (ins d) = tow_jobs d) ->
  job_table_is t s -> job_table_is t (pending_insert taken ins s).
Proof.
  intros Hins [Hc Hw]. unfold pending_insert, job_table_is.
  destruct (taken (working s)); cbn; [tauto|]. now rewrite Hins.
Qed.

Lemma keeps_job_table_db_add_photo t p : keeps (job_table_is t) (db_add_photo p).
Proof. intros w H. now apply keeps_job_table_pending_insert. Qed.

Lemma keeps_job_table_db_add_event t e : keeps (job_table_is t) (db_add_event e).
Proof. intros w H. now apply keeps_job_table_pending_insert. Qed.

Lemma keeps_job_table_db_commit t : keeps (job_table_is t) db_commit.
Proof.
  intros w [Hc Hw]. unfold db_commit, job_table_is.
  destruct (stale (db w)); cbn; tauto.
Qed.

Lemma keeps_job_table__log_event t j a ty msg :
  keeps (job_table_is t) (_log_event j a ty msg).
Proof.
  unfold _log_event. apply keeps_bind; [apply keeps_uuid4|intros i].
  apply keeps_job_table_db_add_event.
Qed.

Lemma keeps_job_table_upload_job_photo settings float_str fromisoformat t
  job_id photo photo_type lat lng accuracy_m captured_at user :
  keeps (job_table_is t)
        (upload_job_photo settings float_str fromisoformat job_id photo photo_type
                          lat lng accuracy_m captured_at user).
Proof.
  pose proof (keeps_job_table_db_add_photo t).
  pose proof (keeps_job_table_db_commit t).
  pose proof (keeps_job_table__log_event t).
  pose proof (fun u => keeps_session_free (job_table_is t) _
                         (session_free_save_upload_streaming settings u)).
  unfold upload_job_photo, check_photo_geo, _parse_iso_datetime, bad_request.
  repeat frame_step.
Qed.

Lemma upload_job_photo_job_table settings float_str fromisoformat
  job_id photo photo_type lat lng accuracy_m captured_at user d fs ids :
  tow_jobs (snd (fst (request
     (upload_job_photo settings float_str fromisoformat job_id photo photo_type
                       lat lng accuracy_m captured_at user) d fs ids)))
  = tow_jobs d.
Proof.
  unfold request.
  match goal with
  | |- context [upload_job_photo ?s ?f ?p ?j ?ph ?ty ?la ?lo ?ac ?ca ?u ?w] =>
      pose proof (keeps_job_table_upload_job_photo s f p (tow_jobs d)
                    j ph ty la lo ac ca u w) as H;
      destruct (upload_job_photo s f p j ph ty la lo ac ca u w) as [r w']
  end.
  cbn in *. apply H. split; reflexivity.
Qed.

(** C9. Driver assignment, status update and photo upload leave the
    [officer_id] of every job as it was, whether they succeed or not; no
    job appears or disappears. *)
Theorem officer_id_is_never_changed
  (settings : Settings) (float_str : float -> string)
  (fromisoformat : string -> option datetime)
  (d : DB) (fs : FS) (ids : nat -> string) (job_id : string) (user : User.t)
  (assignment : TowJobAssign.t) (new_status : TowJobStatusUpdate.t)
  (photo : UploadFile) (photo_type : string)
  (lat lng accuracy_m : option float) (captured_at : option string) :
  let owner (x : DB) (k : string) := TowJob.officer_id <$> tow_jobs x !! k in
  let after {A} (r : outcome A * DB * FS) := snd (fst r) in
  forall k : string,
    owner (after (request (assign_driver job_id assignment user) d fs ids)) k
    = owner d k
    ∧ owner (after (request (update_status job_id new_status user) d fs ids)) k
      = owner d k
    ∧ owner (after (request (upload_job_photo settings float_str fromisoformat
                               job_id photo photo_type lat lng accuracy_m
                               captured_at user) d fs ids)) k
      = owner d k.
Proof.
  cbv zeta. intros k. split; [|split].
  - rewrite assign_driver_run.
    case_bool_decide; [|reflexivity].
    destruct (tow_jobs d !! job_id) as [job|] eqn:Hjob; [|reflexivity].
    destruct (active_driver _ d) as [driver|]; [|reflexivity].
    destruct (event_id_taken _ d); [reflexivity|].
    cbn [fst snd tow_jobs set_tow_job_events set_tow_jobs].
    destruct (decide (job_id = k)) as [<-|Hne].
    + now rewrite lookup_insert_eq, Hjob.
    + now rewrite lookup_insert_ne.
  - rewrite update_status_run.
    destruct (tow_jobs d !! job_id) as [job|] eqn:Hjob; [|reflexivity].
    destruct (has_access user job); [|reflexivity].
    destruct (event_id_taken _ d); [reflexivity|].
    cbn [fst snd tow_jobs set_tow_job_events set_tow_jobs].
    destruct (decide (job_id = k)) as [<-|Hne].
    + rewrite lookup_insert_eq, Hjob. cbn. unfold updated_job.
      now rewrite append_note_officer_id.
    + now rewrite lookup_insert_ne.
  - now rewrite upload_job_photo_job_table.
Qed.

(** ** Geo validation *)

(** The range checks on a supplied pair, as one boolean. *)
Lemma check_photo_geo_run what lat lng (w : World) :
  ∃ r, check_photo_geo what lat lng w = (r, w)
       ∧ (r = Returned tt ↔ geo_ok lat lng = true)
       ∧ (r = Returned tt ∨ ∃ detail, r = Raised (HTTPException 400 detail)).
Proof.
  unfold check_photo_geo, geo_ok, bad_request.
  destruct lat as [x|], lng as [y|]; rewrite bind_run.
  - rewrite bool_decide_eq_true_2 by (split; eauto). cbn [negb].
    unfold mret at 1, M_ret. rewrite bind_run.
    destruct (between (of_Z (-90)) x (of_Z 90)); cbn [negb andb].
    + unfold mret at 1, M_ret.
      destruct (between (of_Z (-180)) y (of_Z 180)); cbn [negb].
      * eexists. split; [reflexivity|]. split; [tauto|]. now left.
      * eexists. split; [reflexivity|]. split; [split; discriminate|]. right; eauto.
    + eexists. split; [reflexivity|]. split; [split; discriminate|]. right; eauto.
  - rewrite bool_decide_eq_false_2
      by (intros [H _]; destruct (H (ltac:(eauto))) as [? ?]; discriminate).
    cbn [negb]. eexists. split; [reflexivity|]. split; [split; discriminate|].
    right; eauto.
  - rewrite bool_decide_eq_false_2
      by (intros [_ H]; destruct (H (ltac:(eauto))) as [? ?]; discriminate).
    cbn [negb]. eexists. split; [reflexivity|]. split; [split; discriminate|].
    right; eauto.
  - rewrite bool_decide_eq_true_2
      by (split; intros [? ?]; discriminate).
    cbn [negb]. unfold mret, M_ret. rewrite bind_run.
    eexists. split; [reflexivity|]. split; [tauto|]. now left.
Qed.

(** A photo upload whose coordinates are out of range, or come as half a
    pair, is answered 400 before anything is written: no row, no file. *)
Lemma upload_job_photo_rejects_bad_geo settings float_str fromisoformat
  d fs ids job_id job photo ct photo_type lat lng accuracy_m captured_at user :
  tow_jobs d !! job_id = Some job ->
  has_access user job = true ->
  photo_type ∈ allowed_types ->
  content_type photo = Some ct -> ct ∈ allowed_ct ->
  geo_ok lat lng = false ->
  ∃ detail,
    request (upload_job_photo settings float_str fromisoformat job_id photo
               photo_type lat lng accuracy_m captured_at user) d fs ids
    = (Raised (HTTPException 400 detail), d, fs).
Proof.
  intros Hjob Hacc Hty Hct Hin Hgeo.
  unfold request, upload_job_photo. mrun. rewrite Hjob. mrun.
  rewrite _assert_job_access_run, Hacc. mrun.
  rewrite (bool_decide_eq_true_2 _ Hty). mrun.
  rewrite Hct, (bool_decide_eq_true_2 _ Hin). mrun.
  destruct (check_photo_geo_run "" lat lng
              {| db := {| committed := d; working := d; stale := false |};
                 disk := fs; rng := ids; drawn := 0 |})
    as (r & -> & Hr & [->|[detail ->]]).
  - destruct Hr as [Hr _]. rewrite Hr in Hgeo by reflexivity. discriminate.
  - eauto.
Qed.

(** The composite endpoint checks the range of the job's own location. *)
Lemma submit_evidence_rejects_bad_job_geo settings float_str fromisoformat
  d fs ids plate_number job_lat job_lng job_accuracy_m violation_type notes
  photo photo_type photo_lat photo_lng photo_accuracy_m captured_at user :
  User.role user ∈ [OFFICER; ADMIN] ->
  Py.upper (Py.strip plate_number) ≠ "" ->
  between (of_Z (-90)) job_lat (of_Z 90)
  && between (of_Z (-180)) job_lng (of_Z 180) = false ->
  ∃ detail,
    request (submit_evidence settings float_str fromisoformat plate_number
               job_lat job_lng job_accuracy_m violation_type notes photo
               photo_type photo_lat photo_lng photo_accuracy_m captured_at user)
            d fs ids
    = (Raised (HTTPException 400 detail), d, fs).
Proof.
  intros Hrole Hplate Hgeo.
  unfold request, submit_evidence, bad_request. mrun.
  rewrite require_roles_run, (bool_decide_eq_true_2 _ Hrole). mrun.
  apply String.eqb_neq in Hplate. rewrite Hplate. mrun.
  destruct (between (of_Z (-90)) job_lat (of_Z 90)); mrun; [|eauto].
  cbn [andb] in Hgeo. rewrite Hgeo. mrun. eauto.
Qed.

(** C3 fails on job creation: the body of POST /tow-jobs passes the schema
    with latitude 123, and the job is committed with it. *)
Lemma create_tow_job_accepts_latitude_123 :
  let raw := TowJobCreate.mk_raw (Some "AB123") (Some (of_Z 123))
               (Some (of_Z 45)) None None None in
  ∃ payload job d',
    TowJobCreate.validate raw = Some payload
    ∧ between (of_Z (-90)) (TowJobCreate.location_lat payload) (of_Z 90) = false
    ∧ request (create_tow_job payload Sample.officer)
              Sample.seeded Sample.fs Sample.ids
      = (Returned job, d', Sample.fs)
    ∧ tow_jobs d' !! "id-0" = Some job
    ∧ TowJob.location_lat job = of_Z 123.
Proof. vm_compute. eexists _, _, _. repeat split; reflexivity. Qed.

(** ** The streaming loop *)

Lemma copy_chunks_step settings max_bytes rd bytes_written out :
  copy_chunks settings max_bytes rd bytes_written out =
  match read CHUNK rd with
  | (Raised e, _) => (Raised e, out)
  | (Returned [], _) => (Returned bytes_written, out)
  | (Returned (b :: chunk), rd') =>
      if max_bytes <? bytes_written + len (b :: chunk)
      then (Raised (too_large settings), out)
      else copy_chunks settings max_bytes rd' (bytes_written + len (b :: chunk))
                       (out ++ b :: chunk)
  end.
Proof.
  simp copy_chunks.
  enough (H : forall x (e : read CHUNK rd = x),
             copy_chunks_unfold_clause_1 settings max_bytes rd (x ↾ e)
               bytes_written out
             = match x with
               | (Raised e, _) => (Raised e, out)
               | (Returned [], _) => (Returned bytes_written, out)
               | (Returned (b :: chunk), rd') =>
                   if max_bytes <? bytes_written + len (b :: chunk)
                   then (Raised (too_large settings), out)
                   else copy_chunks settings max_bytes rd'
                          (bytes_written + len (b :: chunk)) (out ++ b :: chunk)
               end) by apply H.
  intros [[[|b chunk]|e] rd'] E; reflexivity.
Qed.

Lemma take_drop_upto {A} (n : Z) (l : list A) :
  (take_upto n l ++ drop_upto n l)%list = l.
Proof.
  revert n; induction l as [|x l IH]; intros n; cbn; [reflexivity|].
  destruct (0 <? n); cbn; [now rewrite IH | reflexivity].
Qed.

Lemma len_app {A} (l k : list A) : len (l ++ k) = len l + len k.
Proof. unfold len. rewrite length_app. lia. Qed.

Lemma len_nonneg {A} (l : list A) : 0 <= len l.
Proof. unfold len. lia. Qed.

Lemma take_upto_nil {A} (n : Z) (l : list A) :
  0 < n -> take_upto n l = [] -> l = [].
Proof.
  intros Hn. destruct l as [|x l]; cbn; [reflexivity|].
  destruct (Z.ltb_spec 0 n); [discriminate | lia].
Qed.

Lemma read_no_fault n bytes :
  read n {| data := bytes; fault_in := None |}
  = (Returned (take_upto n bytes),
     {| data := drop_upto n bytes; fault_in := None |}).
Proof. reflexivity. Qed.

(** A stream that fits is copied whole. *)
Lemma copy_chunks_fits settings max_bytes :
  forall (k : nat) bytes bytes_written out,
    (length bytes <= k)%nat ->
    bytes_written + len bytes <= max_bytes ->
    copy_chunks settings max_bytes {| data := bytes; fault_in := None |}
                bytes_written out
    = (Returned (bytes_written + len bytes), (out ++ bytes)%list).
Proof.
  induction k as [|k IH]; intros bytes bw out Hk Hfit;
    rewrite copy_chunks_step, read_no_fault;
    pose proof (take_drop_upto CHUNK bytes) as Hsplit;
    destruct (take_upto CHUNK bytes) as [|b chunk] eqn:Htake.
  - apply take_upto_nil in Htake; [|reflexivity]. subst bytes.
    cbn. now rewrite Z.add_0_r, app_nil_r.
  - destruct bytes; [discriminate | cbn in Hk; lia].
  - apply take_upto_nil in Htake; [|reflexivity]. subst bytes.
    cbn. now rewrite Z.add_0_r, app_nil_r.
  - assert (Hlen : len bytes = len (b :: chunk) + len (drop_upto CHUNK bytes))
      by (now rewrite <- len_app, Hsplit).
    pose proof (len_nonneg (drop_upto CHUNK bytes)).
    destruct (Z.ltb_spec max_bytes (bw + len (b :: chunk))); [lia|].
    rewrite IH.
    + f_equal; [f_equal; lia|]. now rewrite <- app_assoc, Hsplit.
    + apply (f_equal (@length _)) in Hsplit. rewrite length_app in Hsplit.
      cbn in Hsplit. lia.
    + lia.
Qed.

(** A stream that does not fit is refused at the chunk that crosses the
    limit. *)
Lemma copy_chunks_overflow settings max_bytes :
  forall (k : nat) bytes bytes_written out,
    (length bytes <= k)%nat ->
    bytes_written <= max_bytes ->
    max_bytes < bytes_written + len bytes ->
    ∃ written,
      copy_chunks settings max_bytes {| data := bytes; fault_in := None |}
                  bytes_written out
      = (Raised (too_large settings), written).
Proof.
  induction k as [|k IH]; intros bytes bw out Hk Hbw Hover;
    rewrite copy_chunks_step, read_no_fault;
    pose proof (take_drop_upto CHUNK bytes) as Hsplit;
    destruct (take_upto CHUNK bytes) as [|b chunk] eqn:Htake.
  - apply take_upto_nil in Htake; [|reflexivity]. subst bytes. unfold len in Hover. cbn in Hover. lia.
  - destruct bytes; [discriminate | cbn in Hk; lia].
  - apply take_upto_nil in Htake; [|reflexivity]. subst bytes. unfold len in Hover. cbn in Hover. lia.
  - assert (Hlen : len bytes = len (b :: chunk) + len (drop_upto CHUNK bytes))
      by (now rewrite <- len_app, Hsplit).
    destruct (Z.ltb_spec max_bytes (bw + len (b :: chunk))); [eauto|].
    apply IH.
    + apply (f_equal (@length _)) in Hsplit. rewrite length_app in Hsplit.
      cbn in Hsplit. lia.
    + lia.
    + lia.
Qed.

(** A transport fault before the first read ends the loop at once. *)
Lemma copy_chunks_fault settings max_bytes bytes bytes_written out :
  copy_chunks settings max_bytes {| data := bytes; fault_in := Some 0%nat |}
              bytes_written out
  = (Raised (OSError "read failed"), out).
Proof. now rewrite copy_chunks_step. Qed.

(** ** Storing an upload *)

Lemma accepts_upload_inv (fs : FS) (path : string) :
  accepts_upload fs path = true ->
  files fs !! resolve fs UPLOAD_DIR = None
  ∧ (resolve fs path ∉ ({[resolve fs UPLOAD_DIR]} ∪ dirs fs : gset string))
  ∧ (Path.dirname (resolve fs path)
     ∈ ({[resolve fs UPLOAD_DIR]} ∪ dirs fs : gset string)).
Proof.
  unfold accepts_upload. cbv zeta.
  rewrite !andb_true_iff, !negb_true_iff, !bool_decide_eq_false,
    bool_decide_eq_true.
  intros [[H1 H2] H3]. repeat split; try assumption.
  destruct (files fs !! resolve fs UPLOAD_DIR) eqn:E; [|reflexivity].
  exfalso. apply H1. eauto.
Qed.

Ltac disk_run :=
  repeat (rewrite bind_run
          || (progress unfold raise, uuid4, close_with, os_path_exists, os_remove,
                try_except)
          || (progress cbn [db disk rng drawn with_disk set_files set_dirs
                            files dirs cwd mret M_ret fst snd])).

Lemma remove_partial_present path (w : World) :
  is_Some (files (disk w) !! resolve (disk w) path) ->
  remove_partial path w
  = (Returned tt,
     with_disk (set_files (delete (resolve (disk w) path) (files (disk w)))
                          (disk w)) w).
Proof.
  intros H. unfold remove_partial. disk_run.
  rewrite (bool_decide_eq_true_2 _ H). cbn [orb].
  rewrite (bool_decide_eq_true_2 _ H). reflexivity.
Qed.

Lemma save_upload_streaming_run settings upload (w : World) :
  accepts_upload (disk w) (stored_path (rng w (drawn w)) upload) = true ->
  let path := stored_path (rng w (drawn w)) upload in
  let ap := resolve (disk w) path in
  save_upload_streaming settings upload w
  = match copy_chunks settings (MAX_UPLOAD_MB settings * 1024 * 1024)
                      (file upload) 0 [] with
    | (Returned n, written) =>
        (Returned (path, n),
         after_upload (<[ap := written]> (files (disk w))) w)
    | (Raised (HTTPException c detail), _) =>
        (Raised (HTTPException c detail),
         after_upload (delete ap (files (disk w))) w)
    | (Raised e, _) =>
        (Raised (HTTPException 500 ("Upload failed: " ++ exn_str e)),
         after_upload (delete ap (files (disk w))) w)
    end.
Proof.
  intros Hdisk. cbv zeta.
  apply accepts_upload_inv in Hdisk as (Hroot & Hnodir & Hparent).
  unfold save_upload_streaming, ensure_upload_dir. rewrite bind_run.
  unfold makedirs_exist_ok at 1. fold (resolve (disk w) UPLOAD_DIR).
  rewrite bool_decide_eq_false_2 by (rewrite Hroot; intros [? ?]; discriminate).
  disk_run. fold (stored_path (rng w (drawn w)) upload).
  unfold open_wb. disk_run.
  fold (resolve (disk w) (stored_path (rng w (drawn w)) upload)).
  fold (resolve (disk w) UPLOAD_DIR).
  rewrite (bool_decide_eq_false_2 _ Hnodir), (bool_decide_eq_true_2 _ Hparent).
  disk_run.
  destruct (copy_chunks settings (MAX_UPLOAD_MB settings * 1024 * 1024)
                        (file upload) 0 []) as [[n|e] written].
  - disk_run. rewrite insert_insert_eq. reflexivity.
  - disk_run. rewrite insert_insert_eq.
    destruct e; rewrite bind_run, remove_partial_present
      by (unfold resolve; cbn [disk with_disk set_files files cwd set_dirs];
          rewrite lookup_insert_eq; eauto);
      unfold resolve; disk_run; rewrite delete_insert_eq; reflexivity.
Qed.

(** A transport fault at the first read: 500, and the file that was opened
    is removed. *)
Lemma save_upload_streaming_read_fault settings upload bytes (w : World) :
  file upload = {| data := bytes; fault_in := Some 0%nat |} ->
  accepts_upload (disk w) (stored_path (rng w (drawn w)) upload) = true ->
  save_upload_streaming settings upload w
  = (Raised (HTTPException 500 "Upload failed: read failed"),
     after_upload
       (delete (resolve (disk w) (stored_path (rng w (drawn w)) upload))
               (files (disk w))) w).
Proof.
  intros Hfile Hdisk.
  rewrite (save_upload_streaming_run settings upload w Hdisk), Hfile.
  now rewrite copy_chunks_fault.
Qed.

(** ** The stored path *)

Lemma append_cons a (s t : string) : String a s ++ t = String a (s ++ t).
Proof. reflexivity. Qed.

Lemma append_nil (t : string) : "" ++ t = t.
Proof. reflexivity. Qed.

Lemma contains_app c (s t : string) :
  Py.contains c (s ++ t) = Py.contains c s || Py.contains c t.
Proof.
  induction s as [|a s IH]; [reflexivity|].
  rewrite append_cons. cbn. now rewrite IH, orb_assoc.
Qed.

Lemma rpartition_tail c (s h t : string) :
  Py.rpartition c s = Some (h, t) -> Py.contains c t = false.
Proof.
  revert h t; induction s as [|a s IH]; intros h t; cbn; [discriminate|].
  destruct (Py.rpartition c s) as [[h' t']|] eqn:E.
  - intros [= <- <-]. eauto.
  - destruct (Ascii.eqb a c); [|discriminate]. intros [= <- <-].
    clear IH. induction s as [|b s IH]; cbn in *; [reflexivity|].
    destruct (Py.rpartition c s) as [[? ?]|]; [discriminate|].
    destruct (Ascii.eqb b c); [discriminate|]. cbn. now apply IH.
Qed.

Lemma rpartition_none c (s : string) :
  Py.rpartition c s = None <-> Py.contains c s = false.
Proof.
  induction s as [|a s IH]; cbn; [tauto|].
  destruct (Py.rpartition c s) as [[h t]|].
  - split; [discriminate|]. intros H. apply orb_false_iff in H as [_ H].
    apply IH in H. discriminate.
  - destruct (Ascii.eqb a c); cbn; [split; discriminate|]. tauto.
Qed.

Lemma lower_char_dot a :
  Ascii.eqb (Py.lower_char a) "." = Ascii.eqb a ".".
Proof. destruct a as [[] [] [] [] [] [] [] []]; reflexivity. Qed.

Lemma lower_char_sep a :
  Ascii.eqb (Py.lower_char a) Path.sep = Ascii.eqb a Path.sep.
Proof. destruct a as [[] [] [] [] [] [] [] []]; reflexivity. Qed.

Lemma contains_lower_dot (s : string) :
  Py.contains "." (Py.lower s) = Py.contains "." s.
Proof.
  induction s as [|a s IH]; cbn; [reflexivity|].
  now rewrite lower_char_dot, IH.
Qed.

(** The extension is empty, or a dot and the lower-cased text after the
    last dot of the client's file name; that text has no dot. *)
Lemma _guess_ext_shape (name : option string) :
  _guess_ext name = ""
  ∨ ∃ f, name = Some f
         ∧ _guess_ext name = "." ++ Py.lower (Py.rsplit1_last "." f)
         ∧ Py.contains "." (Py.lower (Py.rsplit1_last "." f)) = false.
Proof.
  destruct name as [f|]; [|now left]. unfold _guess_ext.
  destruct (negb (Py.truthy (Some f)) || negb (Py.contains "." f)) eqn:E;
    [now left|].
  right. exists f. split; [reflexivity|]. split; [reflexivity|].
  rewrite contains_lower_dot. unfold Py.rsplit1_last.
  destruct (Py.rpartition "." f) as [[h t]|] eqn:Ep.
  - eapply rpartition_tail; eassumption.
  - now apply rpartition_none.
Qed.

Lemma uuid_char_not_sep a : uuid_char a = true -> Ascii.eqb a Path.sep = false.
Proof. destruct a as [[] [] [] [] [] [] [] []]; vm_compute; congruence. Qed.

Lemma uuid_no_sep (u : string) :
  Py.all_chars uuid_char u = true -> Py.contains Path.sep u = false.
Proof.
  induction u as [|a u IH]; cbn; [reflexivity|].
  intros H. apply andb_true_iff in H as [Ha Hu].
  now rewrite (uuid_char_not_sep a Ha), IH.
Qed.

Lemma split_no_sep c (s : string) :
  Py.contains c s = false -> Py.split c s = [s].
Proof.
  induction s as [|a s IH]; cbn; [reflexivity|].
  intros H. apply orb_false_iff in H as [Ha Hs].
  now rewrite Ha, IH.
Qed.

Lemma join_upload_dir (u rest : string) :
  is_uuid u = true ->
  Path.join UPLOAD_DIR (u ++ rest) = "uploads/" ++ u ++ rest.
Proof.
  unfold is_uuid. intros H. apply andb_true_iff in H as [Hlen Hchars].
  destruct u as [|a u]; [discriminate|]. cbn in Hchars.
  apply andb_true_iff in Hchars as [Ha _].
  apply uuid_char_not_sep in Ha.
  unfold Path.join, Py.startswith. rewrite append_cons. cbn [String.prefix].
  destruct (ascii_dec "/" a) as [<-|_]; [discriminate|]. reflexivity.
Qed.

Lemma save_upload_streaming_path settings upload (w w' : World) path n :
  save_upload_streaming settings upload w = (Returned (path, n), w') ->
  path = stored_path (rng w (drawn w)) upload.
Proof.
  unfold save_upload_streaming, ensure_upload_dir. rewrite bind_run.
  unfold makedirs_exist_ok at 1. case_bool_decide; [discriminate|].
  rewrite bind_run. unfold uuid4 at 1. cbn [rng drawn with_disk].
  rewrite bind_run.
  match goal with
  | |- context [try_except ?m ?h ?x] => destruct (try_except m h x) as [[bw|e] w1]
  end; [|discriminate].
  intros [= <- _ _]. reflexivity.
Qed.

(** The name of the stored file takes its extension from the client's file
    name: the same draw of the UUID stores "evidence.jpg" under a path
    ending in ".jpg" and "evidence.PHP" under one ending in ".php"; for
    "x./A/b" the path built has the components "a" and "b". *)
Lemma stored_path_takes_text_from_the_client :
  fst (save_upload_streaming Sample.settings (Sample.jpeg "evidence.jpg" [])
         Sample.world_with_uuids)
  = Returned ("uploads/3f2b8c1e-7a4d-4e6f-9b0a-5c1d2e3f4a50.jpg", 0)
  ∧ fst (save_upload_streaming Sample.settings (Sample.jpeg "evidence.PHP" [])
           Sample.world_with_uuids)
    = Returned ("uploads/3f2b8c1e-7a4d-4e6f-9b0a-5c1d2e3f4a50.php", 0)
  ∧ fst (save_upload_streaming Sample.settings (Sample.jpeg "evidence.jpg" [])
           Sample.world_with_uuids)
    ≠ fst (save_upload_streaming Sample.settings (Sample.jpeg "evidence.PHP" [])
             Sample.world_with_uuids)
  ∧ Py.split Path.sep
      (stored_path (Sample.uuids 0) (Sample.jpeg "x./A/b" []))
    = ["uploads"; "3f2b8c1e-7a4d-4e6f-9b0a-5c1d2e3f4a50."; "a"; "b"].
Proof. vm_compute. repeat split; reflexivity || discriminate. Qed.

(** The shape of every path an upload is stored under: the upload root, a
    separator, the UUID drawn for it, and an extension: empty, or a dot and
    the lower-cased text after the last dot of the client's file name, which
    holds no further dot. When that text has no separator the path has
    exactly two components, the upload root and the generated name. *)
Theorem stored_path_is_root_uuid_and_client_extension
  (settings : Settings) (upload : UploadFile) (w w' : World)
  (path : string) (n : Z) :
  is_uuid (rng w (drawn w)) = true ->
  save_upload_streaming settings upload w = (Returned (path, n), w') ->
  let u := rng w (drawn w) in
  let ext := _guess_ext (filename upload) in
  path = UPLOAD_DIR ++ "/" ++ u ++ ext
  ∧ (ext = ""
     ∨ ∃ f, filename upload = Some f
            ∧ ext = "." ++ Py.lower (Py.rsplit1_last "." f)
            ∧ Py.contains "." (Py.lower (Py.rsplit1_last "." f)) = false)
  ∧ (Py.contains Path.sep ext = false ->
     Py.split Path.sep path = [UPLOAD_DIR; u ++ ext]).
Proof.
  intros Huuid Hrun. cbv zeta.
  apply save_upload_streaming_path in Hrun. subst path. unfold stored_path.
  rewrite join_upload_dir by exact Huuid.
  split; [reflexivity|]. split; [apply _guess_ext_shape|].
  intros Hext.
  assert (Hname : Py.contains Path.sep
                    (rng w (drawn w) ++ _guess_ext (filename upload)) = false).
  { rewrite contains_app, Hext, orb_false_r. apply uuid_no_sep.
    unfold is_uuid in Huuid. now apply andb_true_iff in Huuid as [_ ?]. }
  change ("uploads/" ++ rng w (drawn w) ++ _guess_ext (filename upload))
    with (String "u" (String "p" (String "l" (String "o" (String "a" (String "d"
           (String "s" (String "/"
             (rng w (drawn w) ++ _guess_ext (filename upload)))))))))).
  cbn [Py.split Ascii.eqb Bool.eqb Path.sep].
  now rewrite (split_no_sep _ _ Hname).
Qed.

Lemma stored_path_is_root_uuid_and_client_extension_witness :
  let upload := Sample.jpeg "evidence.JPG" [Byte.x2a] in
  let run := save_upload_streaming Sample.settings upload Sample.world_with_uuids in
  is_uuid (Sample.uuids 0) = true
  ∧ run = (Returned ("uploads/3f2b8c1e-7a4d-4e6f-9b0a-5c1d2e3f4a50.jpg", 1), snd run)
  ∧ Py.split Path.sep "uploads/3f2b8c1e-7a4d-4e6f-9b0a-5c1d2e3f4a50.jpg"
    = ["uploads"; "3f2b8c1e-7a4d-4e6f-9b0a-5c1d2e3f4a50.jpg"].
Proof.
  cbv zeta. split; [vm_compute; reflexivity|].
  split; [vm_compute; reflexivity|].
  apply (proj2 (proj2 (stored_path_is_root_uuid_and_client_extension
           Sample.settings (Sample.jpeg "evidence.JPG" [Byte.x2a])
           Sample.world_with_uuids
           (snd (save_upload_streaming Sample.settings
                   (Sample.jpeg "evidence.JPG" [Byte.x2a])
                   Sample.world_with_uuids))
           "uploads/3f2b8c1e-7a4d-4e6f-9b0a-5c1d2e3f4a50.jpg" 1
           ltac:(vm_compute; reflexivity) ltac:(vm_compute; reflexivity)))).
  vm_compute; reflexivity.
Defined.

(** C7 fails for a file name with a separator after its last dot. The
    extension is taken from the client's file name as it stands, so for the
    upload named "x./A/b" the path built is the upload root, the UUID
    followed by a dot, and then the components "a" and "b" chosen by the
    client. On a disk where the directory of that path exists the file is
    written there, below a directory the client named; on the sample disk,
    where it does not, the upload is refused with 500 and nothing is
    written. The same bytes named "x.jpg" are stored directly under the
    upload root. *)
Lemma stored_path_has_client_components :
  let upload := Sample.jpeg "x./A/b" [Byte.x2a] in
  let w := Sample.world_with_uuids in
  let prepared :=
    with_disk (set_dirs ({["/srv/app/uploads/3f2b8c1e-7a4d-4e6f-9b0a-5c1d2e3f4a50./a"]}
                         ∪ dirs Sample.fs) Sample.fs) w in
  _guess_ext (filename upload) = "./a/b"
  ∧ stored_path (rng w (drawn w)) upload
    = "uploads/3f2b8c1e-7a4d-4e6f-9b0a-5c1d2e3f4a50./a/b"
  ∧ Py.split Path.sep (stored_path (rng w (drawn w)) upload)
    = ["uploads"; "3f2b8c1e-7a4d-4e6f-9b0a-5c1d2e3f4a50."; "a"; "b"]
  ∧ fst (save_upload_streaming Sample.settings upload prepared)
    = Returned ("uploads/3f2b8c1e-7a4d-4e6f-9b0a-5c1d2e3f4a50./a/b", 1)
  ∧ files (disk (snd (save_upload_streaming Sample.settings upload prepared)))
    !! "/srv/app/uploads/3f2b8c1e-7a4d-4e6f-9b0a-5c1d2e3f4a50./a/b"
    = Some [Byte.x2a]
  ∧ fst (save_upload_streaming Sample.settings upload w)
    = Raised (HTTPException 500
        "Upload failed: [Errno 2] No such file or directory: 'uploads/3f2b8c1e-7a4d-4e6f-9b0a-5c1d2e3f4a50./a/b'")
  ∧ files (disk (snd (save_upload_streaming Sample.settings upload w)))
    = files (disk w)
  ∧ fst (save_upload_streaming Sample.settings (Sample.jpeg "x.jpg" [Byte.x2a]) w)
    = Returned ("uploads/3f2b8c1e-7a4d-4e6f-9b0a-5c1d2e3f4a50.jpg", 1)
  ∧ Py.split Path.sep "uploads/3f2b8c1e-7a4d-4e6f-9b0a-5c1d2e3f4a50.jpg"
    = ["uploads"; "3f2b8c1e-7a4d-4e6f-9b0a-5c1d2e3f4a50.jpg"].
Proof. cbv zeta. repeat split; vm_compute; reflexivity. Qed.

(** ** Evidence submission *)


Lemma find_photo_appended (k : string) (rec : TowJobPhoto.t)
  (l : list TowJobPhoto.t) :
  existsb (fun q => String.eqb (TowJobPhoto.id q) k) l = false ->
  TowJobPhoto.id rec = k ->
  find (fun q => String.eqb (TowJobPhoto.id q) k) (l ++ [rec]) = Some rec.
Proof.
  intros Hfree Hid. induction l as [|q l IH]; cbn in *.
  - now rewrite Hid, String.eqb_refl.
  - apply orb_false_iff in Hfree as [-> Hl]. now apply IH.
Qed.

Lemma pending_insert_concrete taken ins c wk st :
  pending_insert taken ins {| committed := c; working := wk; stale := st |}
  = if taken wk then {| committed := c; working := wk; stale := true |}
    else {| committed := c; working := ins wk; stale := st |}.
Proof. reflexivity. Qed.

Lemma save_upload_streaming_stores settings upload bytes (w : World) :
  file upload = {| data := bytes; fault_in := None |} ->
  accepts_upload (disk w) (stored_path (rng w (drawn w)) upload) = true ->
  len bytes <= MAX_UPLOAD_MB settings * 1024 * 1024 ->
  save_upload_streaming settings upload w
  = (Returned (stored_path (rng w (drawn w)) upload, len bytes),
     after_upload
       (<[resolve (disk w) (stored_path (rng w (drawn w)) upload) := bytes]>
          (files (disk w))) w).
Proof.
  intros Hfile Hdisk Hfit.
  rewrite (save_upload_streaming_run settings upload w Hdisk), Hfile.
  rewrite (copy_chunks_fits settings _ (length bytes)) by (try reflexivity; lia).
  now rewrite Z.add_0_l.
Qed.

(** As [mrun], but reducing the state before the next bind is opened: the
    order that keeps the terms small when many rows are pending. *)
Ltac mseq :=
  repeat ((progress cbn [db disk rng drawn committed working stale with_db
                         with_disk with_working mark_stale mret M_ret
                         users tow_jobs tow_job_photos tow_job_events
                         set_users set_tow_jobs set_tow_job_photos
                         set_tow_job_events TowJobEvent.id TowJobPhoto.id
                         orb andb negb])
          || rewrite bind_run
          || (progress unfold db_query, db_modify, db_add_event, db_add_job,
                db_add_photo, db_add, db_commit, db_refresh, uuid4, _log_event,
                raise, get_world)).




(** The three ways a photo write fails, on the sample deployment: a
    validation error, a file over the ceiling, a transport fault. Each time
    the committed rows are the seeded ones and no file is left. *)
Example submit_evidence_failures_on_sample :
  let submit settings photo photo_lat :=
    request (submit_evidence settings Sample.float_str Sample.fromisoformat
               "abc123" (of_Z 2) (of_Z 45) None None None photo "PLATE_CLOSEUP"
               photo_lat None None None Sample.officer)
            Sample.seeded Sample.fs Sample.ids in
  let faulty := {| filename := Some "car.jpg"; content_type := Some "image/jpeg";
                   file := {| data := [Byte.x2a]; fault_in := Some 0%nat |} |} in
  let outcome_of {A} (x : outcome A * DB * FS) := (status_code_of x, snd (fst x)) in
  outcome_of (submit Sample.settings (Sample.jpeg "car.jpg" [Byte.x2a]) (Some (of_Z 2)))
  = (Some 400, Sample.seeded)
  ∧ outcome_of (submit {| MAX_UPLOAD_MB := 0 |} (Sample.jpeg "car.jpg" [Byte.x2a]) None)
    = (Some 413, Sample.seeded)
  ∧ files (snd (submit {| MAX_UPLOAD_MB := 0 |} (Sample.jpeg "car.jpg" [Byte.x2a]) None))
    = ∅
  ∧ outcome_of (submit Sample.settings faulty None) = (Some 500, Sample.seeded)
  ∧ files (snd (submit Sample.settings faulty None)) = ∅
  ∧ (∃ job rec url d',
       fst (submit Sample.settings (Sample.jpeg "car.jpg" [Byte.x2a]) None)
       = (Returned (job, rec, url), d')
       ∧ tow_jobs d' !! "id-0" = Some job
       ∧ length (tow_job_events d') = 2%nat).
Proof.
  cbv zeta. repeat split; try (vm_compute; reflexivity).
  eexists _, _, _, _. vm_compute. repeat split; reflexivity.
Qed.

(** ** Where the generated path resolves to *)

Lemma append_assoc (a b c : string) : (a ++ b) ++ c = a ++ b ++ c.
Proof.
  induction a as [|x a IH]; [reflexivity|].
  rewrite !append_cons. now rewrite IH.
Qed.

Lemma length_append (a b : string) :
  String.length (a ++ b) = (String.length a + String.length b)%nat.
Proof.
  induction a as [|x a IH]; [reflexivity|].
  rewrite append_cons. cbn. now rewrite IH.
Qed.

Lemma prefix_append (p a b : string) :
  (String.length p <= String.length a)%nat ->
  String.prefix p (a ++ b) = String.prefix p a.
Proof.
  revert a; induction p as [|x p IH]; intros a Hlen.
  - destruct a as [|y a]; [rewrite append_nil; now destruct b | now rewrite append_cons].
  - destruct a as [|y a]; cbn in Hlen; [lia|].
    rewrite append_cons. cbn. destruct (ascii_dec x y); [|reflexivity].
    apply IH. lia.
Qed.

Lemma split_nonempty c (s : string) : Py.split c s <> [].
Proof.
  destruct s as [|a s]; cbn; [discriminate|].
  destruct (Ascii.eqb a c); [discriminate|].
  destruct (Py.split c s); discriminate.
Qed.

Lemma split_app_sep c (a b : string) :
  Py.split c (a ++ String c b) = (Py.split c a ++ Py.split c b)%list.
Proof.
  induction a as [|x a IH].
  - rewrite append_nil. cbn. now rewrite Ascii.eqb_refl.
  - rewrite append_cons. cbn. rewrite IH.
    destruct (Ascii.eqb x c); [reflexivity|].
    pose proof (split_nonempty c a).
    destruct (Py.split c a); [contradiction|reflexivity].
Qed.

Lemma norm_comps_snoc rooted (l acc : list string) (x : string) :
  String.eqb x "" = false -> String.eqb x "." = false ->
  String.eqb x ".." = false ->
  Path.norm_comps rooted (l ++ [x]) acc
  = (Path.norm_comps rooted l acc ++ [x])%list.
Proof.
  intros H0 H1 H2. revert acc; induction l as [|y l IH]; intros acc.
  - cbn. now rewrite H0, H1, H2.
  - cbn [app Path.norm_comps].
    destruct (String.eqb y "" || String.eqb y "."); [apply IH|].
    match goal with |- (if ?c then _ else _) = _ => destruct c end; apply IH.
Qed.

Lemma join_snoc sep (l : list string) (x : string) :
  l <> [] -> Py.join sep (l ++ [x]) = Py.join sep l ++ sep ++ x.
Proof.
  induction l as [|y l IH]; [contradiction|]. intros _.
  destruct l as [|z l]; [reflexivity|].
  change (Py.join sep ((y :: z :: l) ++ [x]))
    with (y ++ sep ++ Py.join sep ((z :: l) ++ [x])).
  rewrite IH by discriminate.
  change (Py.join sep (y :: z :: l)) with (y ++ sep ++ Py.join sep (z :: l)).
  now rewrite !append_assoc.
Qed.

Lemma endswith_char_inv (s : string) c :
  Py.endswith_char s c = true -> ∃ s', s = s' ++ String c "".
Proof.
  induction s as [|a s IH]; cbn; [discriminate|].
  destruct s as [|b s].
  - intros H. apply Ascii.eqb_eq in H as ->. now exists "".
  - intros H. destruct (IH H) as [s' ->]. exists (String a s').
    now rewrite append_cons.
Qed.

(** [join cwd ("uploads" ++ rest)] is [base ++ "uploads" ++ rest] for a
    [base] that does not depend on [rest], and its components are those of
    the base followed by those of ["uploads" ++ rest]. *)
Lemma join_cwd_uploads (cwd : string) :
  ∃ (l : list string) (base : string), forall rest : string,
    Py.split Path.sep (Path.join cwd ("uploads" ++ rest))
    = (l ++ Py.split Path.sep ("uploads" ++ rest))%list
    ∧ Path.join cwd ("uploads" ++ rest) = base ++ "uploads" ++ rest.
Proof.
  unfold Path.join.
  destruct (String.eqb cwd "") eqn:Hcwd.
  - apply String.eqb_eq in Hcwd as ->. exists [], "". intros rest.
    replace (Py.startswith ("uploads" ++ rest) "/") with false by reflexivity.
    split; reflexivity.
  - cbn [orb]. destruct (Py.endswith_char cwd Path.sep) eqn:Hend.
    + apply endswith_char_inv in Hend as [s' ->].
      exists (Py.split Path.sep s'), (s' ++ "/"). intros rest.
      replace (Py.startswith ("uploads" ++ rest) "/") with false by reflexivity.
      split; [|reflexivity].
      rewrite append_assoc, append_cons, append_nil. apply split_app_sep.
    + exists (Py.split Path.sep cwd), (cwd ++ "/"). intros rest.
      replace (Py.startswith ("uploads" ++ rest) "/") with false by reflexivity.
      split.
      * change (cwd ++ "/" ++ "uploads" ++ rest)
          with (cwd ++ String Path.sep ("uploads" ++ rest)).
        apply split_app_sep.
      * now rewrite append_assoc.
Qed.

Lemma append_uploads_nonempty (base rest : string) :
  String.eqb (base ++ "uploads" ++ rest) "" = false.
Proof. now destruct base. Qed.

Lemma join_ends_with_uploads (l : list string) :
  ∃ j, Py.join "/" (l ++ ["uploads"]) = j ++ "uploads".
Proof.
  destruct l as [|x l]; [now exists ""|].
  rewrite join_snoc by discriminate.
  exists (Py.join "/" (x :: l) ++ "/"). now rewrite append_assoc.
Qed.

(** A plain name below "uploads" resolves to a direct child of what
    "uploads" resolves to. *)
Lemma abspath_below_uploads (cwd name : string) :
  plain_name name ->
  ∃ z, Path.abspath cwd "uploads" = z ++ "uploads"
       ∧ Path.abspath cwd ("uploads/" ++ name) = (z ++ "uploads") ++ "/" ++ name.
Proof.
  intros (Hsep & Hne & Hdot & Hdotdot).
  destruct (join_cwd_uploads cwd) as (l & base & Hjoin).
  destruct (Hjoin "") as [Hsplit1 Hx1].
  destruct (Hjoin ("/" ++ name)) as [Hsplit2 Hx2].
  unfold Path.abspath.
  replace (Py.startswith "uploads" "/") with false by reflexivity.
  replace (Py.startswith ("uploads/" ++ name) "/") with false by reflexivity.
  change ("uploads") with ("uploads" ++ "") at 1 3.
  change ("uploads/" ++ name) with ("uploads" ++ "/" ++ name).
  unfold Path.normpath.
  rewrite Hsplit1, Hsplit2, Hx1, Hx2, !append_uploads_nonempty.
  assert (Hpre : forall p, (String.length p <= 3)%nat ->
            Py.startswith (base ++ "uploads" ++ "/" ++ name) p
            = Py.startswith (base ++ "uploads" ++ "") p).
  { intros p Hp. unfold Py.startswith.
    replace (base ++ "uploads" ++ "/" ++ name)
      with ((base ++ "uploads" ++ "") ++ "/" ++ name)
      by (now rewrite !append_assoc).
    apply prefix_append. rewrite !length_append. cbn [String.length]. lia. }
  rewrite !Hpre by (cbn; lia).
  set (initial := if Py.startswith (base ++ "uploads" ++ "") "//"
                     && negb (Py.startswith (base ++ "uploads" ++ "") "///")
                  then "//"
                  else if Py.startswith (base ++ "uploads" ++ "") "/"
                       then "/" else "").
  set (rooted := negb (String.eqb initial "")).
  replace (Py.split Path.sep ("uploads" ++ "")) with ["uploads"] by reflexivity.
  replace (Py.split Path.sep ("uploads" ++ "/" ++ name))
    with (["uploads"] ++ [name])%list
    by (change ("uploads" ++ "/" ++ name) with ("uploads" ++ String Path.sep name);
        rewrite split_app_sep, (split_no_sep _ _ Hsep); reflexivity).
  rewrite app_assoc.
  rewrite (norm_comps_snoc rooted (l ++ ["uploads"]) [] name Hne Hdot Hdotdot).
  rewrite (norm_comps_snoc rooted l [] "uploads") by reflexivity.
  rewrite (join_snoc "/" (Path.norm_comps rooted l [] ++ ["uploads"]) name)
    by (intros E; apply app_eq_nil in E as [_ E]; discriminate E).
  destruct (join_ends_with_uploads (Path.norm_comps rooted l [])) as [j ->].
  exists (initial ++ j).
  replace (initial ++ j ++ "uploads") with ((initial ++ j) ++ "uploads" ++ "")
    by (now rewrite !append_assoc).
  replace (initial ++ (j ++ "uploads") ++ "/" ++ name)
    with ((initial ++ j) ++ "uploads" ++ "/" ++ name)
    by (now rewrite !append_assoc).
  rewrite !append_uploads_nonempty. split; [reflexivity|].
  now rewrite !append_assoc.
Qed.

Lemma rpartition_app c (r name : string) :
  Py.contains c name = false ->
  Py.rpartition c (r ++ String c name) = Some (r, name).
Proof.
  intros Hname. induction r as [|a r IH].
  - rewrite append_nil. cbn. apply rpartition_none in Hname as ->.
    now rewrite Ascii.eqb_refl.
  - rewrite append_cons. cbn. now rewrite IH.
Qed.

Lemma not_all_sep_uploads (z rest : string) :
  Py.all_chars (fun a => Ascii.eqb a Path.sep) (z ++ "uploads" ++ rest) = false.
Proof.
  induction z as [|a z IH]; [reflexivity|].
  rewrite append_cons. cbn. rewrite IH. apply andb_false_r.
Qed.

Lemma rstrip_sep_uploads (z : string) :
  Path.rstrip_sep (z ++ "uploads" ++ "/") = z ++ "uploads".
Proof.
  induction z as [|a z IH]; [reflexivity|].
  rewrite (append_cons a z). cbn [Path.rstrip_sep]. rewrite IH.
  destruct z; reflexivity.
Qed.

Lemma dirname_child (z name : string) :
  Py.contains Path.sep name = false ->
  Path.dirname ((z ++ "uploads") ++ "/" ++ name) = z ++ "uploads".
Proof.
  intros Hname. unfold Path.dirname.
  change ("/" ++ name) with (String Path.sep name).
  rewrite (rpartition_app _ _ _ Hname).
  rewrite append_assoc, not_all_sep_uploads. apply rstrip_sep_uploads.
Qed.

Lemma child_is_not_parent (r name : string) : r ++ "/" ++ name <> r.
Proof.
  intros E. apply (f_equal String.length) in E.
  rewrite !length_append in E. cbn in E. lia.
Qed.

Lemma uuid_name_is_plain (u ext : string) :
  is_uuid u = true -> Py.contains Path.sep ext = false -> plain_name (u ++ ext).
Proof.
  unfold is_uuid. intros H Hext. apply andb_true_iff in H as [Hlen Hchars].
  apply Nat.eqb_eq in Hlen.
  assert (Hneq : forall s, (String.length s < 36)%nat ->
                           String.eqb (u ++ ext) s = false).
  { intros s Hs. apply String.eqb_neq. intros E.
    apply (f_equal String.length) in E. rewrite length_append in E. lia. }
  split; [|repeat split; apply Hneq; cbn; lia].
  rewrite contains_app, Hext, orb_false_r. now apply uuid_no_sep.
Qed.

(** When the client's extension has no separator, the disk takes the new
    file as soon as the upload root is not a regular file and no directory
    has the generated name. *)
Lemma accepts_upload_plain_extension (fs : FS) (u : string) (upload : UploadFile) :
  is_uuid u = true ->
  Py.contains Path.sep (_guess_ext (filename upload)) = false ->
  files fs !! resolve fs UPLOAD_DIR = None ->
  resolve fs (stored_path u upload) ∉ dirs fs ->
  accepts_upload fs (stored_path u upload) = true.
Proof.
  intros Huuid Hext Hroot Hfresh.
  pose proof (uuid_name_is_plain u _ Huuid Hext) as Hplain.
  destruct (abspath_below_uploads (cwd fs) _ Hplain) as (z & Hz1 & Hz2).
  unfold accepts_upload, stored_path, resolve in *.
  rewrite join_upload_dir in * by exact Huuid.
  change ("uploads/" ++ u ++ _guess_ext (filename upload))
    with ("uploads/" ++ (u ++ _guess_ext (filename upload))) in *.
  unfold UPLOAD_DIR in *. cbv zeta.
  rewrite Hz2 in *. rewrite Hz1 in *.
  rewrite dirname_child by apply Hplain.
  rewrite Hroot.
  rewrite (bool_decide_eq_false_2 (is_Some None)) by (intros [? ?]; discriminate).
  rewrite bool_decide_eq_false_2, bool_decide_eq_true_2; [reflexivity| |].
  - apply elem_of_union_l, elem_of_singleton. reflexivity.
  - intros [E|E]%elem_of_union; [|contradiction].
    apply elem_of_singleton in E. now apply child_is_not_parent in E.
Qed.

(** ** The upload ceiling *)

Lemma save_upload_streaming_ceiling
  (settings : Settings) (upload : UploadFile) (bytes : list Byte.byte) (w : World) :
  file upload = {| data := bytes; fault_in := None |} ->
  accepts_upload (disk w) (stored_path (rng w (drawn w)) upload) = true ->
  let max_bytes := MAX_UPLOAD_MB settings * 1024 * 1024 in
  let path := stored_path (rng w (drawn w)) upload in
  let ap := resolve (disk w) path in
  (len bytes = max_bytes ->
   ∃ w', save_upload_streaming settings upload w
         = (Returned (path, max_bytes), w')
         ∧ files (disk w') !! ap = Some bytes)
  ∧ (len bytes = max_bytes + 1 ->
     ∃ w', save_upload_streaming settings upload w
           = (Raised (too_large settings), w')
           ∧ files (disk w') !! ap = None
           ∧ files (disk w') = delete ap (files (disk w))).
Proof.
  intros Hfile Hdisk. cbv zeta.
  rewrite (save_upload_streaming_run settings upload w Hdisk), Hfile. split.
  - intros Hlen.
    rewrite (copy_chunks_fits settings _ (length bytes)) by (try reflexivity; lia).
    eexists. split; [now rewrite Z.add_0_l, Hlen|].
    cbn. apply lookup_insert_eq.
  - intros Hlen. pose proof (len_nonneg bytes).
    destruct (copy_chunks_overflow settings (MAX_UPLOAD_MB settings * 1024 * 1024)
                (length bytes) bytes 0 []) as [written ->];
      [reflexivity | lia | lia |].
    eexists. split; [reflexivity|]. cbn. split; [apply lookup_delete_eq | reflexivity].
Qed.

(** Where the extension of the client's file name has no separator, the
    ceiling is exact: a file of exactly [MAX_UPLOAD_MB] megabytes is stored
    whole under the generated path; a file one byte longer is refused with
    413 (PayloadTooLarge) and afterwards no file is at that path, every
    other file being as before. Assumed of the environment: the stream does
    not fail, the drawn name is a UUID, the upload root is not a regular
    file and no directory has the generated name. *)
Theorem upload_ceiling_is_exact
  (settings : Settings) (upload : UploadFile) (bytes : list Byte.byte) (w : World) :
  file upload = {| data := bytes; fault_in := None |} ->
  is_uuid (rng w (drawn w)) = true ->
  Py.contains Path.sep (_guess_ext (filename upload)) = false ->
  files (disk w) !! resolve (disk w) UPLOAD_DIR = None ->
  resolve (disk w) (stored_path (rng w (drawn w)) upload) ∉ dirs (disk w) ->
  let max_bytes := MAX_UPLOAD_MB settings * 1024 * 1024 in
  let path := stored_path (rng w (drawn w)) upload in
  let ap := resolve (disk w) path in
  (len bytes = max_bytes ->
   ∃ w', save_upload_streaming settings upload w
         = (Returned (path, max_bytes), w')
         ∧ files (disk w') !! ap = Some bytes)
  ∧ (len bytes = max_bytes + 1 ->
     ∃ w', save_upload_streaming settings upload w
           = (Raised (HTTPException 413
                ("File too large. Max is " ++ pretty (MAX_UPLOAD_MB settings)
                 ++ "MB.")), w')
           ∧ files (disk w') !! ap = None
           ∧ files (disk w') = delete ap (files (disk w))).
Proof.
  intros Hfile Huuid Hext Hroot Hfresh.
  apply save_upload_streaming_ceiling; [exact Hfile|].
  now apply accepts_upload_plain_extension.
Qed.

Lemma upload_ceiling_is_exact_witness :
  let upload := Sample.jpeg "car.JPG" Sample.megabyte in
  let larger := Sample.jpeg "car.JPG" (Byte.x2a :: Sample.megabyte) in
  let w := Sample.world_with_uuids in
  is_uuid (rng w (drawn w)) = true
  ∧ Py.contains Path.sep (_guess_ext (filename upload)) = false
  ∧ files (disk w) !! resolve (disk w) UPLOAD_DIR = None
  ∧ (resolve (disk w) (stored_path (rng w (drawn w)) upload) ∉ dirs (disk w))
  ∧ len Sample.megabyte = 1 * 1024 * 1024
  ∧ len (Byte.x2a :: Sample.megabyte) = 1 * 1024 * 1024 + 1
  ∧ (∃ w', save_upload_streaming Sample.one_megabyte upload w
           = (Returned ("uploads/3f2b8c1e-7a4d-4e6f-9b0a-5c1d2e3f4a50.jpg",
                        1048576), w')
           ∧ files (disk w')
             !! "/srv/app/uploads/3f2b8c1e-7a4d-4e6f-9b0a-5c1d2e3f4a50.jpg"
             = Some Sample.megabyte)
  ∧ (∃ w', save_upload_streaming Sample.one_megabyte larger w
           = (Raised (HTTPException 413 "File too large. Max is 1MB."), w')
           ∧ files (disk w')
             !! "/srv/app/uploads/3f2b8c1e-7a4d-4e6f-9b0a-5c1d2e3f4a50.jpg"
             = None
           ∧ files (disk w')
             = delete "/srv/app/uploads/3f2b8c1e-7a4d-4e6f-9b0a-5c1d2e3f4a50.jpg"
                      ∅).
Proof.
  cbv zeta.
  assert (Hfresh : forall bytes,
    resolve (disk Sample.world_with_uuids)
      (stored_path (rng Sample.world_with_uuids (drawn Sample.world_with_uuids))
                   (Sample.jpeg "car.JPG" bytes))
    ∉ dirs (disk Sample.world_with_uuids)).
  { intros bytes. refine (proj1 (bool_decide_eq_false _) _).
    vm_compute. reflexivity. }
  split; [vm_compute; reflexivity|].
  split; [vm_compute; reflexivity|].
  split; [vm_compute; reflexivity|].
  split; [apply Hfresh|].
  split; [vm_compute; reflexivity|].
  split; [vm_compute; reflexivity|].
  split.
  - apply (proj1 (upload_ceiling_is_exact Sample.one_megabyte
                    (Sample.jpeg "car.JPG" Sample.megabyte) Sample.megabyte
                    Sample.world_with_uuids eq_refl
                    ltac:(vm_compute; reflexivity) ltac:(vm_compute; reflexivity)
                    ltac:(vm_compute; reflexivity) (Hfresh _))).
    vm_compute; reflexivity.
  - apply (proj2 (upload_ceiling_is_exact Sample.one_megabyte
                    (Sample.jpeg "car.JPG" (Byte.x2a :: Sample.megabyte))
                    (Byte.x2a :: Sample.megabyte)
                    Sample.world_with_uuids eq_refl
                    ltac:(vm_compute; reflexivity) ltac:(vm_compute; reflexivity)
                    ltac:(vm_compute; reflexivity) (Hfresh _))).
    vm_compute; reflexivity.
Defined.

(** C6 fails for a file name with a separator after its last dot. Under a
    ceiling of one megabyte the upload named "evil.x/y" with exactly one
    megabyte is not stored but refused with 500, and with one byte more it
    is refused with 500 as well, not with 413: the path built,
    uploads/(uuid).x/y, lies in a directory that does not exist, so the file
    cannot be opened, whatever its size. The same two files
    named "evil.xy" are stored, and refused with 413. *)
Lemma upload_ceiling_misses_file_names_with_separator :
  let w := Sample.world_with_uuids in
  let save name bytes :=
    save_upload_streaming Sample.one_megabyte (Sample.jpeg name bytes) w in
  let refusal :=
    HTTPException 500
      "Upload failed: [Errno 2] No such file or directory: 'uploads/3f2b8c1e-7a4d-4e6f-9b0a-5c1d2e3f4a50.x/y'" in
  len Sample.megabyte = MAX_UPLOAD_MB Sample.one_megabyte * 1024 * 1024
  ∧ fst (save "evil.x/y" Sample.megabyte) = Raised refusal
  ∧ files (disk (snd (save "evil.x/y" Sample.megabyte))) = files (disk w)
  ∧ fst (save "evil.x/y" (Byte.x2a :: Sample.megabyte)) = Raised refusal
  ∧ files (disk (snd (save "evil.x/y" (Byte.x2a :: Sample.megabyte))))
    = files (disk w)
  ∧ fst (save "evil.xy" Sample.megabyte)
    = Returned ("uploads/3f2b8c1e-7a4d-4e6f-9b0a-5c1d2e3f4a50.xy", 1048576)
  ∧ fst (save "evil.xy" (Byte.x2a :: Sample.megabyte))
    = Raised (HTTPException 413 "File too large. Max is 1MB.").
Proof.
  cbv zeta.
  assert (Hdisk : forall bytes,
    accepts_upload (disk Sample.world_with_uuids)
      (stored_path (rng Sample.world_with_uuids (drawn Sample.world_with_uuids))
                   (Sample.jpeg "evil.xy" bytes)) = true)
    by (intros bytes; vm_compute; reflexivity).
  split; [vm_compute; reflexivity|].
  split; [vm_compute; reflexivity|].
  split; [vm_compute; reflexivity|].
  split; [vm_compute; reflexivity|].
  split; [vm_compute; reflexivity|].
  split.
  - destruct (proj1 (save_upload_streaming_ceiling Sample.one_megabyte
                       (Sample.jpeg "evil.xy" Sample.megabyte) Sample.megabyte
                       Sample.world_with_uuids eq_refl (Hdisk _)))
      as (w' & -> & _); [vm_compute; reflexivity|reflexivity].
  - destruct (proj2 (save_upload_streaming_ceiling Sample.one_megabyte
                       (Sample.jpeg "evil.xy" (Byte.x2a :: Sample.megabyte))
                       (Byte.x2a :: Sample.megabyte)
                       Sample.world_with_uuids eq_refl (Hdisk _)))
      as (w' & -> & _); [vm_compute; reflexivity|reflexivity].
Qed.

(** * Further properties of the handlers *)

(** ** Job creation *)

Lemma create_tow_job_run payload user d fs ids :
  request (create_tow_job payload user) d fs ids =
  if bool_decide (User.role user ∈ [OFFICER; ADMIN]) then
    let job :=
      TowJob.mk (ids 0%nat)
        (Py.upper (Py.strip (TowJobCreate.plate_number payload)))
        (User.id user) NEW None
        (TowJobCreate.violation_type payload) (TowJobCreate.notes payload)
        (TowJobCreate.location_lat payload) (TowJobCreate.location_lng payload)
        (TowJobCreate.location_accuracy_m payload) in
    if bool_decide (is_Some (tow_jobs d !! ids 0%nat))
       || event_id_taken (ids 1%nat) d
    then (Raised IntegrityError, d, fs)
    else
      (Returned job,
       set_tow_job_events
         (tow_job_events d
          ++ [TowJobEvent.mk (ids 1%nat) (ids 0%nat) (User.id user) "CREATED"
                (Some ("Job created for plate "
                       ++ Py.upper (Py.strip (TowJobCreate.plate_number payload))))])
         (set_tow_jobs (<[ids 0%nat := job]> (tow_jobs d)) d),
       fs)
  else (Raised (HTTPException 403 "Forbidden"), d, fs).
Proof.
  unfold request, create_tow_job. mrun. rewrite require_roles_run.
  case_bool_decide; [|reflexivity]. mrun.
  rewrite !pending_insert_stale, !pending_insert_committed.
  rewrite pending_insert_concrete. cbn [stale orb working TowJob.id].
  destruct (tow_jobs d !! ids 0%nat) as [taken|] eqn:Hjob.
  { rewrite bool_decide_eq_true_2 by eauto. reflexivity. }
  rewrite bool_decide_eq_false_2 by (intros [? ?]; discriminate).
  cbn [orb working]. rewrite pending_insert_concrete.
  cbn [working tow_job_events set_tow_jobs].
  fold (event_id_taken (ids 1%nat) d).
  destruct (event_id_taken (ids 1%nat) d); [reflexivity|].
  mrun. now rewrite lookup_insert_eq.
Qed.

(** X1. A job created by an OFFICER or an ADMIN is committed with status
    NEW, the caller as its officer, no driver and the plate trimmed and in
    upper case, together with exactly one CREATED event that refers to it;
    every other role is answered 403 and nothing is written. The two ids
    drawn are assumed fresh. *)
Theorem create_tow_job_commits_new_job_and_created_event
  (payload : TowJobCreate.t) (user : User.t) (d : DB) (fs : FS)
  (ids : nat -> string) :
  (User.role user ∈ [OFFICER; ADMIN] ->
   tow_jobs d !! ids 0%nat = None ->
   event_id_taken (ids 1%nat) d = false ->
   ∃ job d',
     request (create_tow_job payload user) d fs ids = (Returned job, d', fs)
     ∧ TowJob.id job = ids 0%nat
     ∧ TowJob.status job = NEW
     ∧ TowJob.officer_id job = User.id user
     ∧ TowJob.assigned_driver_id job = None
     ∧ TowJob.plate_number job
       = Py.upper (Py.strip (TowJobCreate.plate_number payload))
     ∧ tow_jobs d' = <[ids 0%nat := job]> (tow_jobs d)
     ∧ tow_job_events d'
       = (tow_job_events d
          ++ [TowJobEvent.mk (ids 1%nat) (ids 0%nat) (User.id user) "CREATED"
                (Some ("Job created for plate " ++ TowJob.plate_number job)%string)])%list
     ∧ tow_job_photos d' = tow_job_photos d
     ∧ users d' = users d)
  ∧ (User.role user ∉ [OFFICER; ADMIN] ->
     request (create_tow_job payload user) d fs ids
     = (Raised (HTTPException 403 "Forbidden"), d, fs)).
Proof.
  rewrite create_tow_job_run. split.
  - intros Hrole Hjob Hev. rewrite (bool_decide_eq_true_2 _ Hrole), Hjob, Hev.
    rewrite bool_decide_eq_false_2 by (intros [? ?]; discriminate).
    cbn [orb]. eexists _, _. repeat split; reflexivity.
  - intros Hrole. now rewrite (bool_decide_eq_false_2 _ Hrole).
Qed.

Lemma create_tow_job_commits_new_job_and_created_event_witness :
  User.role Sample.officer ∈ [OFFICER; ADMIN]
  ∧ tow_jobs Sample.seeded !! Sample.ids 0%nat = None
  ∧ event_id_taken (Sample.ids 1%nat) Sample.seeded = false
  ∧ ∃ job d',
      request (create_tow_job
                 (TowJobCreate.mk " abc123 " (of_Z 2) (of_Z 45) None None None)
                 Sample.officer) Sample.seeded Sample.fs Sample.ids
      = (Returned job, d', Sample.fs)
      ∧ TowJob.status job = NEW
      ∧ TowJob.plate_number job = "ABC123".
Proof.
  assert (Hrole : User.role Sample.officer ∈ [OFFICER; ADMIN]) by constructor.
  split; [exact Hrole|]. split; [reflexivity|]. split; [reflexivity|].
  destruct (proj1 (create_tow_job_commits_new_job_and_created_event
                     (TowJobCreate.mk " abc123 " (of_Z 2) (of_Z 45) None None None)
                     Sample.officer Sample.seeded Sample.fs Sample.ids)
                  Hrole eq_refl eq_refl)
    as (job & d' & Hrun & _ & Hst & _ & _ & Hplate & _).
  exists job, d'. split; [exact Hrun|]. split; [exact Hst|].
  rewrite Hplate. vm_compute. reflexivity.
Defined.

(** ** Driver assignment *)

(** X2. An assignment by a DISPATCHER or an ADMIN of an active DRIVER to an
    existing job stores that driver on the job, sets its status to ASSIGNED,
    leaves every other field (id, plate, officer, violation type, notes,
    location and accuracy) and every other job as they were, and appends
    exactly one ASSIGNED event. The id drawn for the event is assumed
    fresh. *)
Theorem assign_driver_sets_driver_and_logs_assigned
  (d : DB) (fs : FS) (ids : nat -> string) (job_id : string) (job : TowJob.t)
  (payload : TowJobAssign.t) (driver user : User.t) :
  User.role user ∈ [DISPATCHER; ADMIN] ->
  tow_jobs d !! job_id = Some job ->
  users d !! TowJobAssign.driver_id payload = Some driver ->
  User.role driver = DRIVER ->
  User.is_active driver = true ->
  event_id_taken (ids 0%nat) d = false ->
  ∃ job' d',
    request (assign_driver job_id payload user) d fs ids = (Returned job', d', fs)
    ∧ job' = TowJob.mk (TowJob.id job) (TowJob.plate_number job)
               (TowJob.officer_id job) ASSIGNED (Some (User.id driver))
               (TowJob.violation_type job) (TowJob.notes job)
               (TowJob.location_lat job) (TowJob.location_lng job)
               (TowJob.location_accuracy_m job)
    ∧ tow_jobs d' = <[job_id := job']> (tow_jobs d)
    ∧ tow_job_events d'
      = (tow_job_events d
         ++ [TowJobEvent.mk (ids 0%nat) (TowJob.id job) (User.id user) "ASSIGNED"
               (Some ("Assigned to driver " ++ User.id driver)%string)])%list
    ∧ users d' = users d
    ∧ tow_job_photos d' = tow_job_photos d.
Proof.
  intros Hrole Hjob Hdriver Hd Hactive Hfresh.
  rewrite assign_driver_run, (bool_decide_eq_true_2 _ Hrole), Hjob.
  unfold active_driver. rewrite Hdriver. cbn [mbind option_bind].
  rewrite (bool_decide_eq_true_2 _ Hd), Hactive. cbn [andb]. rewrite Hfresh.
  eexists _, _. repeat split; reflexivity.
Qed.

Lemma assign_driver_sets_driver_and_logs_assigned_witness :
  User.role Sample.dispatcher ∈ [DISPATCHER; ADMIN]
  ∧ tow_jobs Sample.with_closed_job !! "job-1" = Some Sample.closed_job
  ∧ users Sample.with_closed_job !! "u-driver" = Some Sample.driver
  ∧ ∃ job' d',
      request (assign_driver "job-1" (TowJobAssign.mk "u-driver") Sample.dispatcher)
              Sample.with_closed_job Sample.fs Sample.ids
      = (Returned job', d', Sample.fs)
      ∧ job' = TowJob.mk "job-1" "ABC123" "u-officer" ASSIGNED (Some "u-driver")
                 None None (FFin (41 # 20)) (FFin (4533 # 100)) None
      ∧ tow_jobs d' = <["job-1" := job']> (tow_jobs Sample.with_closed_job).
Proof.
  assert (Hrole : User.role Sample.dispatcher ∈ [DISPATCHER; ADMIN])
    by constructor.
  split; [exact Hrole|]. split; [reflexivity|]. split; [reflexivity|].
  destruct (assign_driver_sets_driver_and_logs_assigned
              Sample.with_closed_job Sample.fs Sample.ids "job-1"
              Sample.closed_job (TowJobAssign.mk "u-driver") Sample.driver
              Sample.dispatcher Hrole eq_refl eq_refl eq_refl eq_refl eq_refl)
    as (job' & d' & Hrun & Hjob' & Hjobs & _).
  exists job', d'. repeat split; assumption.
Defined.

(** X3. An assignment is refused without writing anything: with 403 when
    the caller is neither DISPATCHER nor ADMIN, whether the job exists or
    not; with 400 when the job exists but the driver id names no user, a
    user who is not a DRIVER, or a deactivated one. *)
Theorem assign_driver_refusals_write_nothing
  (d : DB) (fs : FS) (ids : nat -> string) (job_id : string)
  (payload : TowJobAssign.t) (user : User.t) :
  (User.role user ∉ [DISPATCHER; ADMIN] ->
   request (assign_driver job_id payload user) d fs ids
   = (Raised (HTTPException 403 "Forbidden"), d, fs))
  ∧ (User.role user ∈ [DISPATCHER; ADMIN] ->
     is_Some (tow_jobs d !! job_id) ->
     match users d !! TowJobAssign.driver_id payload with
     | None => True
     | Some u => User.role u ≠ DRIVER ∨ User.is_active u = false
     end ->
     request (assign_driver job_id payload user) d fs ids
     = (Raised (HTTPException 400 "Driver not found"), d, fs)).
Proof.
  rewrite assign_driver_run. split.
  - intros Hrole. now rewrite (bool_decide_eq_false_2 _ Hrole).
  - intros Hrole [job Hjob] Hbad.
    rewrite (bool_decide_eq_true_2 _ Hrole), Hjob. unfold active_driver.
    destruct (users d !! TowJobAssign.driver_id payload) as [u|];
      cbn [mbind option_bind]; [|reflexivity].
    destruct Hbad as [Hbad|Hbad].
    + now rewrite (bool_decide_eq_false_2 _ Hbad).
    + rewrite Hbad, andb_false_r. reflexivity.
Qed.

Lemma assign_driver_refusals_write_nothing_witness :
  (User.role Sample.officer ∉ [DISPATCHER; ADMIN])
  ∧ request (assign_driver "job-1" (TowJobAssign.mk "u-driver") Sample.officer)
            Sample.with_closed_job Sample.fs Sample.ids
    = (Raised (HTTPException 403 "Forbidden"), Sample.with_closed_job, Sample.fs)
  ∧ request (assign_driver "job-1" (TowJobAssign.mk "u-officer") Sample.admin)
            Sample.with_closed_job Sample.fs Sample.ids
    = (Raised (HTTPException 400 "Driver not found"), Sample.with_closed_job,
       Sample.fs).
Proof.
  assert (Hrole : User.role Sample.officer ∉ [DISPATCHER; ADMIN]).
  { refine (proj1 (bool_decide_eq_false _) _). vm_compute. reflexivity. }
  split; [exact Hrole|]. split.
  - apply (proj1 (assign_driver_refusals_write_nothing
                    Sample.with_closed_job Sample.fs Sample.ids "job-1"
                    (TowJobAssign.mk "u-driver") Sample.officer) Hrole).
  - apply (proj2 (assign_driver_refusals_write_nothing
                    Sample.with_closed_job Sample.fs Sample.ids "job-1"
                    (TowJobAssign.mk "u-officer") Sample.admin)).
    + do 2 constructor.
    + eexists. reflexivity.
    + left. discriminate.
Defined.

(** ** White space *)

Lemma lstrip_nonspace a (s : string) :
  Py.isspace a = false -> Py.lstrip (String a s) = String a s.
Proof. intros H. cbn. now rewrite H. Qed.

Lemma lstrip_head (s : string) a r :
  Py.lstrip s = String a r -> Py.isspace a = false.
Proof.
  induction s as [|b s IH]; cbn; [discriminate|].
  destruct (Py.isspace b) eqn:Hb; [exact IH|]. now intros [= <- _].
Qed.

Lemma lstrip_app_nonspace (s t : string) a :
  Py.isspace a = false ->
  Py.lstrip (s ++ String a t) = Py.lstrip s ++ String a t.
Proof.
  intros Ha. induction s as [|b s IH].
  - rewrite !append_nil. now apply lstrip_nonspace.
  - rewrite append_cons. cbn. destruct (Py.isspace b); [exact IH|].
    now rewrite append_cons.
Qed.

Lemma rstrip_app (p q : string) :
  Py.rstrip q <> "" -> Py.rstrip (p ++ q) = p ++ Py.rstrip q.
Proof.
  intros Hq. induction p as [|a p IH]; [reflexivity|].
  rewrite !append_cons. cbn. rewrite IH.
  destruct (p ++ Py.rstrip q) eqn:E; [|reflexivity].
  destruct p; [rewrite append_nil in E; contradiction | discriminate].
Qed.

Lemma rstrip_idem (s : string) : Py.rstrip (Py.rstrip s) = Py.rstrip s.
Proof.
  induction s as [|a s IH]; [reflexivity|]. cbn.
  destruct (Py.rstrip s) as [|b r] eqn:E.
  - destruct (Py.isspace a) eqn:Ha; [reflexivity|]. cbn. now rewrite Ha.
  - cbn. cbn in IH. rewrite IH. reflexivity.
Qed.

Lemma rstrip_head (s : string) a r :
  Py.rstrip (String a s) = String a r -> Py.rstrip (String a s) <> "".
Proof. intros ->. discriminate. Qed.

Lemma rstrip_keeps_head a (s : string) :
  Py.isspace a = false -> ∃ r, Py.rstrip (String a s) = String a r.
Proof.
  intros Ha. cbn. destruct (Py.rstrip s); [rewrite Ha|]; eauto.
Qed.

Lemma strip_stripped (s : string) : Py.strip (Py.strip s) = Py.strip s.
Proof.
  unfold Py.strip. destruct (Py.lstrip s) as [|a r] eqn:E; [reflexivity|].
  pose proof (lstrip_head _ _ _ E) as Ha.
  destruct (rstrip_keeps_head a r Ha) as [r' Hr]. rewrite Hr.
  rewrite lstrip_nonspace by exact Ha. rewrite <- Hr. apply rstrip_idem.
Qed.

(** A stripped text that is not empty starts with a character that is not
    white space and is its own right-strip. *)
Lemma strip_shape (s : string) :
  Py.strip s = ""
  ∨ ∃ a r, Py.strip s = String a r ∧ Py.isspace a = false
           ∧ Py.rstrip (String a r) = String a r.
Proof.
  unfold Py.strip. destruct (Py.lstrip s) as [|a r] eqn:E; [now left|].
  pose proof (lstrip_head _ _ _ E) as Ha.
  destruct (rstrip_keeps_head a r Ha) as [r' Hr]. right.
  exists a, r'. rewrite Hr. split; [reflexivity|]. split; [exact Ha|].
  rewrite <- Hr. apply rstrip_idem.
Qed.

(** Joining two stripped, non-empty texts with anything in between gives a
    text that stripping leaves alone. *)
Lemma strip_between (x mid y : string) :
  Py.strip x <> "" -> Py.strip y <> "" ->
  Py.strip (Py.strip x ++ mid ++ Py.strip y) = Py.strip x ++ mid ++ Py.strip y.
Proof.
  intros Hx Hy.
  destruct (strip_shape x) as [E|(a & r & Ex & Ha & _)]; [contradiction|].
  destruct (strip_shape y) as [E|(b & t & Ey & _ & Hb)]; [contradiction|].
  rewrite Ex, Ey. unfold Py.strip at 1.
  rewrite append_cons, lstrip_nonspace by exact Ha.
  rewrite <- append_cons.
  rewrite <- append_assoc. rewrite rstrip_app by (rewrite Hb; discriminate).
  now rewrite Hb.
Qed.

(** ** Notes of a job *)

Lemma append_note_entry (user : User.t) (note : string) (job : TowJob.t) :
  Py.strip note <> "" ->
  let entry := "[" ++ role_value (User.role user) ++ "] " ++ Py.strip note in
  let old := Py.strip (default "" (TowJob.notes job)) in
  TowJob.notes (append_note user (Some note) job)
  = Some (if String.eqb old "" then entry else old ++ newline ++ entry).
Proof.
  intros Hnote. cbv zeta. unfold append_note.
  destruct note as [|a r]; [contradiction|]. cbn [TowJob.notes TowJob.set_notes].
  f_equal. destruct (String.eqb_spec (Py.strip (default "" (TowJob.notes job))) "")
    as [E|E]; [reflexivity|].
  replace (Py.strip (default "" (TowJob.notes job)) ++ newline ++ "["
           ++ role_value (User.role user) ++ "] " ++ Py.strip (String a r))
    with (Py.strip (default "" (TowJob.notes job))
          ++ (newline ++ "[" ++ role_value (User.role user) ++ "] ")
          ++ Py.strip (String a r))
    by (now rewrite !append_assoc).
  now apply strip_between.
Qed.

(** X4. A status update that carries a note with visible text keeps the
    notes the job had: the new notes are the old ones, stripped, then a line
    break, then "[ROLE] " and the stripped note; on a job without notes they
    are that last line alone. An update without a note, or with an empty
    one, leaves the notes as they were. *)
Theorem update_status_appends_note_to_history
  (d : DB) (fs : FS) (ids : nat -> string) (job_id : string) (job : TowJob.t)
  (user : User.t) (payload : TowJobStatusUpdate.t) :
  tow_jobs d !! job_id = Some job ->
  has_access user job = true ->
  event_id_taken (ids 0%nat) d = false ->
  ∃ job' d',
    request (update_status job_id payload user) d fs ids = (Returned job', d', fs)
    ∧ tow_jobs d' !! job_id = Some job'
    ∧ match TowJobStatusUpdate.notes payload with
      | None | Some "" => TowJob.notes job' = TowJob.notes job
      | Some note =>
          Py.strip note <> "" ->
          let entry := "[" ++ role_value (User.role user) ++ "] "
                       ++ Py.strip note in
          let old := Py.strip (default "" (TowJob.notes job)) in
          TowJob.notes job'
          = Some (if String.eqb old "" then entry
                  else old ++ String (ascii_of_N 10) "" ++ entry)
      end.
Proof.
  intros Hjob Hacc Hfresh. rewrite update_status_run, Hjob, Hacc, Hfresh.
  eexists _, _. split; [reflexivity|].
  cbn [tow_jobs set_tow_job_events set_tow_jobs].
  split; [apply lookup_insert_eq|]. unfold updated_job.
  destruct (TowJobStatusUpdate.notes payload) as [[|a r]|]; [reflexivity| |reflexivity].
  intros Hnote. now rewrite (append_note_entry user (String a r) _ Hnote).
Qed.

Lemma update_status_appends_note_to_history_witness :
  tow_jobs Sample.with_closed_job !! "job-1" = Some Sample.closed_job
  ∧ has_access Sample.driver Sample.closed_job = true
  ∧ event_id_taken (Sample.ids 0%nat) Sample.with_closed_job = false
  ∧ ∃ job' d',
      request (update_status "job-1"
                 (TowJobStatusUpdate.mk EN_ROUTE (Some " heading to lot "))
                 Sample.driver)
              Sample.with_closed_job Sample.fs Sample.ids
      = (Returned job', d', Sample.fs)
      ∧ TowJob.notes job' = Some "[DRIVER] heading to lot".
Proof.
  do 3 (split; [reflexivity|]).
  destruct (update_status_appends_note_to_history
              Sample.with_closed_job Sample.fs Sample.ids "job-1"
              Sample.closed_job Sample.driver
              (TowJobStatusUpdate.mk EN_ROUTE (Some " heading to lot "))
              eq_refl eq_refl eq_refl) as (job' & d' & Hrun & _ & Hnotes).
  exists job', d'. split; [exact Hrun|].
  cbn [TowJobStatusUpdate.notes] in Hnotes.
  rewrite Hnotes by (vm_compute; discriminate). vm_compute. reflexivity.
Defined.

(** ** Capture timestamps *)

Lemma rstrip_app_nonspace (t : string) a (r : string) :
  Py.rstrip (String a r) = String a r ->
  Py.rstrip (t ++ String a r) = t ++ String a r.
Proof.
  intros H. rewrite rstrip_app by (rewrite H; discriminate). now rewrite H.
Qed.

Lemma endswith_char_app (t : string) a (r : string) c :
  Py.endswith_char (t ++ String a r) c = Py.endswith_char (String a r) c.
Proof.
  induction t as [|b t IH]; [reflexivity|].
  rewrite append_cons.
  change (Py.endswith_char (String b (t ++ String a r)) c)
    with (match t ++ String a r with
          | "" => Ascii.eqb b c
          | _ => Py.endswith_char (t ++ String a r) c
          end).
  destruct (t ++ String a r) eqn:E; [|exact IH].
  destruct t; discriminate.
Qed.

Lemma drop_last_app_char (t : string) a :
  Py.drop_last (t ++ String a "") = t.
Proof.
  induction t as [|b t IH]; [reflexivity|].
  rewrite append_cons.
  change (Py.drop_last (String b (t ++ String a "")))
    with (match t ++ String a "" with
          | "" => ""
          | _ => String b (Py.drop_last (t ++ String a ""))
          end).
  destruct (t ++ String a "") eqn:E; [destruct t; discriminate|].
  now rewrite IH.
Qed.

Lemma _parse_iso_datetime_nonempty fromisoformat (dt : string) (w : World) :
  dt <> "" ->
  _parse_iso_datetime fromisoformat (Some dt) w
  = (match fromisoformat
             (if Py.endswith_char (Py.strip dt) "Z"
              then Py.drop_last (Py.strip dt) ++ "+00:00" else Py.strip dt) with
     | Some d => Returned (Some d)
     | None =>
         Raised (HTTPException 400
           "captured_at must be ISO8601 datetime (e.g. 2026-01-19T12:34:56Z)")
     end, w).
Proof.
  intros H. destruct dt as [|a r]; [contradiction|]. unfold _parse_iso_datetime.
  now destruct (fromisoformat _).
Qed.

(** X5. A capture time that ends in the letter Z is read as the same text
    with "+00:00" in its place: both are handed to the ISO parser as the
    text without leading white space followed by "+00:00", so they give the
    same datetime or the same 400. *)
Theorem _parse_iso_datetime_reads_Z_as_utc_offset
  (fromisoformat : string -> option datetime) (s : string) (w : World) :
  _parse_iso_datetime fromisoformat (Some (s ++ "Z")) w
  = _parse_iso_datetime fromisoformat (Some (s ++ "+00:00")) w
  ∧ _parse_iso_datetime fromisoformat (Some (s ++ "Z")) w
    = (match fromisoformat (Py.lstrip s ++ "+00:00") with
       | Some dt => Returned (Some dt)
       | None =>
           Raised (HTTPException 400
             "captured_at must be ISO8601 datetime (e.g. 2026-01-19T12:34:56Z)")
       end, w).
Proof.
  assert (HZ : Py.strip (s ++ "Z") = Py.lstrip s ++ "Z").
  { unfold Py.strip. rewrite lstrip_app_nonspace by reflexivity.
    now apply rstrip_app_nonspace. }
  assert (H0 : Py.strip (s ++ "+00:00") = Py.lstrip s ++ "+00:00").
  { unfold Py.strip. rewrite lstrip_app_nonspace by reflexivity.
    now apply rstrip_app_nonspace. }
  assert (Hl : _parse_iso_datetime fromisoformat (Some (s ++ "Z")) w
               = (match fromisoformat (Py.lstrip s ++ "+00:00") with
                  | Some dt => Returned (Some dt)
                  | None =>
                      Raised (HTTPException 400
                        "captured_at must be ISO8601 datetime (e.g. 2026-01-19T12:34:56Z)")
                  end, w)).
  { rewrite _parse_iso_datetime_nonempty by (destruct s; discriminate).
    rewrite HZ, endswith_char_app. cbn [Py.endswith_char Ascii.eqb Bool.eqb].
    now rewrite drop_last_app_char. }
  split; [|exact Hl]. rewrite Hl.
  rewrite _parse_iso_datetime_nonempty by (destruct s; discriminate).
  rewrite H0.
  replace (Py.endswith_char (Py.lstrip s ++ "+00:00") "Z") with false;
    [reflexivity|].
  change (Py.lstrip s ++ "+00:00") with (Py.lstrip s ++ String "+" "00:00").
  now rewrite endswith_char_app.
Qed.

(** ** Photo upload *)

Lemma upload_job_photo_run_ok
  (settings : Settings) (float_str : float -> string)
  (fromisoformat : string -> option datetime)
  (d : DB) (fs : FS) (ids : nat -> string) (job_id : string) (job : TowJob.t)
  (photo : UploadFile) (bytes : list Byte.byte) (ct photo_type : string)
  (lat lng accuracy_m : option float) (captured_at : option string)
  (captured_dt : option datetime) (user : User.t) :
  tow_jobs d !! job_id = Some job ->
  has_access user job = true ->
  photo_type ∈ allowed_types ->
  content_type photo = Some ct -> ct ∈ allowed_ct ->
  geo_ok lat lng = true ->
  (forall w, _parse_iso_datetime fromisoformat captured_at w
             = (Returned captured_dt, w)) ->
  file photo = {| data := bytes; fault_in := None |} ->
  len bytes <= MAX_UPLOAD_MB settings * 1024 * 1024 ->
  accepts_upload fs (stored_path (ids 0%nat) photo) = true ->
  existsb (fun q => String.eqb (TowJobPhoto.id q) (ids 1%nat)) (tow_job_photos d)
  = false ->
  event_id_taken (ids 2%nat) d = false ->
  let path := stored_path (ids 0%nat) photo in
  let rec := TowJobPhoto.mk (ids 1%nat) (TowJob.id job) (User.id user) photo_type
               path ct (len bytes) lat lng accuracy_m captured_dt in
  request (upload_job_photo settings float_str fromisoformat job_id photo
             photo_type lat lng accuracy_m captured_at user) d fs ids
  = (Returned (rec, download_url (TowJob.id job) (ids 1%nat)),
     set_tow_job_events
       (tow_job_events d
        ++ [TowJobEvent.mk (ids 2%nat) (TowJob.id job) (User.id user)
              "PHOTO_UPLOADED"
              (Some (photo_message float_str photo_type "" (len bytes)
                                   lat lng accuracy_m))])%list
       (set_tow_job_photos (tow_job_photos d ++ [rec])%list d),
     {| files := <[resolve fs path := bytes]> (files fs);
        dirs := {[resolve fs UPLOAD_DIR]} ∪ dirs fs;
        cwd := cwd fs |}).
Proof.
  intros Hjob Hacc Hty Hct Hin Hgeo Hparse Hfile Hfit Hdisk Hphoto Hevent.
  cbv zeta. unfold request, upload_job_photo. mrun. rewrite Hjob. mrun.
  rewrite _assert_job_access_run, Hacc. mrun.
  rewrite (bool_decide_eq_true_2 _ Hty). mrun.
  rewrite Hct, (bool_decide_eq_true_2 _ Hin). mrun.
  match goal with
  | |- context [check_photo_geo ?a ?b ?c ?w] =>
      destruct (check_photo_geo_run a b c w) as (rg & -> & Hrg & _)
  end.
  apply proj2 in Hrg. rewrite (Hrg Hgeo). mrun. rewrite Hparse. mrun.
  rewrite (save_upload_streaming_stores settings photo bytes) by assumption.
  unfold after_upload. mrun.
  rewrite !pending_insert_stale, !pending_insert_committed.
  rewrite pending_insert_concrete. cbn [stale orb working tow_job_photos].
  rewrite Hphoto. cbn [orb working]. rewrite pending_insert_concrete.
  cbn [working tow_job_events set_tow_job_photos].
  fold (event_id_taken (ids 2%nat) d). rewrite Hevent. mrun.
  unfold find_photo. cbn [tow_job_photos set_tow_job_events set_tow_job_photos].
  rewrite find_photo_appended by (exact Hphoto || reflexivity).
  mrun. reflexivity.
Qed.



(** X7. A photo upload with a photo type outside the four allowed ones, with
    no content type or one that is not jpeg, png or webp, or with
    coordinates out of range or given as half a pair, is answered 400 and
    nothing is stored: no row, no event, no file. *)
Theorem upload_job_photo_validation_failures_write_nothing
  (settings : Settings) (float_str : float -> string)
  (fromisoformat : string -> option datetime)
  (d : DB) (fs : FS) (ids : nat -> string) (job_id : string) (job : TowJob.t)
  (photo : UploadFile) (photo_type : string)
  (lat lng accuracy_m : option float) (captured_at : option string)
  (user : User.t) :
  tow_jobs d !! job_id = Some job ->
  has_access user job = true ->
  (photo_type ∉ allowed_types)
  ∨ (forall ct, content_type photo = Some ct -> ct ∉ allowed_ct)
  ∨ geo_ok lat lng = false ->
  ∃ detail,
    request (upload_job_photo settings float_str fromisoformat job_id photo
               photo_type lat lng accuracy_m captured_at user) d fs ids
    = (Raised (HTTPException 400 detail), d, fs)
    ∧ (photo_type ∉ allowed_types ->
       detail
       = "photo_type must be one of ['AFTER', 'BEFORE', 'OTHER', 'PLATE_CLOSEUP']")
    ∧ (photo_type ∈ allowed_types ->
       (forall ct, content_type photo = Some ct -> ct ∉ allowed_ct) ->
       detail = "Only jpeg/png/webp images are allowed").
Proof.
  intros Hjob Hacc Hbad.
  destruct (decide (photo_type ∈ allowed_types)) as [Hty|Hty].
  - destruct (content_type photo) as [ct|] eqn:Hct.
    + destruct (decide (ct ∈ allowed_ct)) as [Hin|Hin].
      * destruct Hbad as [Hbad|[Hbad|Hgeo]];
          [contradiction | destruct (Hbad ct eq_refl Hin) |].
        destruct (upload_job_photo_rejects_bad_geo settings float_str
                    fromisoformat d fs ids job_id job photo ct photo_type
                    lat lng accuracy_m captured_at user
                    Hjob Hacc Hty Hct Hin Hgeo) as [detail Hrun].
        exists detail. split; [exact Hrun|].
        split; [contradiction|]. intros _ H. destruct (H ct eq_refl Hin).
      * eexists. split; [|split; [contradiction|reflexivity]].
        unfold request, upload_job_photo, bad_request. mrun. rewrite Hjob. mrun.
        rewrite _assert_job_access_run, Hacc. mrun.
        rewrite (bool_decide_eq_true_2 _ Hty). mrun.
        rewrite Hct, (bool_decide_eq_false_2 _ Hin). mrun. reflexivity.
    + eexists. split; [|split; [contradiction|reflexivity]].
      unfold request, upload_job_photo, bad_request. mrun. rewrite Hjob. mrun.
      rewrite _assert_job_access_run, Hacc. mrun.
      rewrite (bool_decide_eq_true_2 _ Hty). mrun.
      rewrite Hct. mrun. reflexivity.
  - eexists. split; [|split; [reflexivity|contradiction]].
    unfold request, upload_job_photo, bad_request. mrun. rewrite Hjob. mrun.
    rewrite _assert_job_access_run, Hacc. mrun.
    rewrite (bool_decide_eq_false_2 _ Hty). mrun. reflexivity.
Qed.

Lemma upload_job_photo_validation_failures_write_nothing_witness :
  let photo := Sample.jpeg "car.JPG" [Byte.x2a] in
  has_access Sample.officer Sample.closed_job = true
  ∧ geo_ok (Some (of_Z 123)) (Some (of_Z 45)) = false
  ∧ ∃ detail,
      request (upload_job_photo Sample.settings Sample.float_str
                 Sample.fromisoformat "job-1" photo "BEFORE"
                 (Some (of_Z 123)) (Some (of_Z 45)) None None Sample.officer)
              Sample.with_closed_job Sample.fs Sample.uuids
      = (Raised (HTTPException 400 detail), Sample.with_closed_job, Sample.fs)
      ∧ ("BEFORE" ∉ allowed_types ->
         detail
         = "photo_type must be one of ['AFTER', 'BEFORE', 'OTHER', 'PLATE_CLOSEUP']")
      ∧ ("BEFORE" ∈ allowed_types ->
         (forall ct, content_type photo = Some ct -> ct ∉ allowed_ct) ->
         detail = "Only jpeg/png/webp images are allowed").
Proof.
  cbv zeta.
  split; [vm_compute; reflexivity|].
  split; [vm_compute; reflexivity|].
  apply (upload_job_photo_validation_failures_write_nothing Sample.settings
           Sample.float_str Sample.fromisoformat Sample.with_closed_job
           Sample.fs Sample.uuids "job-1" Sample.closed_job
           (Sample.jpeg "car.JPG" [Byte.x2a]) "BEFORE"
           (Some (of_Z 123)) (Some (of_Z 45)) None None Sample.officer).
  - vm_compute; reflexivity.
  - vm_compute; reflexivity.
  - right; right. vm_compute; reflexivity.
Defined.

(** ** Evidence submission *)

(** X8. Evidence submission refuses, with 400 and without storing
    anything, a plate that is blank once stripped, a job location
    out of range, photo coordinates out of range or given as half a pair, a
    missing or disallowed content type and a photo type outside the allowed
    ones; a caller who is neither officer nor admin gets 403. In each case
    the committed rows and the disk are those before the request. *)
Theorem submit_evidence_validation_failures_write_nothing
  (settings : Settings) (float_str : float -> string)
  (fromisoformat : string -> option datetime)
  (d : DB) (fs : FS) (ids : nat -> string)
  (plate_number : string) (job_lat job_lng : float)
  (job_accuracy_m : option float) (violation_type notes : option string)
  (photo : UploadFile) (photo_type : string)
  (photo_lat photo_lng photo_accuracy_m : option float)
  (captured_at : option string) (user : User.t) :
  let run :=
    request (submit_evidence settings float_str fromisoformat plate_number
               job_lat job_lng job_accuracy_m violation_type notes photo
               photo_type photo_lat photo_lng photo_accuracy_m captured_at user)
            d fs ids in
  ((User.role user ∉ [OFFICER; ADMIN]) ->
   run = (Raised (HTTPException 403 "Forbidden"), d, fs))
  ∧ (User.role user ∈ [OFFICER; ADMIN] ->
     Py.upper (Py.strip plate_number) = ""
     ∨ between (of_Z (-90)) job_lat (of_Z 90) = false
     ∨ between (of_Z (-180)) job_lng (of_Z 180) = false
     ∨ geo_ok photo_lat photo_lng = false
     ∨ (forall ct, content_type photo = Some ct -> ct ∉ allowed_ct)
     ∨ (photo_type ∉ allowed_types) ->
     ∃ detail, run = (Raised (HTTPException 400 detail), d, fs)).
Proof.
  cbv zeta. split.
  - intros Hrole. unfold request, submit_evidence. mrun.
    rewrite require_roles_run, (bool_decide_eq_false_2 _ Hrole). reflexivity.
  - intros Hrole Hbad.
    unfold request, submit_evidence, bad_request. mrun.
    rewrite require_roles_run, (bool_decide_eq_true_2 _ Hrole). mrun.
    destruct (String.eqb (Py.upper (Py.strip plate_number)) "") eqn:Hplate;
      mrun; [eauto|].
    apply String.eqb_neq in Hplate.
    destruct (between (of_Z (-90)) job_lat (of_Z 90)) eqn:Hlat; mrun; [|eauto].
    destruct (between (of_Z (-180)) job_lng (of_Z 180)) eqn:Hlng; mrun; [|eauto].
    match goal with
    | |- context [check_photo_geo ?a ?b ?c ?w] =>
        destruct (check_photo_geo_run a b c w) as (rg & -> & Hrg & [->|[detail ->]])
    end; [|eauto].
    apply proj1 in Hrg. specialize (Hrg eq_refl). mrun.
    destruct (content_type photo) as [ct|] eqn:Hct; mrun; [|eauto].
    destruct (decide (ct ∈ allowed_ct)) as [Hin|Hin].
    2: { rewrite (bool_decide_eq_false_2 _ Hin). mrun. eauto. }
    rewrite (bool_decide_eq_true_2 _ Hin). mrun.
    destruct (decide (photo_type ∈ allowed_types)) as [Hty|Hty].
    2: { rewrite (bool_decide_eq_false_2 _ Hty). mrun. eauto. }
    exfalso.
    destruct Hbad as [H|[H|[H|[H|[H|H]]]]];
      try congruence; try contradiction.
    exact (H ct eq_refl Hin).
Qed.

Lemma submit_evidence_validation_failures_write_nothing_witness :
  (User.role Sample.driver ∉ [OFFICER; ADMIN])
  ∧ request (submit_evidence Sample.settings Sample.float_str
               Sample.fromisoformat "AB123" (of_Z 2) (of_Z 45) None None None
               (Sample.jpeg "car.JPG" [Byte.x2a]) "BEFORE" None None None None
               Sample.driver)
            Sample.seeded Sample.fs Sample.ids
    = (Raised (HTTPException 403 "Forbidden"), Sample.seeded, Sample.fs)
  ∧ between (of_Z (-90)) (of_Z 123) (of_Z 90) = false
  ∧ ∃ detail,
      request (submit_evidence Sample.settings Sample.float_str
                 Sample.fromisoformat "AB123" (of_Z 123) (of_Z 45) None None
                 None (Sample.jpeg "car.JPG" [Byte.x2a]) "BEFORE" None None
                 None None Sample.officer)
              Sample.seeded Sample.fs Sample.ids
      = (Raised (HTTPException 400 detail), Sample.seeded, Sample.fs).
Proof.
  assert (Hrole : User.role Sample.driver ∉ [OFFICER; ADMIN]).
  { refine (proj1 (bool_decide_eq_false _) _). vm_compute. reflexivity. }
  split; [exact Hrole|]. split.
  - apply (proj1 (submit_evidence_validation_failures_write_nothing
                    Sample.settings Sample.float_str Sample.fromisoformat
                    Sample.seeded Sample.fs Sample.ids "AB123" (of_Z 2)
                    (of_Z 45) None None None (Sample.jpeg "car.JPG" [Byte.x2a])
                    "BEFORE" None None None None Sample.driver) Hrole).
  - split; [vm_compute; reflexivity|].
    apply (proj2 (submit_evidence_validation_failures_write_nothing
                    Sample.settings Sample.float_str Sample.fromisoformat
                    Sample.seeded Sample.fs Sample.ids "AB123" (of_Z 123)
                    (of_Z 45) None None None (Sample.jpeg "car.JPG" [Byte.x2a])
                    "BEFORE" None None None None Sample.officer)).
    + constructor.
    + right; left. vm_compute; reflexivity.
Defined.



(** ** Reading a job's trail, evidence and photos *)

Lemma get_job_events_run job_id user d fs ids :
  request (get_job_events job_id user) d fs ids =
  (match tow_jobs d !! job_id with
   | None => Raised job_not_found
   | Some job =>
       if has_access user job
       then Returned (filter (fun e => TowJobEvent.tow_job_id e = TowJob.id job)
                             (tow_job_events d))
       else Raised forbidden
   end, d, fs).
Proof.
  unfold request, get_job_events. mrun.
  destruct (tow_jobs d !! job_id) as [job|]; [|reflexivity].
  mrun. rewrite _assert_job_access_run.
  destruct (has_access user job); reflexivity.
Qed.

Lemma get_job_evidence_run job_id user d fs ids :
  request (get_job_evidence job_id user) d fs ids =
  (match tow_jobs d !! job_id with
   | None => Raised job_not_found
   | Some job =>
       if has_access user job
       then Returned
              (job,
               map (fun p => (p, download_url (TowJob.id job) (TowJobPhoto.id p)))
                   (filter (fun q => TowJobPhoto.tow_job_id q = TowJob.id job)
                           (tow_job_photos d)))
       else Raised forbidden
   end, d, fs).
Proof.
  unfold request, get_job_evidence. mrun.
  destruct (tow_jobs d !! job_id) as [job|]; [|reflexivity].
  mrun. rewrite _assert_job_access_run.
  destruct (has_access user job); reflexivity.
Qed.

Lemma download_job_photo_run job_id photo_id user d fs ids :
  request (download_job_photo job_id photo_id user) d fs ids =
  (match tow_jobs d !! job_id with
   | None => Raised job_not_found
   | Some job =>
       if has_access user job then
         match find (fun q => String.eqb (TowJobPhoto.id q) photo_id
                              && String.eqb (TowJobPhoto.tow_job_id q)
                                            (TowJob.id job))
                    (tow_job_photos d) with
         | None => Raised (HTTPException 404 "Photo not found")
         | Some rec =>
             let abs_path := resolve fs (TowJobPhoto.file_path rec) in
             if negb (Py.startswith abs_path (resolve fs "uploads" ++ "/"))
             then Raised (bad_request "Invalid file path")
             else if negb (bool_decide (is_Some (files fs !! resolve fs abs_path))
                           || bool_decide (resolve fs abs_path ∈ dirs fs))
             then Raised (HTTPException 404 "File missing on server")
             else Returned (abs_path, TowJobPhoto.content_type rec,
                            Path.basename abs_path)
         end
       else Raised forbidden
   end, d, fs).
Proof.
  unfold request, download_job_photo. mrun.
  destruct (tow_jobs d !! job_id) as [job|]; [|reflexivity].
  mrun. rewrite _assert_job_access_run.
  destruct (has_access user job); [|reflexivity].
  mrun. destruct (find _ (tow_job_photos d)) as [rec|]; [|reflexivity].
  mrun. cbv zeta.
  destruct (Py.startswith _ _); [|reflexivity].
  cbn [negb]. unfold os_path_exists. mrun.
  destruct (bool_decide _ || bool_decide _); reflexivity.
Qed.

Lemma append_note_assigned_driver_id user notes job :
  TowJob.assigned_driver_id (append_note user notes job)
  = TowJob.assigned_driver_id job.
Proof. unfold append_note. now destruct notes as [[|? ?]|]. Qed.

Lemma has_access_updated_job user caller payload job :
  has_access caller (updated_job user payload job) = has_access caller job.
Proof.
  unfold has_access, updated_job.
  now rewrite append_note_officer_id, append_note_assigned_driver_id.
Qed.

(** X10. Reading the audit trail changes nothing and returns the events of
    the job in the order of the log; after an accepted status update the
    same caller reads the trail as it was, followed by the one
    STATUS_CHANGED event of the update. Assumed: the job exists, the caller
    has access to it, the id drawn for the event is fresh. *)
Theorem status_update_is_last_in_the_audit_trail
  (d : DB) (fs : FS) (ids ids1 ids2 : nat -> string) (job_id : string)
  (job : TowJob.t) (payload : TowJobStatusUpdate.t) (user : User.t) :
  tow_jobs d !! job_id = Some job ->
  has_access user job = true ->
  event_id_taken (ids 0%nat) d = false ->
  ∃ (job' : TowJob.t) (d' : DB) (trail : list TowJobEvent.t),
    request (get_job_events job_id user) d fs ids1 = (Returned trail, d, fs)
    ∧ trail `sublist_of` tow_job_events d
    ∧ (forall e, e ∈ trail
                 ↔ e ∈ tow_job_events d
                   ∧ TowJobEvent.tow_job_id e = TowJob.id job)
    ∧ request (update_status job_id payload user) d fs ids
      = (Returned job', d', fs)
    ∧ request (get_job_events job_id user) d' fs ids2
      = (Returned (trail ++ [status_changed (ids 0%nat) user payload job])%list,
         d', fs).
Proof.
  intros Hjob Hacc Hfresh.
  eexists _, _, _. split; [|split; [|split; [|split]]].
  - rewrite get_job_events_run, Hjob, Hacc. reflexivity.
  - apply sublist_filter.
  - intros e. rewrite list_elem_of_filter. tauto.
  - rewrite update_status_run, Hjob, Hacc, Hfresh. reflexivity.
  - rewrite get_job_events_run.
    cbn [tow_jobs tow_job_events set_tow_job_events set_tow_jobs].
    rewrite lookup_insert_eq, has_access_updated_job, Hacc.
    unfold updated_job. rewrite append_note_id. cbn [TowJob.id TowJob.set_status].
    rewrite filter_app.
    rewrite (filter_cons_True _ (status_changed (ids 0%nat) user payload job))
      by reflexivity.
    reflexivity.
Qed.

Lemma status_update_is_last_in_the_audit_trail_witness :
  let d := set_tow_job_events
             [TowJobEvent.mk "e-1" "job-1" "u-officer" "CREATED" None;
              TowJobEvent.mk "e-2" "job-2" "u-officer" "CREATED" None]
             Sample.with_closed_job in
  has_access Sample.driver Sample.closed_job = true
  ∧ ∃ (job' : TowJob.t) (d' : DB) (trail : list TowJobEvent.t),
      request (get_job_events "job-1" Sample.driver) d Sample.fs Sample.ids
      = (Returned trail, d, Sample.fs)
      ∧ trail `sublist_of` tow_job_events d
      ∧ (forall e, e ∈ trail
                   ↔ e ∈ tow_job_events d
                     ∧ TowJobEvent.tow_job_id e = TowJob.id Sample.closed_job)
      ∧ request (update_status "job-1" (TowJobStatusUpdate.mk EN_ROUTE None)
                               Sample.driver)
                d Sample.fs Sample.ids
        = (Returned job', d', Sample.fs)
      ∧ request (get_job_events "job-1" Sample.driver) d' Sample.fs Sample.ids
        = (Returned (trail ++ [status_changed "id-0" Sample.driver
                                 (TowJobStatusUpdate.mk EN_ROUTE None)
                                 Sample.closed_job])%list,
           d', Sample.fs).
Proof.
  cbv zeta. split; [vm_compute; reflexivity|].
  apply (status_update_is_last_in_the_audit_trail
           (set_tow_job_events
              [TowJobEvent.mk "e-1" "job-1" "u-officer" "CREATED" None;
               TowJobEvent.mk "e-2" "job-2" "u-officer" "CREATED" None]
              Sample.with_closed_job)
           Sample.fs Sample.ids Sample.ids Sample.ids "job-1" Sample.closed_job
           (TowJobStatusUpdate.mk EN_ROUTE None) Sample.driver).
  - vm_compute; reflexivity.
  - vm_compute; reflexivity.
  - vm_compute; reflexivity.
Defined.

(** X11. A photo download reads only: rows and disk are as before, whatever
    the answer. When it answers with a file, the job exists, the caller has
    access to it, the photo is a recorded photo of that job with the
    requested id, the path served is the absolute form of its stored path,
    lies below the absolute upload root and exists on disk, and the media
    type is the recorded one; otherwise the answer is one of 404 (job, photo
    or file missing), 403 and 400. *)
Theorem download_job_photo_serves_only_photos_of_the_job
  (d : DB) (fs : FS) (ids : nat -> string) (job_id photo_id : string)
  (user : User.t) :
  let '(r, d', fs') :=
    request (download_job_photo job_id photo_id user) d fs ids in
  d' = d ∧ fs' = fs
  ∧ match r with
    | Returned (path, ct, name) =>
        ∃ job rec,
          tow_jobs d !! job_id = Some job
          ∧ has_access user job = true
          ∧ rec ∈ tow_job_photos d
          ∧ TowJobPhoto.id rec = photo_id
          ∧ TowJobPhoto.tow_job_id rec = TowJob.id job
          ∧ ct = TowJobPhoto.content_type rec
          ∧ path = resolve fs (TowJobPhoto.file_path rec)
          ∧ name = Path.basename path
          ∧ Py.startswith path (resolve fs "uploads" ++ "/") = true
          ∧ (is_Some (files fs !! resolve fs path) ∨ resolve fs path ∈ dirs fs)
    | Raised e =>
        e ∈ [job_not_found; forbidden; HTTPException 404 "Photo not found";
             bad_request "Invalid file path";
             HTTPException 404 "File missing on server"]
    end.
Proof.
  rewrite download_job_photo_run. split; [reflexivity|]. split; [reflexivity|].
  destruct (tow_jobs d !! job_id) as [job|] eqn:Hjob; [|repeat constructor].
  destruct (has_access user job) eqn:Hacc; [|repeat constructor].
  destruct (find _ (tow_job_photos d)) as [rec|] eqn:Hrec; [|repeat constructor].
  apply find_some in Hrec as [Hin Hrec].
  apply andb_true_iff in Hrec as [Hid Hof].
  apply String.eqb_eq in Hid, Hof. cbv zeta.
  destruct (Py.startswith _ _) eqn:Hbelow; [|repeat constructor].
  cbn [negb].
  destruct (bool_decide (is_Some _) || bool_decide _) eqn:Hpresent;
    [|repeat constructor].
  cbn [negb]. exists job, rec.
  repeat (split; [first [reflexivity | assumption | now apply list_elem_of_In]|]).
  apply orb_true_iff in Hpresent as [H|H]; apply bool_decide_eq_true in H; tauto.
Qed.

(** X12. The evidence of a job is read without changing anything and lists
    exactly the photos recorded for the job, in their order, each with its
    download address; for every listed photo a download by the same caller
    finds the job, passes the access check and finds a photo. Assumed: the
    job is stored under its own id and the caller has access to it. *)
Theorem evidence_lists_the_jobs_photos_with_working_links
  (d : DB) (fs : FS) (ids ids' : nat -> string) (job_id : string)
  (job : TowJob.t) (user : User.t) :
  tow_jobs d !! job_id = Some job ->
  TowJob.id job = job_id ->
  has_access user job = true ->
  ∃ listed,
    request (get_job_evidence job_id user) d fs ids
    = (Returned (job, listed), d, fs)
    ∧ map fst listed `sublist_of` tow_job_photos d
    ∧ (forall p, p ∈ map fst listed
                 ↔ p ∈ tow_job_photos d ∧ TowJobPhoto.tow_job_id p = job_id)
    ∧ (forall p url, (p, url) ∈ listed ->
         url = ("/tow-jobs/" ++ job_id ++ "/photos/" ++ TowJobPhoto.id p
                ++ "/download")%string
         ∧ forall e,
             fst (fst (request (download_job_photo job_id (TowJobPhoto.id p) user)
                               d fs ids'))
             = Raised e ->
             e = bad_request "Invalid file path"
             ∨ e = HTTPException 404 "File missing on server").
Proof.
  intros Hjob Hid Hacc. eexists. split.
  { rewrite get_job_evidence_run, Hjob, Hacc. reflexivity. }
  rewrite Hid.
  assert (Hfst : forall l : list TowJobPhoto.t,
            map fst (map (fun p => (p, download_url job_id (TowJobPhoto.id p))) l)
            = l).
  { intros l. rewrite map_map. cbn [fst]. apply map_id. }
  rewrite Hfst. split; [apply sublist_filter|]. split.
  { intros p. rewrite list_elem_of_filter. tauto. }
  intros p url Hin. apply list_elem_of_In, in_map_iff in Hin as (q & [= <- <-] & Hq).
  apply list_elem_of_In, list_elem_of_filter in Hq as [Hof Hq].
  split; [reflexivity|].
  intros e. rewrite download_job_photo_run, Hjob, Hacc. cbn [fst].
  destruct (find _ (tow_job_photos d)) as [rec|] eqn:Hrec.
  - cbv zeta. destruct (negb (Py.startswith _ _)); [intros [= <-]; now left|].
    destruct (negb _); [intros [= <-]; now right|discriminate].
  - apply list_elem_of_In in Hq.
    pose proof (find_none _ _ Hrec q Hq) as Hno. cbn beta in Hno.
    rewrite String.eqb_refl, Hid, (proj2 (String.eqb_eq _ _) Hof) in Hno.
    discriminate.
Qed.

Lemma evidence_lists_the_jobs_photos_with_working_links_witness :
  let d := set_tow_job_photos
             [TowJobPhoto.mk "p-1" "job-1" "u-officer" "BEFORE" "uploads/a.jpg"
                "image/jpeg" 3 None None None None;
              TowJobPhoto.mk "p-2" "job-2" "u-officer" "AFTER" "uploads/b.jpg"
                "image/jpeg" 4 None None None None]
             Sample.with_closed_job in
  has_access Sample.officer Sample.closed_job = true
  ∧ ∃ listed,
      request (get_job_evidence "job-1" Sample.officer) d Sample.fs Sample.ids
      = (Returned (Sample.closed_job, listed), d, Sample.fs)
      ∧ map fst listed `sublist_of` tow_job_photos d
      ∧ (forall p, p ∈ map fst listed
                   ↔ p ∈ tow_job_photos d ∧ TowJobPhoto.tow_job_id p = "job-1")
      ∧ (forall p url, (p, url) ∈ listed ->
           url = ("/tow-jobs/" ++ "job-1" ++ "/photos/" ++ TowJobPhoto.id p
                  ++ "/download")%string
           ∧ forall e,
               fst (fst (request (download_job_photo "job-1" (TowJobPhoto.id p)
                                    Sample.officer)
                                 d Sample.fs Sample.ids))
               = Raised e ->
               e = bad_request "Invalid file path"
               ∨ e = HTTPException 404 "File missing on server").
Proof.
  cbv zeta. split; [vm_compute; reflexivity|].
  apply (evidence_lists_the_jobs_photos_with_working_links
           (set_tow_job_photos
              [TowJobPhoto.mk "p-1" "job-1" "u-officer" "BEFORE" "uploads/a.jpg"
                 "image/jpeg" 3 None None None None;
               TowJobPhoto.mk "p-2" "job-2" "u-officer" "AFTER" "uploads/b.jpg"
                 "image/jpeg" 4 None None None None]
              Sample.with_closed_job)
           Sample.fs Sample.ids Sample.ids "job-1" Sample.closed_job
           Sample.officer).
  - vm_compute; reflexivity.
  - reflexivity.
  - vm_compute; reflexivity.
Defined.

(** ** Absolute paths are fixed points of [abspath] *)

Lemma split_parts_have_no_sep c (s : string) :
  Forall (fun x => Py.contains c x = false) (Py.split c s).
Proof.
  induction s as [|a s IH]; cbn.
  - now repeat constructor.
  - destruct (Ascii.eqb a c) eqn:Ha; [now constructor|].
    destruct (Py.split c s) as [|w ws]; [now repeat constructor; cbn; rewrite Ha|].
    inversion_clear IH as [|? ? Hw Hws]. constructor; [|exact Hws].
    cbn. now rewrite Ha.
Qed.

Lemma norm_comps_rooted_plain (comps acc : list string) :
  Forall (fun x => Py.contains Path.sep x = false) comps ->
  Forall plain_name acc ->
  Forall plain_name (Path.norm_comps true comps acc).
Proof.
  revert acc. induction comps as [|comp rest IH]; intros acc Hcomps Hacc.
  - cbn. now apply Forall_rev.
  - inversion_clear Hcomps as [|? ? Hcomp Hrest]. cbn [Path.norm_comps].
    destruct (String.eqb comp "") eqn:H0; [now apply IH|].
    destruct (String.eqb comp ".") eqn:H1; [now apply IH|].
    cbn [orb negb andb].
    destruct (String.eqb comp "..") eqn:H2; cbn [negb orb].
    + destruct acc as [|top acc]; [now apply IH|].
      inversion_clear Hacc as [|? ? Htop Hacc'].
      destruct Htop as (_ & _ & _ & ->). now apply IH.
    + apply IH; [exact Hrest|]. constructor; [|exact Hacc].
      now repeat split.
Qed.

Lemma norm_comps_plain rooted (comps acc : list string) :
  Forall plain_name comps ->
  Path.norm_comps rooted comps acc = (rev acc ++ comps)%list.
Proof.
  revert acc. induction comps as [|comp rest IH]; intros acc Hcomps.
  - cbn. now rewrite app_nil_r.
  - inversion_clear Hcomps as [|? ? (_ & H0 & H1 & H2) Hrest].
    cbn [Path.norm_comps]. rewrite H0, H1, H2. cbn [orb negb].
    rewrite IH by exact Hrest. cbn [rev]. now rewrite <- app_assoc.
Qed.

Lemma split_join_plain (comps : list string) :
  Forall plain_name comps -> comps <> [] ->
  Py.split Path.sep (Py.join "/" comps) = comps.
Proof.
  induction comps as [|x l IH]; [contradiction|]. intros Hall _.
  inversion_clear Hall as [|? ? (Hsep & _) Hl].
  destruct l as [|y l]; [now apply split_no_sep|].
  change (Py.join "/" (x :: y :: l))
    with (x ++ String Path.sep (Py.join "/" (y :: l))).
  rewrite split_app_sep, (split_no_sep _ _ Hsep), IH by (exact Hl || discriminate).
  reflexivity.
Qed.

Lemma startswith_sep_cons a (r : string) :
  Py.startswith (String a r) "/" = Ascii.eqb a Path.sep.
Proof.
  unfold Py.startswith. cbn [String.prefix].
  destruct (ascii_dec "/" a) as [<-|Hne].
  - now destruct r.
  - symmetry. apply Ascii.eqb_neq. intros E. apply Hne. now rewrite E.
Qed.

Lemma join_plain_not_rooted (comps : list string) :
  Forall plain_name comps -> Py.startswith (Py.join "/" comps) "/" = false.
Proof.
  destruct comps as [|x l]; [reflexivity|]. intros Hall.
  inversion_clear Hall as [|? ? (Hsep & H0 & _) _].
  destruct x as [|a r]; [discriminate H0|].
  cbn in Hsep. apply orb_false_iff in Hsep as [Ha _].
  destruct l as [|y l]; cbn [Py.join].
  - now rewrite startswith_sep_cons.
  - rewrite append_cons. now rewrite startswith_sep_cons.
Qed.

Lemma norm_split_join_plain (comps : list string) :
  Forall plain_name comps ->
  Path.norm_comps true (Py.split Path.sep (Py.join "/" comps)) [] = comps.
Proof.
  intros Hall. destruct comps as [|x l]; [reflexivity|].
  rewrite split_join_plain by (exact Hall || discriminate).
  now rewrite norm_comps_plain.
Qed.

(** What [normpath] makes of a rooted path: one or two slashes, then plain
    names joined by single slashes. *)
Lemma normpath_rooted_shape (p : string) :
  Py.startswith p "/" = true ->
  ∃ (initial : string) (comps : list string),
    (initial = "/" ∨ initial = "//")
    ∧ Forall plain_name comps
    ∧ Path.normpath p = initial ++ Py.join "/" comps.
Proof.
  intros Hroot. unfold Path.normpath.
  destruct p as [|a r]; [discriminate Hroot|].
  replace (String.eqb (String a r) "") with false by reflexivity.
  rewrite Hroot.
  set (initial := if _ && _ then "//" else "/").
  assert (Hinitial : initial = "/" ∨ initial = "//").
  { subst initial. destruct (_ && _); tauto. }
  assert (Hrooted : negb (String.eqb initial "") = true).
  { destruct Hinitial as [-> | ->]; reflexivity. }
  rewrite Hrooted.
  exists initial, (Path.norm_comps true (Py.split Path.sep (String a r)) []).
  split; [exact Hinitial|]. split.
  - apply norm_comps_rooted_plain; [apply split_parts_have_no_sep|constructor].
  - destruct Hinitial as [-> | ->]; reflexivity.
Qed.

Lemma normpath_fixes_normal_form (initial : string) (comps : list string) :
  initial = "/" ∨ initial = "//" ->
  Forall plain_name comps ->
  Path.normpath (initial ++ Py.join "/" comps) = initial ++ Py.join "/" comps.
Proof.
  intros Hinitial Hall.
  pose proof (join_plain_not_rooted comps Hall) as Hj.
  pose proof (norm_split_join_plain comps Hall) as Hn.
  set (j := Py.join "/" comps) in *.
  unfold Path.normpath.
  destruct Hinitial as [-> | ->].
  - change ("/" ++ j) with (String "/" j).
    replace (Py.startswith (String "/" j) "//") with (Py.startswith j "/")
      by (unfold Py.startswith; cbn [String.prefix];
          now destruct (ascii_dec "/" "/")).
    rewrite Hj. cbn [andb].
    rewrite startswith_sep_cons.
    replace (Ascii.eqb "/" Path.sep) with true by reflexivity.
    cbn [String.eqb negb Py.split]. rewrite Ascii.eqb_refl.
    replace (Ascii.eqb "/" Path.sep) with true by reflexivity.
    cbn [Path.norm_comps String.eqb orb]. rewrite Hn. reflexivity.
  - change ("//" ++ j) with (String "/" (String "/" j)).
    replace (Py.startswith (String "/" (String "/" j)) "///")
      with (Py.startswith j "/")
      by (unfold Py.startswith; cbn [String.prefix];
          now destruct (ascii_dec "/" "/")).
    replace (Py.startswith (String "/" (String "/" j)) "//") with true
      by (unfold Py.startswith; cbn [String.prefix];
          destruct (ascii_dec "/" "/"); [now destruct j|contradiction]).
    rewrite Hj. cbn [andb negb String.eqb Py.split].
    replace (Ascii.eqb "/" Path.sep) with true by reflexivity.
    cbn [Path.norm_comps String.eqb orb]. rewrite Hn. reflexivity.
Qed.

Lemma startswith_sep_app (a b : string) :
  Py.startswith a "/" = true -> Py.startswith (a ++ b) "/" = true.
Proof.
  destruct a as [|x a]; [discriminate|]. rewrite append_cons.
  now rewrite !startswith_sep_cons.
Qed.

(** In an absolute working directory, [abspath] is idempotent. *)
Lemma abspath_idempotent (cwd p : string) :
  Py.startswith cwd "/" = true ->
  Path.abspath cwd (Path.abspath cwd p) = Path.abspath cwd p.
Proof.
  intros Hcwd.
  set (x := if Py.startswith p "/" then p else Path.join cwd p).
  assert (Hx : Py.startswith x "/" = true).
  { subst x. destruct (Py.startswith p "/") eqn:Hp; [exact Hp|].
    unfold Path.join. rewrite Hp.
    destruct (_ || _); now apply startswith_sep_app. }
  change (Path.abspath cwd p) with (Path.normpath x).
  destruct (normpath_rooted_shape x Hx) as (initial & comps & Hi & Hall & ->).
  unfold Path.abspath.
  replace (Py.startswith (initial ++ Py.join "/" comps) "/") with true
    by (symmetry; apply startswith_sep_app; now destruct Hi as [-> | ->]).
  now apply normpath_fixes_normal_form.
Qed.

(** ** Upload, then download *)

Lemma startswith_app (p x : string) : Py.startswith (p ++ x) p = true.
Proof.
  unfold Py.startswith. induction p as [|a p IH].
  - rewrite append_nil. now destruct x.
  - rewrite append_cons. cbn [String.prefix].
    now destruct (ascii_dec a a).
Qed.

Lemma find_app_fresh (k j : string) (l tl : list TowJobPhoto.t) :
  existsb (fun q => String.eqb (TowJobPhoto.id q) k) l = false ->
  find (fun q => String.eqb (TowJobPhoto.id q) k
                 && String.eqb (TowJobPhoto.tow_job_id q) j) (l ++ tl)
  = find (fun q => String.eqb (TowJobPhoto.id q) k
                   && String.eqb (TowJobPhoto.tow_job_id q) j) tl.
Proof.
  induction l as [|q l IH]; [reflexivity|]. cbn [existsb app find].
  intros H. apply orb_false_iff in H as [-> Hl]. cbn [andb]. now apply IH.
Qed.

(** X13. A photo that was uploaded can be downloaded: after an accepted
    upload, a download of the returned photo id from the same job by the
    same caller answers with the stored content type and a path under the
    upload root whose content on disk is the uploaded bytes. Assumed for the
    upload: it passes validation, the file fits and the stream does not
    fail, the ids drawn for photo and event are fresh; for the disk: the
    working directory is absolute, the drawn file name is a canonical UUID,
    the extension of the client's file name has no separator, the upload
    root is not a regular file and no directory has the generated name. *)
Theorem uploaded_photo_is_served_back
  (settings : Settings) (float_str : float -> string)
  (fromisoformat : string -> option datetime)
  (d : DB) (fs : FS) (ids ids' : nat -> string) (job_id : string)
  (job : TowJob.t) (photo : UploadFile) (bytes : list Byte.byte)
  (ct photo_type : string) (lat lng accuracy_m : option float)
  (captured_at : option string) (captured_dt : option datetime)
  (user : User.t) :
  tow_jobs d !! job_id = Some job ->
  has_access user job = true ->
  photo_type ∈ allowed_types ->
  content_type photo = Some ct -> ct ∈ allowed_ct ->
  geo_ok lat lng = true ->
  (forall w, _parse_iso_datetime fromisoformat captured_at w
             = (Returned captured_dt, w)) ->
  file photo = {| data := bytes; fault_in := None |} ->
  len bytes <= MAX_UPLOAD_MB settings * 1024 * 1024 ->
  existsb (fun q => String.eqb (TowJobPhoto.id q) (ids 1%nat)) (tow_job_photos d)
  = false ->
  event_id_taken (ids 2%nat) d = false ->
  Py.startswith (cwd fs) "/" = true ->
  is_uuid (ids 0%nat) = true ->
  Py.contains Path.sep (_guess_ext (filename photo)) = false ->
  files fs !! resolve fs UPLOAD_DIR = None ->
  resolve fs (stored_path (ids 0%nat) photo) ∉ dirs fs ->
  ∃ rec url d' fs' path,
    request (upload_job_photo settings float_str fromisoformat job_id photo
               photo_type lat lng accuracy_m captured_at user) d fs ids
    = (Returned (rec, url), d', fs')
    ∧ request (download_job_photo job_id (TowJobPhoto.id rec) user) d' fs' ids'
      = (Returned (path, ct, Path.basename path), d', fs')
    ∧ Py.startswith path (resolve fs' "uploads" ++ "/") = true
    ∧ files fs' !! path = Some bytes.
Proof.
  intros Hjob Hacc Hty Hct Hin Hgeo Hparse Hfile Hfit Hphoto Hevent
         Hcwd Huuid Hext Hroot Hfresh.
  pose proof (accepts_upload_plain_extension fs (ids 0%nat) photo
                Huuid Hext Hroot Hfresh) as Hdisk.
  pose proof (upload_job_photo_run_ok settings float_str fromisoformat d fs ids
                job_id job photo bytes ct photo_type lat lng accuracy_m
                captured_at captured_dt user Hjob Hacc Hty Hct Hin Hgeo Hparse
                Hfile Hfit Hdisk Hphoto Hevent) as Hup.
  cbv zeta in Hup. eexists _, _, _, _, _. split; [exact Hup|].
  set (ap := resolve fs (stored_path (ids 0%nat) photo)).
  assert (Hbelow : Py.startswith ap (resolve fs "uploads" ++ "/") = true).
  { subst ap. unfold resolve, stored_path.
    rewrite join_upload_dir by exact Huuid.
    destruct (abspath_below_uploads (cwd fs)
                (ids 0%nat ++ _guess_ext (filename photo))
                (uuid_name_is_plain _ _ Huuid Hext)) as (z & -> & ->).
    replace ((z ++ "uploads") ++ "/" ++ ids 0%nat ++ _guess_ext (filename photo))
      with (((z ++ "uploads") ++ "/") ++ ids 0%nat ++ _guess_ext (filename photo))
      by (now rewrite !append_assoc).
    apply startswith_app. }
  assert (Hfix : resolve fs ap = ap).
  { subst ap. unfold resolve. now apply abspath_idempotent. }
  rewrite download_job_photo_run.
  cbn [tow_jobs tow_job_photos set_tow_job_events set_tow_job_photos
       TowJobPhoto.id].
  rewrite Hjob, Hacc.
  rewrite (find_app_fresh (ids 1%nat) (TowJob.id job)) by exact Hphoto.
  cbn [find TowJobPhoto.id TowJobPhoto.tow_job_id TowJobPhoto.file_path
       TowJobPhoto.content_type].
  rewrite !String.eqb_refl. cbn [andb]. cbv zeta.
  change (resolve {| files := <[ap := bytes]> (files fs);
                     dirs := {[resolve fs UPLOAD_DIR]} ∪ dirs fs;
                     cwd := cwd fs |})
    with (resolve fs).
  cbn [TowJobPhoto.file_path TowJobPhoto.content_type TowJobPhoto.id].
  fold ap. rewrite Hbelow, Hfix. cbn [negb files].
  rewrite lookup_insert_eq.
  rewrite (bool_decide_eq_true_2 (is_Some (Some bytes))) by eauto.
  cbn [orb negb]. repeat split; [exact Hbelow|apply lookup_insert_eq].
Qed.

Lemma uploaded_photo_is_served_back_witness :
  let photo := Sample.jpeg "car.JPG" [Byte.x2a; Byte.x2a; Byte.x2a] in
  Py.startswith (cwd Sample.fs) "/" = true
  ∧ is_uuid (Sample.uuids 0) = true
  ∧ Py.contains Path.sep (_guess_ext (filename photo)) = false
  ∧ ∃ rec url d' fs' path,
      request (upload_job_photo Sample.settings Sample.float_str
                 Sample.fromisoformat "job-1" photo "BEFORE"
                 (Some (of_Z 2)) (Some (of_Z 45)) None None Sample.officer)
              Sample.with_closed_job Sample.fs Sample.uuids
      = (Returned (rec, url), d', fs')
      ∧ request (download_job_photo "job-1" (TowJobPhoto.id rec) Sample.officer)
                d' fs' Sample.uuids
        = (Returned (path, "image/jpeg", Path.basename path), d', fs')
      ∧ Py.startswith path (resolve fs' "uploads" ++ "/") = true
      ∧ files fs' !! path = Some [Byte.x2a; Byte.x2a; Byte.x2a].
Proof.
  cbv zeta.
  split; [vm_compute; reflexivity|].
  split; [vm_compute; reflexivity|].
  split; [vm_compute; reflexivity|].
  apply (uploaded_photo_is_served_back Sample.settings
           Sample.float_str Sample.fromisoformat Sample.with_closed_job
           Sample.fs Sample.uuids Sample.uuids "job-1" Sample.closed_job
           (Sample.jpeg "car.JPG" [Byte.x2a; Byte.x2a; Byte.x2a])
           [Byte.x2a; Byte.x2a; Byte.x2a] "image/jpeg" "BEFORE"
           (Some (of_Z 2)) (Some (of_Z 45)) None None None Sample.officer).
  - vm_compute; reflexivity.
  - vm_compute; reflexivity.
  - repeat constructor.
  - reflexivity.
  - repeat constructor.
  - vm_compute; reflexivity.
  - intros w; reflexivity.
  - reflexivity.
  - vm_compute; discriminate.
  - vm_compute; reflexivity.
  - vm_compute; reflexivity.
  - vm_compute; reflexivity.
  - vm_compute; reflexivity.
  - vm_compute; reflexivity.
  - vm_compute; reflexivity.
  - refine (proj1 (bool_decide_eq_false _) _). vm_compute. reflexivity.
Defined.

(** ** User administration *)

Lemma admin_update_user_run user_id payload admin d fs ids :
  request (admin_update_user user_id payload admin) d fs ids =
  if bool_decide (User.role admin ∈ [ADMIN]) then
    match users d !! user_id with
    | None => (Raised (HTTPException 404 "User not found"), d, fs)
    | Some user =>
        match update_refusal payload user admin d with
        | Some e => (Raised e, d, fs)
        | None =>
            (Returned (edited_user payload user),
             set_users (<[user_id := edited_user payload user]> (users d)) d, fs)
        end
    end
  else (Raised (HTTPException 403 "Forbidden"), d, fs).
Proof.
  unfold request, admin_update_user. mrun. rewrite require_roles_run.
  destruct (bool_decide (User.role admin ∈ [ADMIN])); [|reflexivity].
  mrun. destruct (users d !! user_id) as [user|] eqn:Huser; [|reflexivity].
  mrun. unfold update_refusal, edited_user, bad_request. cbv zeta.
  destruct (bool_decide (User.id user = User.id admin)); cbn [andb].
  - mrun. destruct (AdminUserUpdate.role payload) as [r|].
    + destruct (bool_decide (r = ADMIN)); cbn [negb]; [|reflexivity].
      mrun. destruct (AdminUserUpdate.is_active payload) as [[|]|];
        try reflexivity; mrun;
        (destruct (AdminUserUpdate.phone payload) as [p|];
         [destruct (String.eqb (Py.strip p) ""); [reflexivity|]; mrun;
          destruct (phone_taken_by_other (Py.strip p) user d); [reflexivity|]
         |]; mrun; now rewrite lookup_insert_eq).
    + mrun. destruct (AdminUserUpdate.is_active payload) as [[|]|];
        try reflexivity; mrun;
        (destruct (AdminUserUpdate.phone payload) as [p|];
         [destruct (String.eqb (Py.strip p) ""); [reflexivity|]; mrun;
          destruct (phone_taken_by_other (Py.strip p) user d); [reflexivity|]
         |]; mrun; now rewrite lookup_insert_eq).
  - mrun.
    destruct (AdminUserUpdate.phone payload) as [p|];
      [destruct (String.eqb (Py.strip p) ""); [reflexivity|]; mrun;
       destruct (phone_taken_by_other (Py.strip p) user d); [reflexivity|]
      |]; mrun; now rewrite lookup_insert_eq.
Qed.

Lemma edited_user_id payload user :
  User.id (edited_user payload user) = User.id user.
Proof.
  unfold edited_user.
  now destruct (AdminUserUpdate.phone payload), (AdminUserUpdate.name payload),
    (AdminUserUpdate.role payload), (AdminUserUpdate.is_active payload).
Qed.

Lemma edited_user_password_hash payload user :
  User.password_hash (edited_user payload user) = User.password_hash user.
Proof.
  unfold edited_user.
  now destruct (AdminUserUpdate.phone payload), (AdminUserUpdate.name payload),
    (AdminUserUpdate.role payload), (AdminUserUpdate.is_active payload).
Qed.

Lemma edited_user_phone payload user :
  User.phone (edited_user payload user)
  = match AdminUserUpdate.phone payload with
    | Some p => Py.strip p
    | None => User.phone user
    end.
Proof.
  unfold edited_user.
  now destruct (AdminUserUpdate.phone payload), (AdminUserUpdate.name payload),
    (AdminUserUpdate.role payload), (AdminUserUpdate.is_active payload).
Qed.

Lemma update_refusal_phone payload user admin d p :
  update_refusal payload user admin d = None ->
  AdminUserUpdate.phone payload = Some p ->
  Py.strip p ≠ "" ∧ phone_taken_by_other (Py.strip p) user d = false.
Proof.
  unfold update_refusal. cbv zeta. intros H Hp. rewrite Hp in H.
  destruct (_ && _); [discriminate|]. destruct (_ && _); [discriminate|].
  destruct (String.eqb (Py.strip p) "") eqn:Hblank; [discriminate|].
  destruct (phone_taken_by_other _ _ _); [discriminate|].
  split; [now apply String.eqb_neq|reflexivity].
Qed.

Lemma phone_taken_by_other_false p user d j other :
  phone_taken_by_other p user d = false ->
  users d !! j = Some other -> User.phone other = p ->
  User.id other = User.id user.
Proof.
  unfold phone_taken_by_other. intros H Hj Hp.
  apply bool_decide_eq_false in H.
  destruct (decide (User.id other = User.id user)) as [E|Hne]; [exact E|].
  exfalso. apply H. apply map_Exists_lookup. eauto.
Qed.

(** X14. An update of a user by an admin keeps the user table well formed,
    whatever its outcome: when every user is stored under their own id and
    no two users share a phone number before the request, the same holds
    after it. *)
Theorem admin_update_user_keeps_phones_unique
  (d : DB) (fs : FS) (ids : nat -> string) (user_id : string)
  (payload : AdminUserUpdate.t) (admin : User.t) :
  keys_are_ids d -> phones_unique d ->
  let '(_, d', _) := request (admin_update_user user_id payload admin) d fs ids in
  keys_are_ids d' ∧ phones_unique d'.
Proof.
  intros Hkeys Huniq. rewrite admin_update_user_run.
  destruct (bool_decide _); [|now split].
  destruct (users d !! user_id) as [user|] eqn:Huser; [|now split].
  destruct (update_refusal payload user admin d) eqn:Hrefusal; [now split|].
  pose proof (Hkeys _ _ Huser) as Hid.
  unfold keys_are_ids, phones_unique in *. cbn [users set_users].
  split.
  - apply map_Forall_insert_2; [|exact Hkeys].
    now rewrite edited_user_id.
  - assert (Hnew : forall j v,
              users d !! j = Some v -> j ≠ user_id ->
              User.phone (edited_user payload user) ≠ User.phone v).
    { intros j v Hj Hne E. rewrite edited_user_phone in E.
      destruct (AdminUserUpdate.phone payload) as [p|] eqn:Hp.
      - destruct (update_refusal_phone _ _ _ _ _ Hrefusal Hp) as [_ Hfree].
        pose proof (phone_taken_by_other_false _ _ _ _ _ Hfree Hj (eq_sym E)) as Hsame.
        rewrite (Hkeys _ _ Hj), Hid in Hsame. contradiction.
      - apply Hne. symmetry. exact (Huniq _ _ Huser _ _ Hj E). }
    intros i u Hi j v Hj Hphone.
    apply lookup_insert_Some in Hi as [[<- <-]|[Hi' Hi]];
      apply lookup_insert_Some in Hj as [[<- <-]|[Hj' Hj]];
      try reflexivity.
    + destruct (Hnew _ _ Hj (not_eq_sym Hj') Hphone).
    + destruct (Hnew _ _ Hi (not_eq_sym Hi') (eq_sym Hphone)).
    + exact (Huniq _ _ Hi _ _ Hj Hphone).
Qed.

Lemma admin_update_user_keeps_phones_unique_witness :
  keys_are_ids Sample.seeded ∧ phones_unique Sample.seeded
  ∧ let '(_, d', _) :=
      request (admin_update_user "u-driver"
                 (AdminUserUpdate.mk None (Some " +252634000009 ") None None)
                 Sample.admin)
              Sample.seeded Sample.fs Sample.ids in
    keys_are_ids d' ∧ phones_unique d'.
Proof.
  assert (Hkeys : keys_are_ids Sample.seeded).
  { refine (proj1 (bool_decide_eq_true _) _). vm_compute. reflexivity. }
  assert (Huniq : phones_unique Sample.seeded).
  { refine (proj1 (bool_decide_eq_true _) _). vm_compute. reflexivity. }
  split; [exact Hkeys|]. split; [exact Huniq|].
  exact (admin_update_user_keeps_phones_unique Sample.seeded Sample.fs
           Sample.ids "u-driver"
           (AdminUserUpdate.mk None (Some " +252634000009 ") None None)
           Sample.admin Hkeys Huniq).
Defined.

(** X15. An update never changes a user's id or password hash, never adds
    or removes a user and touches no row but the target's: whatever the
    outcome, every key of the user table holds afterwards a user with the
    id and the password hash it held before, keys other than the target's
    hold the same user, and jobs, photos and events are as before. *)
Theorem admin_update_user_never_touches_ids_or_passwords
  (d : DB) (fs : FS) (ids : nat -> string) (user_id : string)
  (payload : AdminUserUpdate.t) (admin : User.t) :
  let '(_, d', fs') :=
    request (admin_update_user user_id payload admin) d fs ids in
  (forall i, User.id <$> users d' !! i = User.id <$> users d !! i)
  ∧ (forall i, User.password_hash <$> users d' !! i
               = User.password_hash <$> users d !! i)
  ∧ (forall i, i ≠ user_id -> users d' !! i = users d !! i)
  ∧ tow_jobs d' = tow_jobs d
  ∧ tow_job_photos d' = tow_job_photos d
  ∧ tow_job_events d' = tow_job_events d
  ∧ fs' = fs.
Proof.
  rewrite admin_update_user_run.
  destruct (bool_decide _); [|now repeat split].
  destruct (users d !! user_id) as [user|] eqn:Huser; [|now repeat split].
  destruct (update_refusal payload user admin d); [now repeat split|].
  cbn [users set_users tow_jobs tow_job_photos tow_job_events].
  repeat split.
  - intros i. destruct (decide (i = user_id)) as [->|Hne].
    + now rewrite lookup_insert_eq, Huser; cbn; rewrite edited_user_id.
    + now rewrite lookup_insert_ne.
  - intros i. destruct (decide (i = user_id)) as [->|Hne].
    + now rewrite lookup_insert_eq, Huser; cbn; rewrite edited_user_password_hash.
    + now rewrite lookup_insert_ne.
  - intros i Hne. now rewrite lookup_insert_ne.
Qed.

(** X16. An admin's update of a user is refused with 409, and nothing is
    written, when the new phone number, stripped, is the phone number of a
    user with another id; with 400 when it is blank once stripped; with 404
    when no user has the id; with 403 when the caller is not an admin.
    Assumed for 409 and 400: the target is not the caller. *)
Theorem admin_update_user_refusals_write_nothing
  (d : DB) (fs : FS) (ids : nat -> string) (user_id : string)
  (payload : AdminUserUpdate.t) (admin : User.t) :
  let run := request (admin_update_user user_id payload admin) d fs ids in
  (User.role admin ≠ ADMIN ->
   run = (Raised (HTTPException 403 "Forbidden"), d, fs))
  ∧ (User.role admin = ADMIN -> users d !! user_id = None ->
     run = (Raised (HTTPException 404 "User not found"), d, fs))
  ∧ (forall target p,
       User.role admin = ADMIN -> users d !! user_id = Some target ->
       User.id target ≠ User.id admin ->
       AdminUserUpdate.phone payload = Some p ->
       (Py.strip p = "" ->
        run = (Raised (HTTPException 400 "phone cannot be blank"), d, fs))
       ∧ (forall j other,
            Py.strip p ≠ "" ->
            users d !! j = Some other ->
            User.id other ≠ User.id target ->
            User.phone other = Py.strip p ->
            run = (Raised (HTTPException 409
                             "Another user already has this phone"), d, fs))).
Proof.
  cbv zeta. rewrite admin_update_user_run. split; [|split].
  - intros Hrole. rewrite bool_decide_eq_false_2; [reflexivity|].
    intros H. apply list_elem_of_singleton in H. contradiction.
  - intros -> ->. now rewrite bool_decide_eq_true_2 by constructor.
  - intros target p -> -> Hother Hp.
    rewrite bool_decide_eq_true_2 by constructor.
    unfold update_refusal. cbv zeta.
    rewrite (bool_decide_eq_false_2 _ Hother), Hp. cbn [andb]. split.
    + intros ->. reflexivity.
    + intros j other Hblank Hj Hid Hphone.
      apply String.eqb_neq in Hblank. rewrite Hblank.
      unfold phone_taken_by_other.
      rewrite bool_decide_eq_true_2; [reflexivity|].
      apply map_Exists_lookup. eauto.
Qed.

Lemma admin_update_user_refusals_write_nothing_witness :
  let run payload caller :=
    request (admin_update_user "u-driver" payload caller)
            Sample.seeded Sample.fs Sample.ids in
  User.role Sample.officer ≠ ADMIN
  ∧ run (AdminUserUpdate.mk None None None None) Sample.officer
    = (Raised (HTTPException 403 "Forbidden"), Sample.seeded, Sample.fs)
  ∧ Py.strip " +252634000001 " = User.phone Sample.officer
  ∧ run (AdminUserUpdate.mk None (Some " +252634000001 ") None None) Sample.admin
    = (Raised (HTTPException 409 "Another user already has this phone"),
       Sample.seeded, Sample.fs).
Proof.
  cbv zeta. split; [discriminate|]. split; [|split; [vm_compute; reflexivity|]].
  - apply (proj1 (admin_update_user_refusals_write_nothing Sample.seeded
                    Sample.fs Sample.ids "u-driver"
                    (AdminUserUpdate.mk None None None None) Sample.officer)).
    discriminate.
  - apply (proj2 (proj2 (admin_update_user_refusals_write_nothing Sample.seeded
                    Sample.fs Sample.ids "u-driver"
                    (AdminUserUpdate.mk None (Some " +252634000001 ") None None)
                    Sample.admin))
             Sample.driver " +252634000001 " eq_refl
             ltac:(vm_compute; reflexivity) ltac:(vm_compute; discriminate)
             eq_refl) with (j := "u-officer") (other := Sample.officer).
    + vm_compute; discriminate.
    + vm_compute; reflexivity.
    + vm_compute; discriminate.
    + vm_compute; reflexivity.
Defined.

(** X17. An accepted update writes the named fields and no others: the user
    returned and stored has the target's id and password hash, the stripped
    new phone and name where the request names them, the new role and
    activation where it names them, and the target's values elsewhere.
    Assumed: the caller is an admin other than the target, and a new phone
    is neither blank nor in use by a user with another id. *)
Theorem admin_update_user_edits_the_named_fields
  (d : DB) (fs : FS) (ids : nat -> string) (user_id : string)
  (payload : AdminUserUpdate.t) (admin target : User.t) :
  User.role admin = ADMIN ->
  users d !! user_id = Some target ->
  User.id target ≠ User.id admin ->
  (forall p, AdminUserUpdate.phone payload = Some p ->
             Py.strip p ≠ ""
             ∧ phone_taken_by_other (Py.strip p) target d = false) ->
  ∃ u d',
    request (admin_update_user user_id payload admin) d fs ids
    = (Returned u, d', fs)
    ∧ users d' = <[user_id := u]> (users d)
    ∧ User.id u = User.id target
    ∧ User.password_hash u = User.password_hash target
    ∧ User.phone u = default (User.phone target)
                             (Py.strip <$> AdminUserUpdate.phone payload)
    ∧ User.name u = default (User.name target)
                            (Py.strip <$> AdminUserUpdate.name payload)
    ∧ User.role u = default (User.role target) (AdminUserUpdate.role payload)
    ∧ User.is_active u = default (User.is_active target)
                                 (AdminUserUpdate.is_active payload).
Proof.
  intros Hrole Htarget Hother Hphone.
  rewrite admin_update_user_run, Hrole, Htarget.
  rewrite bool_decide_eq_true_2 by constructor.
  assert (Hok : update_refusal payload target admin d = None).
  { unfold update_refusal. cbv zeta.
    rewrite (bool_decide_eq_false_2 _ Hother). cbn [andb].
    destruct (AdminUserUpdate.phone payload) as [p|]; [|reflexivity].
    destruct (Hphone p eq_refl) as [Hblank ->].
    apply String.eqb_neq in Hblank. now rewrite Hblank. }
  rewrite Hok. eexists _, _. split; [reflexivity|].
  unfold edited_user. cbn [users set_users].
  destruct (AdminUserUpdate.phone payload), (AdminUserUpdate.name payload),
    (AdminUserUpdate.role payload), (AdminUserUpdate.is_active payload);
    repeat split.
Qed.

Lemma admin_update_user_edits_the_named_fields_witness :
  let payload := AdminUserUpdate.mk (Some " Driver Two ")
                   (Some " +252634000009 ") None (Some false) in
  ∃ u d',
    request (admin_update_user "u-driver" payload Sample.admin)
            Sample.seeded Sample.fs Sample.ids
    = (Returned u, d', Sample.fs)
    ∧ users d' = <["u-driver" := u]> (users Sample.seeded)
    ∧ User.id u = User.id Sample.driver
    ∧ User.password_hash u = User.password_hash Sample.driver
    ∧ User.phone u = default (User.phone Sample.driver)
                             (Py.strip <$> AdminUserUpdate.phone payload)
    ∧ User.name u = default (User.name Sample.driver)
                            (Py.strip <$> AdminUserUpdate.name payload)
    ∧ User.role u = default (User.role Sample.driver)
                            (AdminUserUpdate.role payload)
    ∧ User.is_active u = default (User.is_active Sample.driver)
                                 (AdminUserUpdate.is_active payload).
Proof.
  cbv zeta.
  apply (admin_update_user_edits_the_named_fields Sample.seeded Sample.fs
           Sample.ids "u-driver"
           (AdminUserUpdate.mk (Some " Driver Two ") (Some " +252634000009 ")
                               None (Some false))
           Sample.admin Sample.driver).
  - reflexivity.
  - vm_compute; reflexivity.
  - vm_compute; discriminate.
  - intros p [= <-]. split; [vm_compute; discriminate|].
    vm_compute; reflexivity.
Defined.

(** ** The evidence store: complete or absent *)







(** ** Authentication *)

Lemma user_of_token_run decode_sub token d fs ids :
  request (user_of_token decode_sub token) d fs ids =
  (match decode_sub token with
   | None => Raised (unauthorized "Invalid token")
   | Some user_id =>
       match user_id ≫= (fun i => users d !! i) with
       | Some u =>
           if User.is_active u then Returned u
           else Raised (unauthorized "User inactive or not found")
       | None => Raised (unauthorized "User inactive or not found")
       end
   end, d, fs).
Proof.
  unfold request, user_of_token.
  destruct (decode_sub token) as [user_id|]; [|reflexivity].
  mrun. destruct (user_id ≫= _) as [u|]; [|reflexivity].
  now destruct (User.is_active u).
Qed.

(** X20. Authentication admits only active stored users and writes
    nothing: when [get_current_user] returns a user, the token decodes to a
    subject, the user is the one stored under that subject and is active;
    every refusal is a 401. For a non-empty token the cookie guard of the
    web pages answers exactly as the bearer guard of the API. *)
Theorem authentication_admits_only_active_stored_users
  (decode_sub : string -> option (option string))
  (d : DB) (fs : FS) (ids : nat -> string) (creds : option string) :
  (let '(r, d', fs') := request (get_current_user decode_sub creds) d fs ids in
   d' = d ∧ fs' = fs
   ∧ match r with
     | Returned u =>
         ∃ token i, creds = Some token ∧ decode_sub token = Some (Some i)
                    ∧ users d !! i = Some u ∧ User.is_active u = true
     | Raised e => ∃ detail, e = HTTPException 401 detail
     end)
  ∧ (forall a token,
       request (get_current_user_from_cookie decode_sub (Some (String a token)))
               d fs ids
       = request (get_current_user decode_sub (Some (String a token))) d fs ids)
  ∧ request (get_current_user_from_cookie decode_sub (Some "")) d fs ids
    = (Raised (HTTPException 401 "Not authenticated"), d, fs).
Proof.
  split; [|split; [reflexivity|reflexivity]].
  unfold get_current_user. destruct creds as [token|].
  - rewrite user_of_token_run. split; [reflexivity|]. split; [reflexivity|].
    destruct (decode_sub token) as [[i|]|] eqn:Hsub; cbn;
      try (eexists; reflexivity).
    destruct (users d !! i) as [u|] eqn:Hu; [|eexists; reflexivity].
    destruct (User.is_active u) eqn:Hactive; [|eexists; reflexivity].
    eauto 10.
  - cbn. repeat split. eexists; reflexivity.
Qed.

(** X21. Deactivation takes effect at once, and so does reactivation: after
    an accepted update that sets [is_active], a token whose subject is the
    updated user is refused with 401 when the flag was set to false, and
    authenticates as the updated user when it was set to true. Assumed: the
    caller is an admin other than the target, and the update names no new
    phone. *)
Theorem deactivated_user_is_locked_out_at_once
  (decode_sub : string -> option (option string))
  (d : DB) (fs : FS) (ids ids' : nat -> string) (user_id token : string)
  (payload : AdminUserUpdate.t) (admin target : User.t) (active : bool) :
  User.role admin = ADMIN ->
  users d !! user_id = Some target ->
  User.id target ≠ User.id admin ->
  AdminUserUpdate.phone payload = None ->
  AdminUserUpdate.is_active payload = Some active ->
  decode_sub token = Some (Some user_id) ->
  ∃ u d',
    request (admin_update_user user_id payload admin) d fs ids
    = (Returned u, d', fs)
    ∧ request (get_current_user decode_sub (Some token)) d' fs ids'
      = (if active then Returned u
         else Raised (HTTPException 401 "User inactive or not found"), d', fs).
Proof.
  intros Hrole Htarget Hother Hphone Hactive Hsub.
  rewrite admin_update_user_run, Hrole, Htarget.
  rewrite bool_decide_eq_true_2 by constructor.
  assert (Hok : update_refusal payload target admin d = None).
  { unfold update_refusal. cbv zeta.
    now rewrite (bool_decide_eq_false_2 _ Hother), Hphone. }
  rewrite Hok. eexists _, _. split; [reflexivity|].
  unfold get_current_user. rewrite user_of_token_run, Hsub.
  cbn [mbind option_bind users set_users]. rewrite lookup_insert_eq.
  assert (Hflag : User.is_active (edited_user payload target) = active).
  { unfold edited_user. rewrite Hactive.
    now destruct (AdminUserUpdate.phone payload),
      (AdminUserUpdate.name payload), (AdminUserUpdate.role payload). }
  rewrite Hflag. now destruct active.
Qed.

Lemma deactivated_user_is_locked_out_at_once_witness :
  let decode_sub (token : string) :=
    if String.eqb token "token-of-driver" then Some (Some "u-driver")
    else None in
  let payload := AdminUserUpdate.mk None None None (Some false) in
  ∃ u d',
    request (admin_update_user "u-driver" payload Sample.admin)
            Sample.seeded Sample.fs Sample.ids
    = (Returned u, d', Sample.fs)
    ∧ request (get_current_user decode_sub (Some "token-of-driver"))
              d' Sample.fs Sample.ids
      = (if false then Returned u
         else Raised (HTTPException 401 "User inactive or not found"),
         d', Sample.fs).
Proof.
  cbv zeta.
  apply (deactivated_user_is_locked_out_at_once
           (fun token => if String.eqb token "token-of-driver"
                         then Some (Some "u-driver") else None)
           Sample.seeded Sample.fs Sample.ids Sample.ids "u-driver"
           "token-of-driver" (AdminUserUpdate.mk None None None (Some false))
           Sample.admin Sample.driver false).
  - reflexivity.
  - vm_compute; reflexivity.
  - vm_compute; discriminate.
  - reflexivity.
  - reflexivity.
  - reflexivity.
Defined.

(** ** Listings *)

Lemma elem_of_all_jobs (d : DB) (j : TowJob.t) :
  j ∈ all_jobs d ↔ ∃ k, tow_jobs d !! k = Some j.
Proof.
  unfold all_jobs. rewrite list_elem_of_fmap. split.
  - intros ([k j'] & -> & Hin). apply elem_of_map_to_list in Hin. eauto.
  - intros [k Hk]. exists (k, j). split; [reflexivity|].
    now apply elem_of_map_to_list.
Qed.

Lemma elem_of_all_users (d : DB) (u : User.t) :
  u ∈ all_users d ↔ ∃ k, users d !! k = Some u.
Proof.
  unfold all_users. rewrite list_elem_of_fmap. split.
  - intros ([k u'] & -> & Hin). apply elem_of_map_to_list in Hin. eauto.
  - intros [k Hk]. exists (k, u). split; [reflexivity|].
    now apply elem_of_map_to_list.
Qed.

Lemma elem_of_filter_bool {A} (f : A -> bool) (l : list A) (x : A) :
  x ∈ List.filter f l ↔ x ∈ l ∧ f x = true.
Proof. rewrite !list_elem_of_In. apply filter_In. Qed.

(** The row filter of the listing is the access rule of the single-job
    endpoints. *)
Lemma own_jobs_are_accessible_jobs (user : User.t) (j : TowJob.t) :
  match User.role user with
  | OFFICER => String.eqb (TowJob.officer_id j) (User.id user)
  | DRIVER => bool_decide (TowJob.assigned_driver_id j = Some (User.id user))
  | _ => true
  end = has_access user j.
Proof.
  unfold has_access. rewrite access_table_cases.
  destruct (User.role user); try reflexivity.
  destruct (String.eqb_spec (TowJob.officer_id j) (User.id user)) as [E|E];
    symmetry; [now apply bool_decide_eq_true_2
              |apply bool_decide_eq_false_2; congruence].
Qed.

(** X22. The job listing shows a caller exactly the stored jobs the access
    rule of the single-job endpoints lets them open, narrowed by the status
    filter when one is given: all jobs for dispatchers and admins, their own
    for officers, those assigned to them for drivers. A non-empty filter
    that is no status value is answered 400; the listing writes nothing.
    Assumed: ordering by creation time only permutes the rows. *)
Theorem list_tow_jobs_lists_exactly_the_accessible_jobs
  (newest_first : list TowJob.t -> list TowJob.t)
  (d : DB) (fs : FS) (ids : nat -> string) (status_filter : option string)
  (user : User.t) :
  (forall l, newest_first l ≡ₚ l) ->
  let run := request (list_tow_jobs newest_first status_filter user) d fs ids in
  (forall a s, status_filter = Some (String a s) ->
               TowStatus_of_value (String a s) = None ->
               run = (Raised (HTTPException 400 "Invalid status_filter"), d, fs))
  ∧ ((forall a s, status_filter = Some (String a s) ->
                  is_Some (TowStatus_of_value (String a s))) ->
     ∃ jobs,
       run = (Returned jobs, d, fs)
       ∧ forall j, j ∈ jobs
                   ↔ (∃ k, tow_jobs d !! k = Some j)
                     ∧ has_access user j = true
                     ∧ status_matches status_filter j).
Proof.
  intros Hperm. cbv zeta. split.
  - intros a s -> Hbad. unfold request, list_tow_jobs. cbv zeta. mrun.
    rewrite Hbad. reflexivity.
  - intros Hvalid. unfold request, list_tow_jobs. cbv zeta. mrun.
    destruct status_filter as [[|a s]|].
    + mrun. eexists. split; [reflexivity|]. intros j.
      rewrite Hperm, elem_of_filter_bool, elem_of_all_jobs.
      rewrite own_jobs_are_accessible_jobs, andb_true_r. cbn. tauto.
    + destruct (Hvalid a s eq_refl) as [st Hst]. rewrite Hst. mrun.
      eexists. split; [reflexivity|]. intros j.
      rewrite Hperm, elem_of_filter_bool, elem_of_all_jobs.
      rewrite own_jobs_are_accessible_jobs, andb_true_iff, bool_decide_eq_true.
      unfold status_matches. rewrite Hst. split.
      * intros (? & ? & ->). tauto.
      * intros (? & ? & [= ->]). tauto.
    + mrun. eexists. split; [reflexivity|]. intros j.
      rewrite Hperm, elem_of_filter_bool, elem_of_all_jobs.
      rewrite own_jobs_are_accessible_jobs, andb_true_r. cbn. tauto.
Qed.

Lemma list_tow_jobs_lists_exactly_the_accessible_jobs_witness :
  let run := request (list_tow_jobs (fun l => l) (Some "CLOSED") Sample.driver)
                     Sample.with_closed_job Sample.fs Sample.ids in
  ∃ jobs,
    run = (Returned jobs, Sample.with_closed_job, Sample.fs)
    ∧ forall j, j ∈ jobs
                ↔ (∃ k, tow_jobs Sample.with_closed_job !! k = Some j)
                  ∧ has_access Sample.driver j = true
                  ∧ status_matches (Some "CLOSED") j.
Proof.
  cbv zeta.
  apply (proj2 (list_tow_jobs_lists_exactly_the_accessible_jobs
                  (fun l => l) Sample.with_closed_job Sample.fs Sample.ids
                  (Some "CLOSED") Sample.driver (fun l => reflexivity l))).
  intros a s [= <- <-]. eexists. reflexivity.
Defined.


Lemma list_tow_jobs_unfiltered newest_first user d fs ids :
  request (list_tow_jobs newest_first None user) d fs ids
  = (Returned (newest_first (List.filter (has_access user) (all_jobs d))), d, fs).
Proof.
  unfold request, list_tow_jobs. cbv zeta. mrun. do 3 f_equal.
  f_equal. apply List.filter_ext. intros j.
  now rewrite own_jobs_are_accessible_jobs, andb_true_r.
Qed.

(** X23. A job just created shows in its creator's listing: after an
    accepted creation by an officer or admin, the unfiltered listing of the
    same caller contains the job returned, and so does the listing filtered
    by NEW. Assumed: the two ids drawn are fresh, and ordering by creation
    time only permutes the rows. *)
Theorem created_job_shows_in_the_creators_listing
  (newest_first : list TowJob.t -> list TowJob.t)
  (payload : TowJobCreate.t) (user : User.t) (d : DB) (fs : FS)
  (ids ids' : nat -> string) :
  (forall l, newest_first l ≡ₚ l) ->
  User.role user ∈ [OFFICER; ADMIN] ->
  tow_jobs d !! ids 0%nat = None ->
  event_id_taken (ids 1%nat) d = false ->
  ∃ job d' jobs new_jobs,
    request (create_tow_job payload user) d fs ids = (Returned job, d', fs)
    ∧ request (list_tow_jobs newest_first None user) d' fs ids'
      = (Returned jobs, d', fs)
    ∧ job ∈ jobs
    ∧ request (list_tow_jobs newest_first (Some "NEW") user) d' fs ids'
      = (Returned new_jobs, d', fs)
    ∧ job ∈ new_jobs.
Proof.
  intros Hperm Hrole Hjob Hevent.
  rewrite create_tow_job_run, (bool_decide_eq_true_2 _ Hrole), Hjob, Hevent.
  rewrite bool_decide_eq_false_2 by (intros [? ?]; discriminate).
  cbn [orb]. cbv zeta.
  set (job := TowJob.mk (ids 0%nat) _ _ _ _ _ _ _ _ _).
  set (d' := set_tow_job_events _ _).
  assert (Hstored : job ∈ all_jobs d').
  { apply elem_of_all_jobs. exists (ids 0%nat). subst d'.
    cbn [tow_jobs set_tow_job_events set_tow_jobs]. apply lookup_insert_eq. }
  assert (Hacc : has_access user job = true).
  { unfold has_access. rewrite access_table_cases. subst job.
    cbn [TowJob.officer_id TowJob.assigned_driver_id].
    apply elem_of_cons in Hrole as [->|Hrole];
      [now apply bool_decide_eq_true_2|].
    apply list_elem_of_singleton in Hrole as ->. reflexivity. }
  eexists _, _, _, _. split; [reflexivity|].
  split; [apply list_tow_jobs_unfiltered|].
  split; [rewrite Hperm; apply elem_of_filter_bool; now split|].
  split.
  - unfold request, list_tow_jobs. cbv zeta. mrun. reflexivity.
  - rewrite Hperm. apply elem_of_filter_bool. split; [exact Hstored|].
    now rewrite own_jobs_are_accessible_jobs, Hacc.
Qed.

Lemma created_job_shows_in_the_creators_listing_witness :
  let payload := TowJobCreate.mk " ab123 " (of_Z 2) (of_Z 45) None None None in
  ∃ job d' jobs new_jobs,
    request (create_tow_job payload Sample.officer)
            Sample.seeded Sample.fs Sample.ids
    = (Returned job, d', Sample.fs)
    ∧ request (list_tow_jobs (fun l => l) None Sample.officer)
              d' Sample.fs Sample.ids
      = (Returned jobs, d', Sample.fs)
    ∧ job ∈ jobs
    ∧ request (list_tow_jobs (fun l => l) (Some "NEW") Sample.officer)
              d' Sample.fs Sample.ids
      = (Returned new_jobs, d', Sample.fs)
    ∧ job ∈ new_jobs.
Proof.
  cbv zeta.
  apply (created_job_shows_in_the_creators_listing (fun l => l)
           (TowJobCreate.mk " ab123 " (of_Z 2) (of_Z 45) None None None)
           Sample.officer Sample.seeded Sample.fs Sample.ids Sample.ids
           (fun l => reflexivity l)).
  - constructor.
  - vm_compute; reflexivity.
  - vm_compute; reflexivity.
Defined.

(** X24. Assignment hands the job to the driver, and to no other driver:
    after an accepted assignment the assigned driver passes the access
    check of the job and finds it in their listing, and every driver with
    another id fails the access check. Assumed: the caller is a dispatcher
    or admin, the job exists, the driver is an active DRIVER, the id drawn
    for the event is fresh, and ordering by creation time only permutes the
    rows. *)
Theorem assignment_hands_the_job_to_the_driver
  (newest_first : list TowJob.t -> list TowJob.t)
  (d : DB) (fs : FS) (ids ids' : nat -> string) (job_id driver_id : string)
  (job : TowJob.t) (user driver : User.t) :
  (forall l, newest_first l ≡ₚ l) ->
  User.role user ∈ [DISPATCHER; ADMIN] ->
  tow_jobs d !! job_id = Some job ->
  users d !! driver_id = Some driver ->
  User.role driver = DRIVER ->
  User.is_active driver = true ->
  event_id_taken (ids 0%nat) d = false ->
  ∃ job' d' jobs,
    request (assign_driver job_id (TowJobAssign.mk driver_id) user) d fs ids
    = (Returned job', d', fs)
    ∧ has_access driver job' = true
    ∧ request (list_tow_jobs newest_first None driver) d' fs ids'
      = (Returned jobs, d', fs)
    ∧ job' ∈ jobs
    ∧ forall other, User.role other = DRIVER -> User.id other ≠ User.id driver ->
                    has_access other job' = false.
Proof.
  intros Hperm Hrole Hjob Hdriver Hdrv Hactive Hevent.
  rewrite assign_driver_run, (bool_decide_eq_true_2 _ Hrole), Hjob.
  unfold active_driver. cbn [TowJobAssign.driver_id]. rewrite Hdriver.
  cbn [mbind option_bind]. rewrite Hdrv, Hactive.
  rewrite bool_decide_eq_true_2 by reflexivity. cbn [andb]. rewrite Hevent.
  set (d' := set_tow_job_events _ _).
  assert (Hacc : has_access driver (assigned_job driver job) = true).
  { unfold has_access. rewrite access_table_cases, Hdrv.
    now apply bool_decide_eq_true_2. }
  eexists _, _, _. split; [reflexivity|]. split; [exact Hacc|].
  split; [apply list_tow_jobs_unfiltered|]. split.
  - rewrite Hperm. apply elem_of_filter_bool. split; [|exact Hacc].
    apply elem_of_all_jobs. exists job_id. subst d'.
    cbn [tow_jobs set_tow_job_events set_tow_jobs]. apply lookup_insert_eq.
  - intros other Hother Hne. unfold has_access.
    rewrite access_table_cases, Hother. apply bool_decide_eq_false_2.
    cbn. intros [= E]. now apply Hne.
Qed.

Lemma assignment_hands_the_job_to_the_driver_witness :
  ∃ job' d' jobs,
    request (assign_driver "job-1" (TowJobAssign.mk "u-driver")
                           Sample.dispatcher)
            Sample.with_closed_job Sample.fs Sample.ids
    = (Returned job', d', Sample.fs)
    ∧ has_access Sample.driver job' = true
    ∧ request (list_tow_jobs (fun l => l) None Sample.driver)
              d' Sample.fs Sample.ids
      = (Returned jobs, d', Sample.fs)
    ∧ job' ∈ jobs
    ∧ forall other, User.role other = DRIVER ->
                    User.id other ≠ User.id Sample.driver ->
                    has_access other job' = false.
Proof.
  apply (assignment_hands_the_job_to_the_driver (fun l => l)
           Sample.with_closed_job Sample.fs Sample.ids Sample.ids
           "job-1" "u-driver" Sample.closed_job Sample.dispatcher Sample.driver
           (fun l => reflexivity l)).
  - constructor.
  - vm_compute; reflexivity.
  - vm_compute; reflexivity.
  - reflexivity.
  - reflexivity.
  - vm_compute; reflexivity.
Defined.

(** ** Creating users and resetting passwords *)

Lemma admin_create_user_run hash_password payload admin d fs ids :
  request (admin_create_user hash_password payload admin) d fs ids =
  if bool_decide (User.role admin ∈ [ADMIN]) then
    let phone := Py.strip (AdminUserCreate.phone payload) in
    if String.eqb phone "" then (Raised (bad_request "phone is required"), d, fs)
    else if phone_in_use phone d
    then (Raised (HTTPException 409 "A user with this phone already exists"),
          d, fs)
    else
      let user := User.mk (ids 0%nat) (Py.strip (AdminUserCreate.name payload))
                    phone (AdminUserCreate.role payload)
                    (hash_password (AdminUserCreate.password payload))
                    (AdminUserCreate.is_active payload) in
      if bool_decide (is_Some (users d !! ids 0%nat))
      then (Raised IntegrityError, d, fs)
      else (Returned user, set_users (<[ids 0%nat := user]> (users d)) d, fs)
  else (Raised (HTTPException 403 "Forbidden"), d, fs).
Proof.
  unfold request, admin_create_user, db_add_user. mrun.
  rewrite require_roles_run.
  destruct (bool_decide (User.role admin ∈ [ADMIN])); [|reflexivity].
  mrun. cbv zeta.
  destruct (String.eqb (Py.strip (AdminUserCreate.phone payload)) "");
    [reflexivity|].
  mrun.
  destruct (phone_in_use (Py.strip (AdminUserCreate.phone payload)) d)
    eqn:Hphone; [reflexivity|].
  mrun. rewrite pending_insert_stale, pending_insert_committed.
  rewrite pending_insert_concrete.
  cbn [User.id User.phone stale working committed orb].
  rewrite Hphone, orb_false_r.
  destruct (bool_decide (is_Some (users d !! ids 0%nat))); [reflexivity|].
  mrun. now rewrite lookup_insert_eq.
Qed.

Lemma phone_in_use_true p d k o :
  users d !! k = Some o -> User.phone o = p -> phone_in_use p d = true.
Proof.
  intros Hk Hp. apply bool_decide_eq_true_2, map_Exists_lookup. eauto.
Qed.

Lemma phone_in_use_false p d :
  (forall k o, users d !! k = Some o -> User.phone o ≠ p) ->
  phone_in_use p d = false.
Proof.
  intros Hfree. apply bool_decide_eq_false_2.
  intros (k & o & Hk & Hp)%map_Exists_lookup. exact (Hfree k o Hk Hp).
Qed.

(** X25. An admin creating a user whose phone number, stripped, is already
    some user's gets 409 and nothing is written; when no user has it, the
    user is stored under a fresh id with the stripped name and phone, the
    role and activation given and the hash of the password, no other row
    changes, and a user table with every user under their own id and no
    phone shared keeps both properties. Assumed: the caller is an admin,
    the phone is not blank, the id drawn is fresh. *)
Theorem admin_create_user_adds_one_user_with_a_new_phone
  (hash_password : string -> string)
  (d : DB) (fs : FS) (ids : nat -> string) (payload : AdminUserCreate.t)
  (admin : User.t) :
  User.role admin = ADMIN ->
  Py.strip (AdminUserCreate.phone payload) ≠ "" ->
  let run := request (admin_create_user hash_password payload admin) d fs ids in
  let phone := Py.strip (AdminUserCreate.phone payload) in
  (forall k o, users d !! k = Some o -> User.phone o = phone ->
     run = (Raised (HTTPException 409 "A user with this phone already exists"),
            d, fs))
  ∧ ((forall k o, users d !! k = Some o -> User.phone o ≠ phone) ->
     users d !! ids 0%nat = None ->
     let user := User.mk (ids 0%nat) (Py.strip (AdminUserCreate.name payload))
                   phone (AdminUserCreate.role payload)
                   (hash_password (AdminUserCreate.password payload))
                   (AdminUserCreate.is_active payload) in
     ∃ d',
       run = (Returned user, d', fs)
       ∧ users d' = <[ids 0%nat := user]> (users d)
       ∧ tow_jobs d' = tow_jobs d
       ∧ tow_job_photos d' = tow_job_photos d
       ∧ tow_job_events d' = tow_job_events d
       ∧ (keys_are_ids d -> phones_unique d ->
          keys_are_ids d' ∧ phones_unique d')).
Proof.
  intros Hrole Hblank. cbv zeta. rewrite admin_create_user_run, Hrole.
  rewrite bool_decide_eq_true_2 by constructor. cbv zeta.
  apply String.eqb_neq in Hblank. rewrite Hblank. split.
  - intros k o Hk Hp. now rewrite (phone_in_use_true _ _ _ _ Hk Hp).
  - intros Hfree Hid. rewrite (phone_in_use_false _ _ Hfree), Hid.
    rewrite bool_decide_eq_false_2 by (intros [? ?]; discriminate).
    eexists. split; [reflexivity|].
    cbn [users tow_jobs tow_job_photos tow_job_events set_users].
    do 4 (split; [reflexivity|]). intros Hkeys Huniq. split.
    + apply map_Forall_insert_2; [reflexivity|exact Hkeys].
    + unfold phones_unique in *. cbn [users set_users].
      intros i u Hi j v Hj Hphone.
      apply lookup_insert_Some in Hi as [[<- <-]|[Hi' Hi]];
        apply lookup_insert_Some in Hj as [[<- <-]|[Hj' Hj]];
        try reflexivity.
      * destruct (Hfree _ _ Hj (eq_sym Hphone)).
      * destruct (Hfree _ _ Hi Hphone).
      * exact (Huniq _ _ Hi _ _ Hj Hphone).
Qed.

Lemma admin_create_user_adds_one_user_with_a_new_phone_witness :
  let hash (p : string) := "argon2:" ++ p in
  let payload := AdminUserCreate.mk " Driver Two " " +252634000009 " DRIVER
                   "driver456" true in
  let user := User.mk "id-0" "Driver Two" "+252634000009" DRIVER
                "argon2:driver456" true in
  ∃ d',
    request (admin_create_user hash payload Sample.admin)
            Sample.seeded Sample.fs Sample.ids
    = (Returned user, d', Sample.fs)
    ∧ users d' = <["id-0" := user]> (users Sample.seeded)
    ∧ tow_jobs d' = tow_jobs Sample.seeded
    ∧ tow_job_photos d' = tow_job_photos Sample.seeded
    ∧ tow_job_events d' = tow_job_events Sample.seeded
    ∧ (keys_are_ids Sample.seeded -> phones_unique Sample.seeded ->
       keys_are_ids d' ∧ phones_unique d').
Proof.
  cbv zeta.
  apply (proj2 (admin_create_user_adds_one_user_with_a_new_phone
                  (fun p => "argon2:" ++ p) Sample.seeded Sample.fs Sample.ids
                  (AdminUserCreate.mk " Driver Two " " +252634000009 " DRIVER
                                      "driver456" true)
                  Sample.admin eq_refl ltac:(vm_compute; discriminate))).
  - refine (proj1 (bool_decide_eq_true _) _). vm_compute. reflexivity.
  - vm_compute; reflexivity.
Defined.

Lemma admin_reset_password_run hash_password user_id new_password admin d fs ids :
  request (admin_reset_password hash_password user_id new_password admin) d fs ids =
  if bool_decide (User.role admin ∈ [ADMIN]) then
    match users d !! user_id with
    | None => (Raised (HTTPException 404 "User not found"), d, fs)
    | Some user =>
        if bool_decide (User.id user = User.id admin)
        then (Raised (bad_request "You cannot reset your own password here"),
              d, fs)
        else (Returned tt,
              set_users (<[user_id := set_user_password_hash
                                         (hash_password new_password) user]>
                           (users d)) d, fs)
    end
  else (Raised (HTTPException 403 "Forbidden"), d, fs).
Proof.
  unfold request, admin_reset_password. mrun. rewrite require_roles_run.
  destruct (bool_decide (User.role admin ∈ [ADMIN])); [|reflexivity].
  mrun. destruct (users d !! user_id) as [user|]; [|reflexivity].
  mrun. destruct (bool_decide (User.id user = User.id admin)); reflexivity.
Qed.

(** X26. A password reset changes one field of one row or nothing. When it
    is accepted, the caller is an admin, the target exists and is not the
    caller, and the target's row afterwards is the row before with the hash
    of the new password; when it is refused (403 for a caller who is no
    admin, 404 for a missing user, 400 for the caller's own account) no row
    changes. Either way every other user, and every job, photo and event,
    is as before. *)
Theorem admin_reset_password_changes_one_hash_or_nothing
  (hash_password : string -> string)
  (d : DB) (fs : FS) (ids : nat -> string) (user_id new_password : string)
  (admin : User.t) :
  let '(r, d', fs') :=
    request (admin_reset_password hash_password user_id new_password admin)
            d fs ids in
  fs' = fs
  ∧ tow_jobs d' = tow_jobs d
  ∧ tow_job_photos d' = tow_job_photos d
  ∧ tow_job_events d' = tow_job_events d
  ∧ (forall i, i ≠ user_id -> users d' !! i = users d !! i)
  ∧ match r with
    | Returned _ =>
        User.role admin = ADMIN
        ∧ ∃ target,
            users d !! user_id = Some target
            ∧ User.id target ≠ User.id admin
            ∧ users d' !! user_id
              = Some (User.mk (User.id target) (User.name target)
                        (User.phone target) (User.role target)
                        (hash_password new_password) (User.is_active target))
    | Raised e =>
        d' = d
        ∧ e ∈ [HTTPException 403 "Forbidden";
               HTTPException 404 "User not found";
               HTTPException 400 "You cannot reset your own password here"]
    end.
Proof.
  rewrite admin_reset_password_run.
  case_bool_decide as Hrole; [|repeat split; repeat constructor].
  apply list_elem_of_singleton in Hrole.
  destruct (users d !! user_id) as [target|] eqn:Htarget;
    [|repeat split; repeat constructor].
  case_bool_decide as Hself; [repeat split; repeat constructor|].
  cbn [users tow_jobs tow_job_photos tow_job_events set_users].
  repeat split; try assumption.
  - intros i Hne. now rewrite lookup_insert_ne.
  - exists target. repeat split; [assumption|]. apply lookup_insert_eq.
Qed.

(** ** Seeding *)

Lemma size_users_positive (d : DB) :
  bool_decide (0 < size (users d))%nat = negb (bool_decide (users d = ∅)).
Proof.
  destruct (decide (users d = ∅)) as [E|E].
  - rewrite E, map_size_empty. rewrite (bool_decide_eq_false_2 (0 < 0)%nat) by lia.
    now rewrite bool_decide_eq_true_2 by reflexivity.
  - rewrite (bool_decide_eq_false_2 _ E). cbn.
    apply bool_decide_eq_true_2. apply map_size_non_empty_iff in E. lia.
Qed.

Lemma seed_users_skips_a_populated_table hash_password d fs ids :
  users d ≠ ∅ ->
  request (seed_users hash_password) d fs ids = (Returned tt, d, fs).
Proof.
  intros Hne. unfold request, seed_users. mrun.
  now rewrite size_users_positive, (bool_decide_eq_false_2 _ Hne).
Qed.

(** The users [seed_users] writes for the ids [i1] to [i4]. *)
Lemma seed_users_run hash_password d fs ids :
  users d = ∅ ->
  NoDup [ids 0%nat; ids 1%nat; ids 2%nat; ids 3%nat] ->
  request (seed_users hash_password) d fs ids
  = (Returned tt,
     set_users
       (<[ids 3%nat := User.mk (ids 3%nat) "Admin" "+252634000004" ADMIN
                         (hash_password "admin123") true]>
          (<[ids 2%nat := User.mk (ids 2%nat) "Dispatcher One" "+252634000003"
                            DISPATCHER (hash_password "dispatch123") true]>
             (<[ids 1%nat := User.mk (ids 1%nat) "Driver One" "+252634000002"
                               DRIVER (hash_password "driver123") true]>
                (<[ids 0%nat := User.mk (ids 0%nat) "Officer One"
                                  "+252634000001" OFFICER
                                  (hash_password "officer123") true]> ∅))))
       d, fs).
Proof.
  intros Hempty Hnd.
  apply NoDup_cons in Hnd as [H0 Hnd]. apply NoDup_cons in Hnd as [H1 Hnd].
  apply NoDup_cons in Hnd as [H2 _].
  apply not_elem_of_cons in H0 as [H01 H0], H1 as [H12 H1], H2 as [H23 _].
  apply not_elem_of_cons in H0 as [H02 H0], H1 as [H13 _].
  apply not_elem_of_cons in H0 as [H03 _].
  unfold request, seed_users, db_add_user. mrun.
  rewrite size_users_positive, Hempty.
  rewrite bool_decide_eq_true_2 by reflexivity. cbn [negb]. mseq.
  rewrite !pending_insert_stale, !pending_insert_committed.
  cbn [stale orb].
  do 4 (rewrite pending_insert_concrete;
        cbn [working users set_users User.id User.phone];
        rewrite ?Hempty, ?lookup_insert_ne, ?lookup_empty by congruence;
        rewrite (bool_decide_eq_false_2 (is_Some None))
          by (intros [? ?]; discriminate);
        cbn [orb];
        match goal with
        | |- context [phone_in_use ?p ?D] =>
            rewrite (phone_in_use_false p D)
              by (intros k o Hk; cbn [users set_users] in Hk;
                  repeat (apply lookup_insert_Some in Hk as [[_ <-]|[_ Hk]];
                          [discriminate|]);
                  rewrite ?Hempty, lookup_empty in Hk; discriminate)
        end).
  mseq. reflexivity.
Qed.

(** X27. Seeding fills an empty user table once and leaves a populated one
    alone. On an empty table it commits four users under the four ids
    drawn, one active user for each role, each stored under their own id
    and no two with the same phone, and touches nothing else; on a table
    with a user in it, and so on the table it has just filled, it changes
    nothing. Assumed for an empty table: the four ids drawn differ. *)
Theorem seed_users_fills_an_empty_table_once
  (hash_password : string -> string)
  (d : DB) (fs : FS) (ids ids' : nat -> string) :
  (users d ≠ ∅ ->
   request (seed_users hash_password) d fs ids = (Returned tt, d, fs))
  ∧ (users d = ∅ ->
     NoDup [ids 0%nat; ids 1%nat; ids 2%nat; ids 3%nat] ->
     ∃ d',
       request (seed_users hash_password) d fs ids = (Returned tt, d', fs)
       ∧ size (users d') = 4%nat
       ∧ keys_are_ids d' ∧ phones_unique d'
       ∧ (forall r : UserRole,
            ∃ u, u ∈ all_users d' ∧ User.role u = r ∧ User.is_active u = true)
       ∧ tow_jobs d' = tow_jobs d
       ∧ tow_job_photos d' = tow_job_photos d
       ∧ tow_job_events d' = tow_job_events d
       ∧ request (seed_users hash_password) d' fs ids' = (Returned tt, d', fs)).
Proof.
  split; [apply seed_users_skips_a_populated_table|].
  intros Hempty Hnd. eexists. split; [now apply seed_users_run|].
  apply NoDup_cons in Hnd as [H0 Hnd]. apply NoDup_cons in Hnd as [H1 Hnd].
  apply NoDup_cons in Hnd as [H2 _].
  apply not_elem_of_cons in H0 as [H01 H0], H1 as [H12 H1], H2 as [H23 _].
  apply not_elem_of_cons in H0 as [H02 H0], H1 as [H13 _].
  apply not_elem_of_cons in H0 as [H03 _].
  unfold keys_are_ids, phones_unique.
  cbn [users tow_jobs tow_job_photos tow_job_events set_users].
  split.
  { rewrite !map_size_insert_None, map_size_empty; [reflexivity|..];
      rewrite ?lookup_insert_ne by congruence; apply lookup_empty. }
  split.
  { repeat (apply map_Forall_insert_2; [reflexivity|]). apply map_Forall_empty. }
  split.
  { intros i u Hi j v Hj Hphone.
    repeat (apply lookup_insert_Some in Hi as [[<- <-]|[? Hi]]);
      try (rewrite lookup_empty in Hi; discriminate);
      repeat (apply lookup_insert_Some in Hj as [[<- <-]|[? Hj]]);
      try (rewrite lookup_empty in Hj; discriminate);
      first [reflexivity | discriminate Hphone]. }
  split.
  { intros r.
    destruct r;
      [exists (User.mk (ids 0%nat) "Officer One" "+252634000001" OFFICER
                       (hash_password "officer123") true)
      |exists (User.mk (ids 1%nat) "Driver One" "+252634000002" DRIVER
                       (hash_password "driver123") true)
      |exists (User.mk (ids 2%nat) "Dispatcher One" "+252634000003" DISPATCHER
                       (hash_password "dispatch123") true)
      |exists (User.mk (ids 3%nat) "Admin" "+252634000004" ADMIN
                       (hash_password "admin123") true)];
      (split; [|split; reflexivity]); apply elem_of_all_users;
      cbn [users set_users];
      [exists (ids 0%nat)|exists (ids 1%nat)|exists (ids 2%nat)|exists (ids 3%nat)];
      rewrite ?lookup_insert_ne by congruence; apply lookup_insert_eq. }
  do 3 (split; [reflexivity|]).
  apply seed_users_skips_a_populated_table. cbn [users set_users].
  apply insert_non_empty.
Qed.

Lemma seed_users_fills_an_empty_table_once_witness :
  let hash (p : string) := "argon2:" ++ p in
  let empty := {| users := ∅; tow_jobs := ∅; tow_job_photos := [];
                  tow_job_events := [] |} in
  ∃ d',
    request (seed_users hash) empty Sample.fs Sample.ids
    = (Returned tt, d', Sample.fs)
    ∧ size (users d') = 4%nat
    ∧ keys_are_ids d' ∧ phones_unique d'
    ∧ (forall r : UserRole,
         ∃ u, u ∈ all_users d' ∧ User.role u = r ∧ User.is_active u = true)
    ∧ tow_jobs d' = tow_jobs empty
    ∧ tow_job_photos d' = tow_job_photos empty
    ∧ tow_job_events d' = tow_job_events empty
    ∧ request (seed_users hash) d' Sample.fs Sample.ids
      = (Returned tt, d', Sample.fs).
Proof.
  cbv zeta.
  apply (proj2 (seed_users_fills_an_empty_table_once
                  (fun p => "argon2:" ++ p)
                  {| users := ∅; tow_jobs := ∅; tow_job_photos := [];
                     tow_job_events := [] |}
                  Sample.fs Sample.ids Sample.ids) eq_refl).
  refine (proj1 (bool_decide_eq_true _) _). vm_compute. reflexivity.
Defined.

(** ** The signing secret *)

Lemma prefix_nil_r (p : string) : String.prefix p "" = true -> p = "".
Proof. now destruct p. Qed.

Lemma prefix_nil_l (s : string) : String.prefix "" s = true.
Proof. now destruct s. Qed.

Lemma prefix_app (p b c : string) :
  String.prefix p b = true -> String.prefix p (b ++ c) = true.
Proof.
  revert b. induction p as [|a p IH]; intros b; [intros _; apply prefix_nil_l|].
  destruct b as [|x b]; [discriminate|]. rewrite append_cons. cbn.
  destruct (ascii_dec a x); [apply IH|discriminate].
Qed.

Lemma str_in_nil (s : string) : str_in "" s = true.
Proof. destruct s; [reflexivity|]. cbn. now destruct s. Qed.

Lemma str_in_app_l (sub a b : string) :
  str_in sub b = true -> str_in sub (a ++ b) = true.
Proof.
  intros H. induction a as [|x a IH]; [now rewrite append_nil|].
  rewrite append_cons. cbn [str_in]. rewrite IH. apply orb_true_r.
Qed.

Lemma str_in_app_r (sub b c : string) :
  str_in sub b = true -> str_in sub (b ++ c) = true.
Proof.
  induction b as [|x b IH].
  - cbn [str_in]. intros ->%prefix_nil_r. apply str_in_nil.
  - rewrite append_cons. cbn [str_in]. intros [H|H]%orb_true_iff.
    + rewrite <- append_cons, (prefix_app _ _ _ H). reflexivity.
    + rewrite (IH H). apply orb_true_r.
Qed.

Lemma lstrip_is_suffix (s : string) : ∃ pre, s = pre ++ Py.lstrip s.
Proof.
  induction s as [|a s [pre IH]]; [now exists ""|]. cbn.
  destruct (Py.isspace a).
  - exists (String a pre). now rewrite append_cons, <- IH.
  - now exists "".
Qed.

Lemma rstrip_is_prefix (s : string) : ∃ post, s = Py.rstrip s ++ post.
Proof.
  induction s as [|a s [post IH]]; [now exists ""|]. cbn.
  destruct (Py.rstrip s) as [|b r] eqn:E.
  - destruct (Py.isspace a).
    + exists (String a s). now rewrite append_nil.
    + exists s. now rewrite append_cons, append_nil.
  - exists post. rewrite append_cons. now rewrite <- IH.
Qed.

Lemma strip_is_infix (s : string) : ∃ pre post, s = pre ++ Py.strip s ++ post.
Proof.
  destruct (lstrip_is_suffix s) as [pre Hpre].
  destruct (rstrip_is_prefix (Py.lstrip s)) as [post Hpost].
  exists pre, post. unfold Py.strip. now rewrite <- Hpost.
Qed.

Lemma map_chars_app f (a b : string) :
  Py.map_chars f (a ++ b) = Py.map_chars f a ++ Py.map_chars f b.
Proof.
  induction a as [|x a IH]; [now rewrite !append_nil|].
  rewrite append_cons. cbn. now rewrite IH, append_cons.
Qed.

Lemma length_map_chars f (s : string) :
  String.length (Py.map_chars f s) = String.length s.
Proof. induction s as [|a s IH]; cbn; congruence. Qed.

Lemma str_in_upper_strip (sub s : string) :
  str_in sub (Py.upper (Py.strip s)) = true -> str_in sub (Py.upper s) = true.
Proof.
  intros H. destruct (strip_is_infix s) as (pre & post & E).
  rewrite E at 1. unfold Py.upper in *. rewrite !map_chars_app.
  now apply str_in_app_l, str_in_app_r.
Qed.

(** X28. A secret that passes [validate_secret] is kept stripped, has at
    least 32 characters, does not contain CHANGE_ME in any letter case, and
    passes again unchanged: validation is idempotent on what it accepts. *)
Theorem validate_secret_accepts_only_long_real_secrets (v s : string) :
  validate_secret v = Accepted s ->
  s = Py.strip v
  ∧ (32 <= String.length s)%nat
  ∧ str_in "CHANGE_ME" (Py.upper s) = false
  ∧ validate_secret s = Accepted s.
Proof.
  unfold validate_secret.
  destruct (String.eqb v "" || _) eqn:Hshort; [discriminate|].
  destruct (str_in "CHANGE_ME" (Py.upper v)) eqn:Hplace; [discriminate|].
  intros [= <-]. apply orb_false_iff in Hshort as [_ Hlen].
  apply Nat.ltb_ge in Hlen.
  assert (Hclean : str_in "CHANGE_ME" (Py.upper (Py.strip v)) = false).
  { destruct (str_in "CHANGE_ME" (Py.upper (Py.strip v))) eqn:E; [|reflexivity].
    apply str_in_upper_strip in E. congruence. }
  repeat split; [exact Hlen|exact Hclean|].
  rewrite strip_stripped, Hclean.
  replace (String.eqb (Py.strip v) "") with false
    by (destruct (Py.strip v); [cbn in Hlen; lia|reflexivity]).
  apply Nat.ltb_ge in Hlen. now rewrite Hlen.
Qed.

Lemma validate_secret_accepts_only_long_real_secrets_witness :
  let v := "  0123456789abcdef0123456789abcdef  " in
  let s := "0123456789abcdef0123456789abcdef" in
  s = Py.strip v
  ∧ (32 <= String.length s)%nat
  ∧ str_in "CHANGE_ME" (Py.upper s) = false
  ∧ validate_secret s = Accepted s.
Proof.
  cbv zeta.
  apply (validate_secret_accepts_only_long_real_secrets
           "  0123456789abcdef0123456789abcdef  "
           "0123456789abcdef0123456789abcdef").
  vm_compute; reflexivity.
Defined.

(** X29. The user listing is for dispatchers and admins only (403
    otherwise) and writes nothing; without a role filter, or with an empty
    one, it returns exactly the stored users, with a role value exactly the
    stored users of that role, and a non-empty filter that is no role value
    is answered 400. *)
Theorem list_users_lists_the_users_of_the_role
  (d : DB) (fs : FS) (ids : nat -> string) (role : option string)
  (user : User.t) :
  let run := request (list_users role user) d fs ids in
  ((User.role user ∉ [DISPATCHER; ADMIN]) ->
   run = (Raised (HTTPException 403 "Forbidden"), d, fs))
  ∧ (User.role user ∈ [DISPATCHER; ADMIN] ->
     match role with
     | Some (String a s) =>
         match UserRole_of_value (String a s) with
         | Some r =>
             ∃ listed, run = (Returned listed, d, fs)
                       ∧ forall u, u ∈ listed
                                   ↔ (∃ k, users d !! k = Some u)
                                     ∧ User.role u = r
         | None => run = (Raised (HTTPException 400 "Invalid role"), d, fs)
         end
     | _ =>
         ∃ listed, run = (Returned listed, d, fs)
                   ∧ forall u, u ∈ listed ↔ ∃ k, users d !! k = Some u
     end).
Proof.
  cbv zeta. unfold request, list_users. mrun. rewrite require_roles_run. split.
  - intros Hrole. now rewrite (bool_decide_eq_false_2 _ Hrole).
  - intros Hrole. rewrite (bool_decide_eq_true_2 _ Hrole). mrun.
    destruct role as [[|a s]|].
    + mrun. eexists. split; [reflexivity|]. intros u.
      rewrite elem_of_filter_bool, elem_of_all_users. tauto.
    + destruct (UserRole_of_value (String a s)) as [r|]; [|reflexivity].
      mrun. eexists. split; [reflexivity|]. intros u.
      now rewrite elem_of_filter_bool, elem_of_all_users, bool_decide_eq_true.
    + mrun. eexists. split; [reflexivity|]. intros u.
      rewrite elem_of_filter_bool, elem_of_all_users. tauto.
Qed.

Lemma list_users_lists_the_users_of_the_role_witness :
  ∃ listed,
    request (list_users (Some "DRIVER") Sample.dispatcher)
            Sample.seeded Sample.fs Sample.ids
    = (Returned listed, Sample.seeded, Sample.fs)
    ∧ forall u, u ∈ listed
                ↔ (∃ k, users Sample.seeded !! k = Some u)
                  ∧ User.role u = DRIVER.
Proof.
  apply (proj2 (list_users_lists_the_users_of_the_role Sample.seeded Sample.fs
                  Sample.ids (Some "DRIVER") Sample.dispatcher)).
  constructor.
Defined.

(** ** The audit log only grows *)

Lemma keeps_log_pending_insert l taken ins (s : Session) :
  (forall d, tow_job_events d `prefix_of` tow_job_events (ins d)) ->
  log_extends l s -> log_extends l (pending_insert taken ins s).
Proof.
  intros Hins [Hc Hw]. unfold pending_insert, log_extends.
  destruct (taken (working s)); cbn; [tauto|].
  split; [exact Hc|]. now transitivity (tow_job_events (working s)).
Qed.

Lemma keeps_log_db_add_job l j : keeps (log_extends l) (db_add_job j).
Proof. intros w H. now apply keeps_log_pending_insert. Qed.

Lemma keeps_log_db_add_photo l p : keeps (log_extends l) (db_add_photo p).
Proof. intros w H. now apply keeps_log_pending_insert. Qed.

Lemma keeps_log_db_add_event l e : keeps (log_extends l) (db_add_event e).
Proof.
  intros w H. apply keeps_log_pending_insert; [|exact H].
  intros d. now apply prefix_app_r.
Qed.

Lemma keeps_log_db_commit l : keeps (log_extends l) db_commit.
Proof.
  intros w [Hc Hw]. unfold db_commit, log_extends.
  destruct (stale (db w)); cbn; tauto.
Qed.

Lemma keeps_log_db_modify l (f : DB -> DB) :
  (forall d, tow_job_events (f d) = tow_job_events d) ->
  keeps (log_extends l) (db_modify f).
Proof.
  intros Hf w [Hc Hw]. unfold db_modify, log_extends. cbn.
  now rewrite Hf.
Qed.

Lemma keeps_log__log_event l j a ty msg :
  keeps (log_extends l) (_log_event j a ty msg).
Proof.
  unfold _log_event. apply keeps_bind; [apply keeps_uuid4|intros i].
  apply keeps_log_db_add_event.
Qed.

Lemma request_keeps_log {A} (h : M A) d fs ids :
  keeps (log_extends (tow_job_events d)) h ->
  tow_job_events d `prefix_of` tow_job_events (snd (fst (request h d fs ids))).
Proof.
  intros Hh. unfold request.
  match goal with
  | |- context [h ?w] => pose proof (Hh w) as H; destruct (h w) as [r w']
  end.
  cbn in *. now apply H.
Qed.

(** X30. The audit log is append-only: whatever their outcome, job
    creation, driver assignment, status update, photo upload and evidence
    submission leave every event that was committed before the request in
    place and in order, and only add events after them. *)
Theorem audit_log_is_append_only
  (settings : Settings) (float_str : float -> string)
  (fromisoformat : string -> option datetime)
  (d : DB) (fs : FS) (ids : nat -> string) (user : User.t) :
  let after {A} (h : M A) := tow_job_events (snd (fst (request h d fs ids))) in
  (forall payload,
     tow_job_events d `prefix_of` after (create_tow_job payload user))
  ∧ (forall job_id payload,
       tow_job_events d `prefix_of` after (assign_driver job_id payload user))
  ∧ (forall job_id payload,
       tow_job_events d `prefix_of` after (update_status job_id payload user))
  ∧ (forall job_id photo photo_type lat lng accuracy_m captured_at,
       tow_job_events d
       `prefix_of` after (upload_job_photo settings float_str fromisoformat
                            job_id photo photo_type lat lng accuracy_m
                            captured_at user))
  ∧ (forall plate_number job_lat job_lng job_accuracy_m violation_type notes
            photo photo_type photo_lat photo_lng photo_accuracy_m captured_at,
       tow_job_events d
       `prefix_of` after (submit_evidence settings float_str fromisoformat
                            plate_number job_lat job_lng job_accuracy_m
                            violation_type notes photo photo_type photo_lat
                            photo_lng photo_accuracy_m captured_at user)).
Proof.
  cbv zeta.
  pose proof (keeps_log_db_add_job (tow_job_events d)).
  pose proof (keeps_log_db_add_photo (tow_job_events d)).
  pose proof (keeps_log_db_commit (tow_job_events d)).
  pose proof (keeps_log__log_event (tow_job_events d)).
  pose proof (fun f => keeps_log_db_modify (tow_job_events d) f) as Hmodify.
  pose proof (fun u => keeps_session_free (log_extends (tow_job_events d)) _
                         (session_free_save_upload_streaming settings u)).
  repeat split; intros; apply request_keeps_log.
  - unfold create_tow_job. repeat frame_step.
  - unfold assign_driver. repeat frame_step.
  - unfold update_status. repeat frame_step.
  - unfold upload_job_photo, check_photo_geo, _parse_iso_datetime, bad_request.
    repeat frame_step.
  - unfold submit_evidence, check_photo_geo, _parse_iso_datetime, bad_request.
    repeat frame_step.
Qed.
